(** * open-ecg-generator: the signal synthesis engine

    A shallow embedding of [packages/core]: the adaptive Dormand-Prince
    integrator ([math/ode-solver.ts]), the ECGSYN model
    ([models/ecgsyn.ts], [models/ecgsyn-enhanced.ts]) and the
    [ECGGenerator] class ([ECGGenerator.ts]), followed by the properties
    of the specification checked against them.

    Numbers.  A JavaScript [number] is an IEEE 754 binary64 value, which
    is what Rocq's primitive [float] is, so the arithmetic of the source
    ([+ - * /], comparisons, [Math.sqrt], [Math.abs]) is the kernel's.
    [Math.floor], [Math.ceil], [Math.round], [Math.min], [Math.max] and
    the remainder operator [%] are exact functions of their arguments
    and are defined below from the binary expansion of a float.
    [Math.sin], [Math.cos], [Math.exp], [Math.log], [Math.pow],
    [Math.atan2] and [Math.random] belong to the host: ECMAScript only
    asks for an approximation of the first six and for some value in
    [0, 1) of the last, so the model takes them from a [Host] record.

    Objects used as tables.  A lookup [table[key]] on an object literal
    finds the literal's own properties and, for a key that is none of
    them, the members it inherits from [Object.prototype]
    ([hasOwnProperty], [toString], ...).  The source calls what it
    finds, so both are modelled, with what the inherited members do
    when they are called as plain functions. *)

From Stdlib Require Import ZArith Floats List Lia Bool.
From stdpp Require Import gmap strings.
Import ListNotations.

Set Warnings "-inexact-float".

(** ** JavaScript numbers *)

Module JS.

Local Open Scope float_scope.

(** [ToBoolean] on a number: [0], [-0] and [NaN] are falsy. *)
Definition truthy (x : float) : bool := negb (is_nan x || is_zero x).

Definition Math_PI : float := 3.141592653589793.

Definition Math_abs : float -> float := abs.
Definition Math_sqrt : float -> float := sqrt.

Definition Math_min (a b : float) : float :=
  if is_nan a || is_nan b then nan
  else if a <? b then a
  else if b <? a then b
  else if get_sign a then a else b.

Definition Math_max (a b : float) : float :=
  if is_nan a || is_nan b then nan
  else if a <? b then b
  else if b <? a then a
  else if get_sign a then b else a.

Definition isFinite (x : float) : bool := is_finite x.

(** The nearest double of an integer (exact up to [2^53]). *)
Definition of_Z (z : Z) : float := SF2Prim (binary_normalize prec emax z 0 false).
Definition of_nat (n : nat) : float := of_Z (Z.of_nat n).

(** A finite float [(-1)^s * m * 2^e] as an exact fraction [num / den]. *)
Definition numerator (s : bool) (m : positive) (e : Z) : Z :=
  (if s then Z.neg m else Z.pos m) * 2 ^ Z.max e 0.
Definition denominator (e : Z) : Z := 2 ^ Z.max (- e) 0.

(** Integer-valued numbers.  [Math.floor], [Math.ceil] and
    [Math.round] return a double that is an integer, an infinity or
    [NaN]; sample counts and array indexes are such numbers.  They are
    kept with their exact value ([-0] is read as [0]: the source only
    tests, subtracts from and indexes with them). *)
Inductive jsint : Type :=
| JNaN
| JInf (negative : bool)
| JInt (z : Z).

Definition to_float (i : jsint) : float :=
  match i with
  | JNaN => nan
  | JInf false => infinity
  | JInf true => neg_infinity
  | JInt z => of_Z z
  end.

Definition rounded (f : Z -> Z -> Z) (x : float) : jsint :=
  match Prim2SF x with
  | S754_nan => JNaN
  | S754_infinity s => JInf s
  | S754_zero _ => JInt 0
  | S754_finite s m e => JInt (f (numerator s m e) (denominator e))
  end.

Definition Math_floor : float -> jsint := rounded (fun n d => n / d)%Z.
Definition Math_ceil : float -> jsint := rounded (fun n d => - (- n / d))%Z.
(** [Math.round] rounds halves towards [+Infinity]. *)
Definition Math_round : float -> jsint := rounded (fun n d => (2 * n + d) / (2 * d))%Z.

Definition int_truthy (i : jsint) : bool :=
  match i with
  | JNaN => false
  | JInf _ => true
  | JInt z => negb (z =? 0)%Z
  end.

Definition int_mul (a b : jsint) : jsint :=
  match a, b with
  | JNaN, _ | _, JNaN => JNaN
  | JInt x, JInt y => JInt (x * y)
  | JInf s, JInt x | JInt x, JInf s =>
      if (x =? 0)%Z then JNaN else JInf (xorb s (x <? 0)%Z)
  | JInf s, JInf s' => JInf (xorb s s')
  end.

Definition int_succ (a : jsint) : jsint :=
  match a with
  | JInt x => JInt (x + 1)
  | _ => a
  end.

(** [i < n] for an array length [n]. *)
Definition int_lt_len (i : jsint) (n : Z) : bool :=
  match i with
  | JNaN => false
  | JInf s => s
  | JInt z => (z <? n)%Z
  end.

(** [n === i] for an array length [n]. *)
Definition len_eq_int (n : nat) (i : jsint) : bool :=
  match i with
  | JInt z => (Z.of_nat n =? z)%Z
  | _ => false
  end.

(** [arr[i]]: [None] is [undefined]. *)
Definition index {A} (arr : list A) (i : jsint) : option A :=
  match i with
  | JInt z => if (z <? 0)%Z then None else nth_error arr (Z.to_nat z)
  | _ => None
  end.

(** [undefined] read as a number is [NaN]. *)
Definition num (o : option float) : float :=
  match o with
  | Some x => x
  | None => nan
  end.

(** The remainder operator [a % b]: exact, with the sign of [a]. *)
Definition rem (a b : float) : float :=
  match Prim2SF a, Prim2SF b with
  | S754_nan, _ | _, S754_nan => nan
  | S754_infinity _, _ => nan
  | _, S754_zero _ => nan
  | _, S754_infinity _ => a
  | S754_zero _, _ => a
  | S754_finite sa ma ea, S754_finite _ mb eb =>
      let e := Z.min ea eb in
      let r := ((Z.pos ma * 2 ^ (ea - e)) mod (Z.pos mb * 2 ^ (eb - e)))%Z in
      SF2Prim (binary_normalize prec emax (if sa then - r else r)%Z e sa)
  end.

End JS.
Export JS.

(** ** The host, and computations that may throw or not return *)

Record Host : Type := {
  Math_sin : float -> float;
  Math_cos : float -> float;
  Math_exp : float -> float;
  Math_log : float -> float;
  Math_pow : float -> float -> float;
  Math_atan2 : float -> float -> float;
  (** the successive values of [Math.random()] *)
  Math_random : nat -> float
}.

(** What a call throws: an [Error] of the source, with its message, or
    a [TypeError] of the engine (whose message is the engine's own). *)
Inductive JsError : Type :=
| Error (message : string)
| TypeError.

(** A call returns a value, throws, or is still running when the fuel
    given to its loops is spent. *)
Inductive outcome (A : Type) : Type :=
| Returned (a : A)
| Thrown (e : JsError)
| Diverged.
Arguments Returned {A} a.
Arguments Thrown {A} e.
Arguments Diverged {A}.

Definition obind {A B} (c : outcome A) (k : A -> outcome B) : outcome B :=
  match c with
  | Returned a => k a
  | Thrown e => Thrown e
  | Diverged => Diverged
  end.

Declare Scope outcome_scope.
Delimit Scope outcome_scope with outcome.
Notation "'let*' x := c 'in' k" := (obind c (fun x => k))
  (at level 10, x pattern, c at level 100, k at level 200, only parsing) : outcome_scope.

(** ** Objects used as tables *)

(** The properties that every object literal inherits from
    [Object.prototype], with the four [__define*__] and [__lookup*__]
    members and [__proto__] that Node.js and the browsers have. *)
Definition Object_prototype : list string := [
  "constructor"; "__defineGetter__"; "__defineSetter__"; "hasOwnProperty";
  "__lookupGetter__"; "__lookupSetter__"; "isPrototypeOf"; "propertyIsEnumerable";
  "toString"; "valueOf"; "__proto__"; "toLocaleString"
]%string.

Definition inherits (key : string) : bool := existsb (String.eqb key) Object_prototype.

(** What [table[key]] finds on a literal whose own properties are
    functions of type [F]. *)
Inductive Member (F : Type) : Type :=
| Own (f : F)
| Inherited (name : string).
Arguments Own {F} f.
Arguments Inherited {F} name.

(** [table[key]]: an own property first, then the prototype; [None] is
    [undefined].  Every member found is truthy. *)
Definition Get {F} (table : gmap string F) (key : string) : option (Member F) :=
  match table !! key with
  | Some f => Some (Own f)
  | None => if inherits key then Some (Inherited key) else None
  end.

(** [member(argument)] for the inherited member of that name, read
    into a variable and called as a plain function on one object.  In
    module code [this] is then [undefined]:
    [Object.prototype.constructor] is [Object], and [Object(x)] is [x]
    itself for an object [x]; [Object.prototype.toString] answers
    ["[object Undefined]"]; [__proto__] is [Object.prototype] itself,
    which is not callable, and every other member converts [this] to an
    object: these throw a [TypeError]. *)
Definition Call {A} (name : string) (argument : A) : outcome (A + string) :=
  if String.eqb name "constructor" then Returned (inl argument)
  else if String.eqb name "toString" then Returned (inr "[object Undefined]"%string)
  else Thrown TypeError.

(** ** math/ode-solver.ts *)

Module OdeSolver.
Section OdeSolver.

Local Open Scope float_scope.
Local Open Scope outcome_scope.

Context (host : Host).
Context {P : Type}.

(** [(t, y, params) => number[]]; a JavaScript function may not return. *)
Definition ODEFunction : Type := float -> list float -> P -> outcome (list float).

Definition DP_A : list float := [0; 1/5; 3/10; 4/5; 8/9; 1; 1].
Definition DP_B : list (list float) := [
  [];
  [1/5];
  [3/40; 9/40];
  [44/45; -56/15; 32/9];
  [19372/6561; -25360/2187; 64448/6561; -212/729];
  [9017/3168; -355/33; 46732/5247; 49/176; -5103/18656];
  [35/384; 0; 500/1113; 125/192; -2187/6784; 11/84]
].
Definition DP_C5 : list float := [35/384; 0; 500/1113; 125/192; -2187/6784; 11/84; 0].
Definition DP_C4 : list float :=
  [5179/57600; 0; 7571/16695; 393/640; -92097/339200; 187/2100; 1/40].

(** [arr[j]] in arithmetic: a missing element is [undefined], hence [NaN]. *)
Definition at_ (arr : list float) (j : nat) : float := nth j arr nan.

(** [acc += h * row[m] * k[m][j]] for [m = 0 .. count-1], from [acc = yj]. *)
Definition accumulate (h : float) (row : list float) (k : list (list float))
    (count j : nat) (yj : float) : float :=
  fold_left (fun acc m => acc + h * at_ row m * at_ (nth m k []) j) (seq 0 count) yj.

(** The stages [k[i]] for [i] in [todo], given [k[0 .. i-1]]. *)
Fixpoint stages (func : ODEFunction) (t : float) (y : list float) (h : float)
    (params : P) (todo : list nat) (k : list (list float)) : outcome (list (list float)) :=
  match todo with
  | [] => Returned k
  | i :: rest =>
      let tNew := t + at_ DP_A i * h in
      let yNew := imap (fun j yj => accumulate h (nth i DP_B []) k i j yj) y in
      let* ki := func tNew yNew params in
      stages func t y h params rest (k ++ [ki])
  end.

Definition rk45Step (func : ODEFunction) (t : float) (y : list float) (h : float)
    (params : P) : outcome (list float * list float * list float) :=
  let* k0 := func t y params in
  let* k := stages func t y h params (seq 1 6) [k0] in
  let y5 := imap (fun j yj => accumulate h DP_C5 k 7 j yj) y in
  let y4 := imap (fun j yj => accumulate h DP_C4 k 7 j yj) y in
  let error := imap (fun j _ => Math_abs (at_ y5 j - at_ y4 j)) y in
  Returned (y5, y4, error).

(** [while (i < tOriginal.length - 1 && tOriginal[i + 1] < t) i++], on the
    suffix of [tOriginal] that starts at index [i]. *)
Fixpoint bracket (ts : list float) (t : float) (i : nat) : nat :=
  match ts with
  | _ :: ((t1 :: _) as rest) => if t1 <? t then bracket rest t (S i) else i
  | _ => i
  end.

Definition interpolateMulti (tOriginal : list float) (yOriginal : list (list float))
    (tNew : list float) : list (list float) :=
  map (fun t =>
    let i := bracket tOriginal t 0 in
    if (Z.of_nat i =? Z.of_nat (length tOriginal) - 1)%Z then nth i yOriginal []
    else if at_ tOriginal i =? t then nth i yOriginal []
    else
      let t0 := at_ tOriginal i in
      let t1 := at_ tOriginal (i + 1) in
      let alpha := (t - t0) / (t1 - t0) in
      let y0 := nth i yOriginal [] in
      let y1 := nth (i + 1) yOriginal [] in
      imap (fun j val => val + alpha * (at_ y1 j - val)) y0) tNew.

(** [interpolate]: the one-dimensional resampling the package exports.
    A missing [yOriginal[i]] is pushed as [undefined], read as [NaN]. *)
Definition interpolate (xOriginal yOriginal xNew : list float) : list float :=
  map (fun x =>
    let i := bracket xOriginal x 0 in
    if (Z.of_nat i =? Z.of_nat (length xOriginal) - 1)%Z then at_ yOriginal i
    else if at_ xOriginal i =? x then at_ yOriginal i
    else
      let x0 := at_ xOriginal i in
      let x1 := at_ xOriginal (i + 1) in
      let y0 := at_ yOriginal i in
      let y1 := at_ yOriginal (i + 1) in
      y0 + ((x - x0) / (x1 - x0)) * (y1 - y0)) xNew.

Record ODESolverOptions : Type := {
  initialConditions : list float;
  timeSpan : float * float;
  timePoints : option jsint;
  params : P;
  tolerance : option float;
  minStepSize : option float;
  maxStepSize : option float
}.

(** The variables of the adaptive loop. *)
Record SolverState : Type := {
  currentT : float;
  currentY : list float;
  stepSize : float;
  tResult : list float;
  yResult : list (list float)
}.

(** [Math.sqrt(error.reduce((sum, e) => sum + e * e, 0)) / error.length] *)
Definition errorNorm (error : list float) : float :=
  Math_sqrt (fold_left (fun sum e => sum + e * e) error 0) / of_nat (length error).

Section Loop.
Variables (func : ODEFunction) (prm : P) (tf tol minStep maxStep : float).

(** [if (currentT + stepSize > tf) stepSize = tf - currentT] *)
Definition clamped (st : SolverState) : float :=
  if tf <? currentT st + stepSize st then tf - currentT st else stepSize st.

Definition accepts (errNorm h : float) : bool :=
  (errNorm <? tol) || (h <=? minStep).

Definition grown (errNorm h : float) : float :=
  if 0 <? errNorm then
    Math_min maxStep (h * Math_min 2.0 (0.9 * Math_pow host (tol / errNorm) 0.2))
  else h.

Definition shrunk (errNorm h : float) : float :=
  Math_max minStep (h * Math_max 0.1 (0.9 * Math_pow host (tol / errNorm) 0.25)).

(** One turn of [while (currentT < tf)]. *)
Definition attempt (st : SolverState) : outcome SolverState :=
  let h := clamped st in
  let* (yNext5, _, error) := rk45Step func (currentT st) (currentY st) h prm in
  let errNorm := errorNorm error in
  if accepts errNorm h then
    let t' := currentT st + h in
    Returned {| currentT := t';
                currentY := yNext5;
                stepSize := grown errNorm h;
                tResult := tResult st ++ [t'];
                yResult := yResult st ++ [yNext5] |}
  else
    Returned {| currentT := currentT st;
                currentY := currentY st;
                stepSize := shrunk errNorm h;
                tResult := tResult st;
                yResult := yResult st |}.

Fixpoint adaptive (fuel : nat) (st : SolverState) : outcome SolverState :=
  if currentT st <? tf then
    match fuel with
    | O => Diverged
    | S fuel' => let* st' := attempt st in adaptive fuel' st'
    end
  else Returned st.
End Loop.

(** The number of turns of [for (let i = 0; i < timePoints; i++)]: the
    counter stops growing at [2^53]. *)
Definition turns (timePoints : jsint) : outcome nat :=
  match timePoints with
  | JNaN => Returned O
  | JInf true => Returned O
  | JInf false => Diverged
  | JInt z => if (z <=? 2 ^ 53)%Z then Returned (Z.to_nat z) else Diverged
  end.

(** Lines 45-105 of [solveODE]: the options are read, the initial point
    is stored and the adaptive loop runs; the result is the state in
    which the loop ends. *)
Definition stepping (fuel : nat) (func : ODEFunction) (options : ODESolverOptions)
    : outcome SolverState :=
  let tol := default 1e-6 (tolerance options) in
  let minStep := default 1e-8 (minStepSize options) in
  let '(t0, tf) := timeSpan options in
  let duration := tf - t0 in
  let targetSpacing :=
    match timePoints options with
    | Some tp => if int_truthy tp then Some (duration / (to_float tp - 1)) else None
    | None => None
    end in
  let defaultMaxStep :=
    match targetSpacing with
    | Some s => if truthy s then s / 2 else 0.01
    | None => 0.01
    end in
  let maxStep :=
    match maxStepSize options with
    | Some m => if truthy m then m else defaultMaxStep
    | None => defaultMaxStep
    end in
  let start := {| currentT := t0;
                  currentY := initialConditions options;
                  stepSize := maxStep;
                  tResult := [t0];
                  yResult := [initialConditions options] |} in
  adaptive func (params options) tf tol minStep maxStep fuel start.

Definition solveODE (fuel : nat) (func : ODEFunction) (options : ODESolverOptions)
    : outcome (list float * list (list float)) :=
  let '(t0, tf) := timeSpan options in
  let duration := tf - t0 in
  let* final := stepping fuel func options in
  match timePoints options with
  | Some tp =>
      if int_truthy tp && negb (len_eq_int (length (tResult final)) tp) then
        let* n := turns tp in
        let tInterp :=
          map (fun i => t0 + (of_nat i * duration) / (to_float tp - 1)) (seq 0 n) in
        Returned (tInterp, interpolateMulti (tResult final) (yResult final) tInterp)
      else Returned (tResult final, yResult final)
  | None => Returned (tResult final, yResult final)
  end.

End OdeSolver.
End OdeSolver.

(** ** Computations that also draw from [Math.random] *)

Section Random.

Context (host : Host).

(** The state is the number of values drawn so far. *)
Definition M (A : Type) : Type := nat -> outcome (A * nat).

Definition ret {A} (a : A) : M A := fun s => Returned (a, s).

Definition bind {A B} (c : M A) (k : A -> M B) : M B :=
  fun s =>
    match c s with
    | Returned (a, s') => k a s'
    | Thrown e => Thrown e
    | Diverged => Diverged
    end.

Definition lift {A} (c : outcome A) : M A :=
  fun s =>
    match c with
    | Returned a => Returned (a, s)
    | Thrown e => Thrown e
    | Diverged => Diverged
    end.

(** [Math.random()] *)
Definition random : M float := fun s => Returned (Math_random host s, S s).

(** A loop over the indexes of an array whose body may draw. *)
Fixpoint imapM {A B} (f : nat -> A -> M B) (i : nat) (l : list A) : M (list B) :=
  match l with
  | [] => ret []
  | a :: rest =>
      bind (f i a) (fun b => bind (imapM f (S i) rest) (fun bs => ret (b :: bs)))
  end.

End Random.

Arguments ret {A} a _ /.
Arguments lift {A} c _ /.

Declare Scope rand_scope.
Delimit Scope rand_scope with rand.
Notation "'let!' x := c 'in' k" := (bind c (fun x => k))
  (at level 10, x pattern, c at level 100, k at level 200, only parsing) : rand_scope.

(** ** models/ecgsyn.ts *)

Module ECGSyn.

Local Open Scope float_scope.
Local Open Scope outcome_scope.

Record WaveParameters : Type := {
  amplitude : float;
  width : float;
  position : float
}.

Record ECGSynParameters : Type := {
  P_ : WaveParameters;
  Q_ : WaveParameters;
  R_ : WaveParameters;
  S_ : WaveParameters;
  T_ : WaveParameters;
  heartRate : float;
  respiratoryRate : option float;
  respiratoryAmplitude : option float
}.

Definition DEFAULT_ECGSYN_PARAMS : ECGSynParameters := {|
  P_ := {| amplitude := 0.15; width := 0.09; position := - Math_PI / 3 |};
  Q_ := {| amplitude := -0.025; width := 0.066; position := - Math_PI / 12 |};
  R_ := {| amplitude := 1.6; width := 0.11; position := 0 |};
  S_ := {| amplitude := -0.25; width := 0.066; position := Math_PI / 12 |};
  T_ := {| amplitude := 0.35; width := 0.142; position := Math_PI / 2 |};
  heartRate := 60;
  respiratoryRate := Some 15;
  respiratoryAmplitude := Some 0.01
|}.

(** A [params] argument as the code reads it.  The interface asks for
    the five waves and the heart rate, and every typed caller gives
    them; an object that lacks one reads [undefined] there ([None]). *)
Record Properties : Type := {
  get_P : option WaveParameters;
  get_Q : option WaveParameters;
  get_R : option WaveParameters;
  get_S : option WaveParameters;
  get_T : option WaveParameters;
  get_heartRate : option float;
  get_respiratoryRate : option float;
  get_respiratoryAmplitude : option float
}.

Definition properties (params : ECGSynParameters) : Properties :=
  {| get_P := Some (P_ params);
     get_Q := Some (Q_ params);
     get_R := Some (R_ params);
     get_S := Some (S_ params);
     get_T := Some (T_ params);
     get_heartRate := Some (heartRate params);
     get_respiratoryRate := respiratoryRate params;
     get_respiratoryAmplitude := respiratoryAmplitude params |}.

(** The [params] object handed to [ecgsynODE]; an element of [waves] is
    [undefined] when [generateECGSyn] did not find that wave. *)
Record OdeParams : Type := {
  omega : float;
  waves : list (option WaveParameters);
  z0Function : option (float -> float)
}.

Section Model.
Context (host : Host).

(** [while (deltaTheta > Math.PI) deltaTheta -= 2 * Math.PI] *)
Fixpoint wrap_down (fuel : nat) (deltaTheta : float) : outcome float :=
  if Math_PI <? deltaTheta then
    match fuel with
    | O => Diverged
    | S fuel' => wrap_down fuel' (deltaTheta - 2 * Math_PI)
    end
  else Returned deltaTheta.

(** [while (deltaTheta < -Math.PI) deltaTheta += 2 * Math.PI] *)
Fixpoint wrap_up (fuel : nat) (deltaTheta : float) : outcome float :=
  if deltaTheta <? - Math_PI then
    match fuel with
    | O => Diverged
    | S fuel' => wrap_up fuel' (deltaTheta + 2 * Math_PI)
    end
  else Returned deltaTheta.

(** The body of [for (const wave of waves)]. *)
Definition wave_term (fuel : nat) (omega theta dzdt : float) (wave : WaveParameters)
    : outcome float :=
  let* deltaTheta := wrap_down fuel (theta - position wave) in
  let* deltaTheta := wrap_up fuel deltaTheta in
  let gaussian :=
    Math_exp host (- (deltaTheta * deltaTheta) / (2 * width wave * width wave)) in
  Returned (dzdt - amplitude wave * omega * deltaTheta * gaussian).

(** [for (const wave of waves)]; [wave.position] of [undefined] is a
    [TypeError]. *)
Fixpoint wave_sum (fuel : nat) (omega theta dzdt : float) (ws : list (option WaveParameters))
    : outcome float :=
  match ws with
  | [] => Returned dzdt
  | Some wave :: rest =>
      let* dzdt := wave_term fuel omega theta dzdt wave in
      wave_sum fuel omega theta dzdt rest
  | None :: _ => Thrown TypeError
  end.

Definition ecgsynODE (fuel : nat) : @OdeSolver.ODEFunction OdeParams :=
  fun t state params =>
    let x := OdeSolver.at_ state 0 in
    let y := OdeSolver.at_ state 1 in
    let z := OdeSolver.at_ state 2 in
    let r := Math_sqrt (x * x + y * y) in
    let alpha := 1 - r in
    let theta := Math_atan2 host y x in
    let* dzdt := wave_sum fuel (omega params) theta 0 (waves params) in
    let z0 := match z0Function params with Some f => f t | None => 0 end in
    let dzdt := dzdt - (z - z0) in
    Returned [alpha * x - omega params * y; alpha * y + omega params * x; dzdt].

Definition AMPLITUDE_SCALE : float := 80.

(** Lines 352-381 of [generateECGSyn]: the problem it hands to
    [solveODE].  A heart rate that is [undefined] makes [rrInterval]
    [NaN]. *)
Definition problem (duration samplingRate : float) (params : Properties) (tolerance : float)
    : @OdeSolver.ODESolverOptions OdeParams :=
  let rrInterval := 60.0 / num (get_heartRate params) in
  let omega := 2 * Math_PI / rrInterval in
  let waves := [get_P params; get_Q params; get_R params; get_S params; get_T params] in
  let z0Function :=
    match get_respiratoryRate params, get_respiratoryAmplitude params with
    | Some rate, Some amp =>
        if truthy rate && truthy amp
        then Some (fun t => amp * Math_sin host (2 * Math_PI * rate / 60 * t))
        else None
    | _, _ => None
    end in
  let odeParams := {| omega := omega; waves := waves; z0Function := z0Function |} in
  let numPoints := Math_ceil (duration * samplingRate) in
  {| OdeSolver.initialConditions := [1; 0; 0];
     OdeSolver.timeSpan := (0, duration);
     OdeSolver.timePoints := Some numPoints;
     OdeSolver.params := odeParams;
     OdeSolver.tolerance := Some tolerance;
     OdeSolver.minStepSize := None;
     OdeSolver.maxStepSize := None |}.

(** Every caller passes all four arguments, so the defaults of
    [params] and [tolerance] are left out. *)
Definition generateECGSyn (fuel : nat) (duration samplingRate : float)
    (params : Properties) (tolerance : float)
    : outcome (list float * list float) :=
  let* (t, y) :=
    OdeSolver.solveODE host fuel (ecgsynODE fuel)
      (problem duration samplingRate params tolerance) in
  let ecg := map (fun state => OdeSolver.at_ state 2 * AMPLITUDE_SCALE) y in
  Returned (t, ecg).

End Model.

Definition transform : Type := ECGSynParameters -> ECGSynParameters.

(** Record update, as the object spread [{ ...base, field: value }]. *)
Definition with_P (p : WaveParameters) (b : ECGSynParameters) : ECGSynParameters :=
  {| P_ := p; Q_ := Q_ b; R_ := R_ b; S_ := S_ b; T_ := T_ b; heartRate := heartRate b;
     respiratoryRate := respiratoryRate b; respiratoryAmplitude := respiratoryAmplitude b |}.
Definition with_Q (p : WaveParameters) (b : ECGSynParameters) : ECGSynParameters :=
  {| P_ := P_ b; Q_ := p; R_ := R_ b; S_ := S_ b; T_ := T_ b; heartRate := heartRate b;
     respiratoryRate := respiratoryRate b; respiratoryAmplitude := respiratoryAmplitude b |}.
Definition with_R (p : WaveParameters) (b : ECGSynParameters) : ECGSynParameters :=
  {| P_ := P_ b; Q_ := Q_ b; R_ := p; S_ := S_ b; T_ := T_ b; heartRate := heartRate b;
     respiratoryRate := respiratoryRate b; respiratoryAmplitude := respiratoryAmplitude b |}.
Definition with_S (p : WaveParameters) (b : ECGSynParameters) : ECGSynParameters :=
  {| P_ := P_ b; Q_ := Q_ b; R_ := R_ b; S_ := p; T_ := T_ b; heartRate := heartRate b;
     respiratoryRate := respiratoryRate b; respiratoryAmplitude := respiratoryAmplitude b |}.
Definition with_T (p : WaveParameters) (b : ECGSynParameters) : ECGSynParameters :=
  {| P_ := P_ b; Q_ := Q_ b; R_ := R_ b; S_ := S_ b; T_ := p; heartRate := heartRate b;
     respiratoryRate := respiratoryRate b; respiratoryAmplitude := respiratoryAmplitude b |}.
Definition with_heartRate (h : float) (b : ECGSynParameters) : ECGSynParameters :=
  {| P_ := P_ b; Q_ := Q_ b; R_ := R_ b; S_ := S_ b; T_ := T_ b; heartRate := h;
     respiratoryRate := respiratoryRate b; respiratoryAmplitude := respiratoryAmplitude b |}.

Definition with_amplitude (a : float) (w : WaveParameters) : WaveParameters :=
  {| amplitude := a; width := width w; position := position w |}.
Definition with_width (a : float) (w : WaveParameters) : WaveParameters :=
  {| amplitude := amplitude w; width := a; position := position w |}.
Definition with_position (a : float) (w : WaveParameters) : WaveParameters :=
  {| amplitude := amplitude w; width := width w; position := a |}.

Definition PATHOLOGY_PARAMS : gmap string transform :=
  list_to_map [
    ("atrialFibrillation", fun base => with_P (with_amplitude 0 (P_ base)) base);
    ("firstDegreeAVBlock", fun base => with_P (with_position (- Math_PI / 2) (P_ base)) base);
    ("ventricularTachycardia", fun base =>
       with_S (with_width (width (S_ base) * 2) (S_ base))
         (with_R (with_width (width (R_ base) * 2) (R_ base))
            (with_Q (with_width (width (Q_ base) * 2) (Q_ base))
               (with_heartRate 180 base))));
    ("stemi", fun base =>
       with_T (with_position (Math_PI / 3)
                 (with_amplitude (amplitude (T_ base) * 1.5) (T_ base)))
         (with_S (with_amplitude (amplitude (S_ base) * 0.5) (S_ base)) base));
    ("bradycardia", fun base => with_heartRate 45 base);
    ("tachycardia", fun base => with_heartRate 120 base)
  ]%string.

End ECGSyn.

(** ** models/ecgsyn-enhanced.ts *)

Module Enhanced.
Section Enhanced.

Import ECGSyn.
Local Open Scope float_scope.

Context (host : Host).

Definition wave (a w p : float) : WaveParameters :=
  {| amplitude := a; width := w; position := p |}.

(** Only [atrialFibrillation] draws; the other entries are pure. *)
Definition pure (f : ECGSyn.transform) : ECGSynParameters -> M ECGSynParameters :=
  fun base => ret (f base).

Definition ENHANCED_PATHOLOGY_PARAMS : gmap string (ECGSynParameters -> M ECGSynParameters) :=
  list_to_map [
    ("normal", pure (fun base => base));
    ("atrialFibrillation", fun base =>
       bind (random host) (fun r =>
         ret (with_heartRate (90 + r * 40)
                (with_P (wave 0 0.01 (position (P_ base))) base))));
    ("firstDegreeAVBlock", pure (fun base =>
       with_P (with_position (- Math_PI * 0.6) (P_ base)) base));
    ("ventricularTachycardia", pure (fun base =>
       with_T (wave (-0.6) 0.2 (position (T_ base)))
         (with_S (wave (-0.8) 0.15 (position (S_ base) + 0.1))
            (with_R (wave 2.5 0.2 (position (R_ base)))
               (with_Q (wave (-0.4) 0.15 (position (Q_ base) - 0.1))
                  (with_P (wave 0 0.01 (position (P_ base)))
                     (with_heartRate 180 base)))))));
    ("stemi", pure (fun base =>
       with_T (wave 0.8 0.2 (Math_PI / 3))
         (with_S (wave (-0.05) 0.03 (position (S_ base)))
            (with_R (with_amplitude (amplitude (R_ base) * 0.7) (R_ base))
               (with_Q (wave (-0.3) 0.08 (position (Q_ base))) base)))));
    ("completeHeartBlock", pure (fun base =>
       with_R (with_amplitude (amplitude (R_ base) * 1.3) (R_ base))
         (with_P (with_amplitude (amplitude (P_ base) * 1.2) (P_ base))
            (with_heartRate 40 base))));
    ("bradycardia", pure (fun base =>
       with_T (with_width (width (T_ base) * 1.1)
                 (with_amplitude (amplitude (T_ base) * 1.2) (T_ base)))
         (with_heartRate 45 base)));
    ("tachycardia", pure (fun base =>
       with_T (with_width (width (T_ base) * 0.9)
                 (with_amplitude (amplitude (T_ base) * 0.8) (T_ base)))
         (with_P (with_position (- Math_PI / 4)
                    (with_amplitude (amplitude (P_ base) * 0.7) (P_ base)))
            (with_heartRate 140 base))));
    ("lbbb", pure (fun base =>
       with_T (wave (-0.4) (width (T_ base)) (position (T_ base)))
         (with_S (wave (-0.1) 0.18 (position (S_ base) + 0.15))
            (with_R (wave 1.8 0.18 (position (R_ base)))
               (with_Q (wave 0 0.01 (position (Q_ base))) base)))));
    ("rbbb", pure (fun base =>
       with_T (wave (-0.3) (width (T_ base)) (position (T_ base)))
         (with_S (wave (-0.8) 0.12 (position (S_ base)))
            (with_R (wave 1.2 0.06 (position (R_ base))) base))));
    ("hyperkalemia", pure (fun base =>
       with_T (wave 1.2 0.08 (position (T_ base)))
         (with_S (with_width (width (S_ base) * 1.3) (S_ base))
            (with_R (with_width (width (R_ base) * 1.3) (R_ base))
               (with_Q (with_width (width (Q_ base) * 1.3) (Q_ base))
                  (with_P (with_width (width (P_ base) * 1.5)
                             (with_amplitude (amplitude (P_ base) * 0.5) (P_ base)))
                     base))))));
    ("hypokalemia", pure (fun base =>
       with_T (wave 0.1 (width (T_ base) * 1.5) (position (T_ base))) base));
    ("lvh", pure (fun base =>
       with_T (wave (-0.3) (width (T_ base) * 1.1) (position (T_ base)))
         (with_S (wave (-1.2) (width (S_ base)) (position (S_ base)))
            (with_R (wave 2.8 (width (R_ base)) (position (R_ base))) base))));
    ("pericarditis", pure (fun base =>
       with_T (wave 0.6 0.25 (Math_PI / 3.5))
         (with_S (wave (-0.05) 0.02 (position (S_ base)))
            (with_P (with_amplitude (amplitude (P_ base) * 1.2) (P_ base)) base))))
  ]%string.

End Enhanced.
End Enhanced.

(** The fourteen members of [PathologyType]. *)
Definition PathologyType : list string := [
  "normal"; "atrialFibrillation"; "firstDegreeAVBlock"; "ventricularTachycardia";
  "stemi"; "bradycardia"; "tachycardia"; "completeHeartBlock"; "lbbb"; "rbbb";
  "hyperkalemia"; "hypokalemia"; "lvh"; "pericarditis"
]%string.

(** ** ECGGenerator.ts *)

Module Generator.

Import ECGSyn.
Local Open Scope float_scope.
Local Open Scope outcome_scope.
Local Open Scope rand_scope.

Record Sinusoid : Type := { noise_amplitude : float; noise_frequency : float }.
Record Level : Type := { level_amplitude : float }.

Record NoiseOptions : Type := {
  baseline : option Sinusoid;
  powerline : option Sinusoid;
  muscle : option Level;
  gaussian : option Level
}.

(** [Partial<ECGSynParameters>].  A property can be absent ([None]);
    when it is there, the type admits a value or [undefined]
    ([Some None]), and the spread copies either. *)
Record CustomParams : Type := {
  c_P : option (option WaveParameters);
  c_Q : option (option WaveParameters);
  c_R : option (option WaveParameters);
  c_S : option (option WaveParameters);
  c_T : option (option WaveParameters);
  c_heartRate : option (option float);
  c_respiratoryRate : option (option float);
  c_respiratoryAmplitude : option (option float)
}.

Record ECGGeneratorOptions : Type := {
  o_samplingRate : option float;
  o_duration : option float;
  o_heartRate : option float;
  o_pathology : option string;
  o_noise : option NoiseOptions;
  o_customParams : option CustomParams;
  o_solverTolerance : option float
}.

(** [heartRate] is read from [params.heartRate]: a number on every
    typed path, [undefined] ([None]) when [params] has none. *)
Record Metadata : Type := {
  m_duration : float;
  m_heartRate : option float;
  m_pathology : string;
  m_noise : option NoiseOptions
}.

(** A result object.  Its [signal] is an array of samples in what
    [generate] returns; one entry of [generateMultiLead] can hold a
    string there. *)
Record Result (Signal : Type) : Type := {
  time : list float;
  signal : Signal;
  samplingRate : float;
  metadata : Metadata
}.
Arguments time {Signal} r.
Arguments signal {Signal} r.
Arguments samplingRate {Signal} r.
Arguments metadata {Signal} r.

Definition ECGResult : Type := Result (list float).

(** An instance holds its sampling rate. *)
Record ECGGenerator : Type := { this_samplingRate : float }.

(** [constructor(samplingRate = 1000)] *)
Definition new_ECGGenerator (samplingRate : option float) : outcome ECGGenerator :=
  let samplingRate := default 1000 samplingRate in
  if samplingRate <? 250
  then Thrown (Error "Sampling rate must be at least 250 Hz for ECG generation")
  else Returned {| this_samplingRate := samplingRate |}.

(** What is read from [params] after the pathology step: the
    properties of the parameter object, and none of them when [params]
    is the string that an inherited [toString] returned (a string has
    its characters and its length, and no wave or rate). *)
Definition read (params : ECGSynParameters + string) : Properties :=
  match params with
  | inl params => properties params
  | inr _ =>
      {| get_P := None; get_Q := None; get_R := None; get_S := None; get_T := None;
         get_heartRate := None; get_respiratoryRate := None;
         get_respiratoryAmplitude := None |}
  end.

(** [{ ...params, ...customParams }]: a property of [customParams]
    that is there replaces that of [params], also when its value is
    [undefined]. *)
Definition spread (params : Properties) (c : CustomParams) : Properties :=
  {| get_P := default (get_P params) (c_P c);
     get_Q := default (get_Q params) (c_Q c);
     get_R := default (get_R params) (c_R c);
     get_S := default (get_S params) (c_S c);
     get_T := default (get_T params) (c_T c);
     get_heartRate := default (get_heartRate params) (c_heartRate c);
     get_respiratoryRate := default (get_respiratoryRate params) (c_respiratoryRate c);
     get_respiratoryAmplitude :=
       default (get_respiratoryAmplitude params) (c_respiratoryAmplitude c) |}.

Section Methods.
Context (host : Host).

(** [time[time.length - 1]] *)
Definition last_time (time : list float) : float := num (last time).

Definition addNoise (signal time : list float) (noise : NoiseOptions) : M (list float) :=
  let noisySignal := signal in
  let noisySignal :=
    match baseline noise with
    | Some b =>
        imap (fun i v => v + noise_amplitude b *
                Math_sin host (2 * Math_PI * noise_frequency b * OdeSolver.at_ time i)) noisySignal
    | None => noisySignal
    end in
  let noisySignal :=
    match powerline noise with
    | Some b =>
        imap (fun i v => v + noise_amplitude b *
                Math_sin host (2 * Math_PI * noise_frequency b * OdeSolver.at_ time i)) noisySignal
    | None => noisySignal
    end in
  let! noisySignal :=
    match muscle noise with
    | Some m =>
        imapM (fun i v =>
          let! r1 := random host in
          let! r2 := random host in
          ret (v + level_amplitude m * (r1 - 0.5) *
                 Math_sin host (2 * Math_PI * (20 + r2 * 30) * OdeSolver.at_ time i)))
          0 noisySignal
    | None => ret noisySignal
    end in
  match gaussian noise with
  | Some g =>
      imapM (fun i v =>
        let! u1 := random host in
        let! u2 := random host in
        let gauss := Math_sqrt (-2 * Math_log host u1) * Math_cos host (2 * Math_PI * u2) in
        ret (v + level_amplitude g * gauss))
        0 noisySignal
  | None => ret noisySignal
  end.

(** The variables of [makeIrregular]. *)
Record Irregular : Type := {
  currentTime : float;
  sourceIndex : jsint;
  newTime : list float;
  newSignal : list float
}.

(** [while (sourceIndex < time.length && time[sourceIndex] < endTime)]:
    every turn increments [sourceIndex], so [time.length] turns are
    enough and [bound] never runs out. *)
Fixpoint copy_segment (bound : nat) (time signal : list float) (avgRR startTime endTime : float)
    (st : Irregular) : Irregular :=
  match bound with
  | O => st
  | S bound' =>
      if int_lt_len (sourceIndex st) (Z.of_nat (length time))
         && (num (index time (sourceIndex st)) <? endTime)
      then
        let adjustedTime := startTime + rem (num (index time (sourceIndex st))) avgRR in
        let keep := adjustedTime <=? last_time time in
        copy_segment bound' time signal avgRR startTime endTime
          {| currentTime := currentTime st;
             sourceIndex := int_succ (sourceIndex st);
             newTime := if keep then newTime st ++ [adjustedTime] else newTime st;
             newSignal :=
               if keep then newSignal st ++ [num (index signal (sourceIndex st))]
               else newSignal st |}
      else st
  end.

Fixpoint irregular_loop (fuel : nat) (this : ECGGenerator) (time signal : list float)
    (avgRR : float) (st : Irregular) : M Irregular :=
  if (currentTime st <? last_time time)
     && int_lt_len (sourceIndex st) (Z.of_nat (length signal) - 1)
  then
    match fuel with
    | O => fun _ => Diverged
    | S fuel' =>
        let! r := random host in
        let rrInterval := avgRR * (0.4 + r * 1.1) in
        let startTime := currentTime st in
        let endTime := currentTime st + rrInterval in
        let st1 := copy_segment (length time) time signal avgRR startTime endTime st in
        let perBeat := avgRR * this_samplingRate this in
        irregular_loop fuel' this time signal avgRR
          {| currentTime := endTime;
             sourceIndex :=
               int_mul (Math_floor (to_float (sourceIndex st1) / perBeat))
                       (Math_floor perBeat);
             newTime := newTime st1;
             newSignal := newSignal st1 |}
    end
  else ret st.

Definition makeIrregular (fuel : nat) (this : ECGGenerator) (time signal : list float)
    (baseHeartRate : float) : M (list float * list float) :=
  let avgRR := 60 / baseHeartRate in
  let! st := irregular_loop fuel this time signal avgRR
               {| currentTime := 0; sourceIndex := JInt 0; newTime := []; newSignal := [] |} in
  ret (newTime st, newSignal st).

Definition addSTElevation (signal time : list float) : list float :=
  let beatDuration := 60 / 70 in
  imap (fun i v =>
    let t := rem (OdeSolver.at_ time i) beatDuration in
    if (0.35 * beatDuration <? t) && (t <? 0.44 * beatDuration) then
      let stPhase := (t - 0.35 * beatDuration) / (0.09 * beatDuration) in
      v + 0.3 * Math_exp host (- Math_pow host (stPhase - 0.5) 2 * 10)
    else v) signal.

Definition addUWaves (signal time : list float) (heartRate : float) : list float :=
  let beatDuration := 60 / heartRate in
  imap (fun i v =>
    let t := rem (OdeSolver.at_ time i) beatDuration in
    if (0.65 * beatDuration <? t) && (t <? 0.8 * beatDuration) then
      let uPhase := (t - 0.65 * beatDuration) / (0.15 * beatDuration) in
      v + 0.15 * Math_exp host (- Math_pow host (uPhase - 0.5) 2 / 0.05)
    else v) signal.

(** [for (let freq = 350; freq <= 600; freq += 50)] *)
Definition fib_frequencies : list float := [350; 400; 450; 500; 550; 600].

Fixpoint fib_wave (t : float) (freqs : list float) (fibWave : float) : M float :=
  match freqs with
  | [] => ret fibWave
  | freq :: rest =>
      let! r := random host in
      fib_wave t rest
        (fibWave + 0.02 * Math_sin host (2 * Math_PI * freq * t + r * 2 * Math_PI))
  end.

Definition addFibrillatoryWaves (signal time : list float) : M (list float) :=
  imapM (fun i v =>
    let! fibWave := fib_wave (OdeSolver.at_ time i) fib_frequencies 0 in
    ret (v + fibWave)) 0 signal.

Definition simulateAVDissociation (signal : list float) : list float := signal.

(** Lines 103-120 of [generate]: the parameters handed to
    [generateECGSyn].  After the pathology step [params] is a parameter
    object, or the string that an inherited [toString] returned.  When
    the first table has no member of that name, own or inherited, the
    second, which inherits the same members, is read on its own
    properties. *)
Definition parameters (heartRate : float) (pathology : string)
    (customParams : option CustomParams) : M Properties :=
  let params := with_heartRate heartRate DEFAULT_ECGSYN_PARAMS in
  let! params :=
    if negb (String.eqb pathology "normal") then
      match Get (Enhanced.ENHANCED_PATHOLOGY_PARAMS host) pathology with
      | Some (Own enhancedPathology) =>
          let! params := enhancedPathology params in
          ret (inl params)
      | Some (Inherited enhancedPathology) => lift (Call enhancedPathology params)
      | None =>
          match PATHOLOGY_PARAMS !! pathology with
          | Some basic => ret (inl (basic params))
          | None => ret (inl params)
          end
      end
    else ret (inl params) in
  ret (match customParams with
       | Some c => spread (read params) c
       | None => read params
       end).

(** An [undefined] heart rate is [NaN] in the arithmetic of
    [addUWaves] and [makeIrregular]. *)
Definition generate (fuel : nat) (this : ECGGenerator) (options : ECGGeneratorOptions)
    : M ECGResult :=
  let duration := default 10 (o_duration options) in
  let heartRate := default 60 (o_heartRate options) in
  let pathology := default "normal"%string (o_pathology options) in
  let noise := o_noise options in
  let customParams := o_customParams options in
  let samplingRate := default (this_samplingRate this) (o_samplingRate options) in
  let solverTolerance := default 1e-6 (o_solverTolerance options) in
  let! params := parameters heartRate pathology customParams in
  let! (time, ecg) :=
    lift (generateECGSyn host fuel duration samplingRate params solverTolerance) in
  let! (time, ecg) :=
    if String.eqb pathology "stemi" then ret (time, addSTElevation ecg time)
    else if String.eqb pathology "hypokalemia" then
      ret (time, addUWaves ecg time (num (get_heartRate params)))
    else if String.eqb pathology "atrialFibrillation" then
      let! ecg := addFibrillatoryWaves ecg time in
      makeIrregular fuel this time ecg (num (get_heartRate params))
    else if String.eqb pathology "completeHeartBlock" then
      ret (time, simulateAVDissociation ecg)
    else ret (time, ecg) in
  let! ecg :=
    match noise with
    | Some n => addNoise ecg time n
    | None => ret ecg
    end in
  ret {| time := time;
         signal := ecg;
         samplingRate := samplingRate;
         metadata := {| m_duration := duration;
                        m_heartRate := get_heartRate params;
                        m_pathology := pathology;
                        m_noise := noise |} |}.

(** The fixed table of [generateMultiLead]. *)
Definition leadTransforms : gmap string (list float -> list float) :=
  list_to_map [
    ("I", fun signal => map (fun v => v * 0.8) signal);
    ("II", fun signal => signal);
    ("III", fun signal => map (fun v => v * 0.6) signal);
    ("aVR", fun signal => map (fun v => - v * 0.5) signal);
    ("aVL", fun signal => map (fun v => v * 0.4) signal);
    ("aVF", fun signal => map (fun v => v * 0.7) signal);
    ("V1", fun signal => map (fun v => v * 0.3) signal);
    ("V2", fun signal => map (fun v => v * 0.5) signal);
    ("V3", fun signal => map (fun v => v * 0.8) signal);
    ("V4", fun signal => map (fun v => v * 1.0) signal);
    ("V5", fun signal => map (fun v => v * 0.9) signal);
    ("V6", fun signal => map (fun v => v * 0.7) signal)
  ]%string.

Definition default_leads : list string := ["I"; "II"; "III"; "aVR"; "aVL"; "aVF"]%string.

(** The [signal] of an entry of [generateMultiLead]: an array, or the
    string that an inherited [toString] returned. *)
Definition LeadSignal : Type := (list float + string)%type.
Definition LeadResult : Type := Result LeadSignal.

(** The body of [for (const lead of leads)]:
    [leadTransforms[lead] || ((s) => s)] is called on the base signal
    and the entry is stored. *)
Definition derive (leadII : ECGResult) (result : gmap string LeadResult) (lead : string)
    : outcome (gmap string LeadResult) :=
  let* signal :=
    match Get leadTransforms lead with
    | Some (Own transform) => Returned (inl (transform (signal leadII)))
    | Some (Inherited transform) => Call transform (signal leadII)
    | None => Returned (inl (signal leadII))
    end in
  Returned (<[ lead := {| time := time leadII;
                          signal := signal;
                          samplingRate := samplingRate leadII;
                          metadata := metadata leadII |} ]> result).

(** A [for ... of] loop whose body may throw. *)
Fixpoint for_of {A B} (body : B -> A -> outcome B) (l : list A) (acc : B) : outcome B :=
  match l with
  | [] => Returned acc
  | a :: rest =>
      let* acc := body acc a in
      for_of body rest acc
  end.

Definition generateMultiLead (fuel : nat) (this : ECGGenerator)
    (options : ECGGeneratorOptions) (leads : option (list string))
    : M (gmap string LeadResult) :=
  let leads := default default_leads leads in
  let! leadII := generate fuel this options in
  lift (for_of (derive leadII) leads ∅).

(** The generator object of [generateStream]: what it has generated so
    far.  A pull runs the loop to the next [yield], or to its end. *)
Record Stream : Type := { generatedDuration : float }.

Inductive Pull : Type :=
| Yield (chunk : ECGResult) (next : Stream)
| Done.

Definition with_duration (d : float) (o : ECGGeneratorOptions) : ECGGeneratorOptions :=
  {| o_samplingRate := o_samplingRate o;
     o_duration := Some d;
     o_heartRate := o_heartRate o;
     o_pathology := o_pathology o;
     o_noise := o_noise o;
     o_customParams := o_customParams o;
     o_solverTolerance := o_solverTolerance o |}.

(** [options.duration || Infinity] *)
Definition totalDuration (options : ECGGeneratorOptions) : float :=
  match o_duration options with
  | Some d => if truthy d then d else infinity
  | None => infinity
  end.

Definition next (fuel : nat) (this : ECGGenerator) (options : ECGGeneratorOptions)
    (chunkDuration : option float) (g : Stream) : M Pull :=
  let chunkDuration := default 1 chunkDuration in
  if generatedDuration g <? totalDuration options then
    let remainingDuration := totalDuration options - generatedDuration g in
    let currentChunkDuration := Math_min chunkDuration remainingDuration in
    let! chunk := generate fuel this (with_duration currentChunkDuration options) in
    let chunk := {| time := map (fun t => t + generatedDuration g) (time chunk);
                    signal := signal chunk;
                    samplingRate := samplingRate chunk;
                    metadata := metadata chunk |} in
    ret (Yield chunk {| generatedDuration := generatedDuration g + currentChunkDuration |})
  else ret Done.

Definition generateStream : Stream := {| generatedDuration := 0 |}.

(** The chunks of the first [k] pulls (fewer when the stream ends). *)
Fixpoint pulls (fuel : nat) (this : ECGGenerator) (options : ECGGeneratorOptions)
    (chunkDuration : option float) (k : nat) (g : Stream) : M (list ECGResult) :=
  match k with
  | O => ret []
  | S k' =>
      let! p := next fuel this options chunkDuration g in
      match p with
      | Yield chunk g' =>
          let! rest := pulls fuel this options chunkDuration k' g' in
          ret (chunk :: rest)
      | Done => ret []
      end
  end.

End Methods.

End Generator.

(** ** index.ts *)

Module Index.
Section Index.

Import Generator.
Local Open Scope float_scope.
Local Open Scope rand_scope.

Context (host : Host).

(** [generateNormalECG(duration = 10, heartRate = 70, samplingRate = 1000)] *)
Definition generateNormalECG (fuel : nat) (duration heartRate samplingRate : option float)
    : M (list float * list float) :=
  let duration := default 10 duration in
  let heartRate := default 70 heartRate in
  let samplingRate := default 1000 samplingRate in
  let! generator := lift (new_ECGGenerator (Some samplingRate)) in
  let! result :=
    generate host fuel generator
      {| o_samplingRate := None; o_duration := Some duration;
         o_heartRate := Some heartRate; o_pathology := None; o_noise := None;
         o_customParams := None; o_solverTolerance := None |} in
  ret (time result, signal result).

(** [generatePathologicalECG(pathology, duration = 10, samplingRate = 1000)] *)
Definition generatePathologicalECG (fuel : nat) (pathology : string)
    (duration samplingRate : option float) : M (list float * list float) :=
  let duration := default 10 duration in
  let samplingRate := default 1000 samplingRate in
  let! generator := lift (new_ECGGenerator (Some samplingRate)) in
  let! result :=
    generate host fuel generator
      {| o_samplingRate := None; o_duration := Some duration;
         o_heartRate := None; o_pathology := Some pathology; o_noise := None;
         o_customParams := None; o_solverTolerance := None |} in
  ret (time result, signal result).

Definition VERSION : string := "1.0.0".

End Index.
End Index.

(** ** A reference host

    Series approximations of the transcendental functions and a fixed
    sequence for [Math.random]; used to run the engine on concrete
    requests. *)

Module RefHost.

Local Open Scope float_scope.

Definition LN2 : float := 0.6931471805599453.

(** [sum_{i < n} term_i] with [term_{i+1} = term_i * x / (i + 1)]. *)
Fixpoint exp_series (n : nat) (i : float) (x term acc : float) : float :=
  match n with
  | O => acc
  | S n' => exp_series n' (i + 1) x (term * x / (i + 1)) (acc + term)
  end.

Definition exp (x : float) : float :=
  if is_nan x then nan
  else if 709.782712893384 <? x then infinity
  else if x <? -745.2 then 0
  else
    match Math_round (x / LN2) with
    | JInt k =>
        let r := x - of_Z k * LN2 in
        Z.ldexp (exp_series 22 0 r 1 0) k
    | _ => nan
    end.

(** Odd or even Taylor terms with alternating signs. *)
Fixpoint alt_series (n : nat) (i : float) (x2 term acc : float) : float :=
  match n with
  | O => acc
  | S n' =>
      alt_series n' (i + 2) x2 (- term * x2 / ((i + 1) * (i + 2))) (acc + term)
  end.

Definition reduce (x : float) : float :=
  let r := rem x (2 * Math_PI) in
  if Math_PI <? r then r - 2 * Math_PI
  else if r <? - Math_PI then r + 2 * Math_PI
  else r.

Definition sin (x : float) : float :=
  let r := reduce x in alt_series 20 1 (r * r) r 0.

Definition cos (x : float) : float :=
  let r := reduce x in alt_series 20 0 (r * r) 1 0.

Fixpoint atan_series (n : nat) (i : float) (x2 power acc : float) : float :=
  match n with
  | O => acc
  | S n' => atan_series n' (i + 2) x2 (- power * x2) (acc + power / i)
  end.

(** [atan z = 2 atan (z / (1 + sqrt (1 + z^2)))], three times. *)
Definition halve (z : float) : float := z / (1 + sqrt (1 + z * z)).

Definition atan (z : float) : float :=
  if is_nan z then nan
  else if 1 <? abs z then
    let w := halve (halve (halve (1 / z))) in
    let a := 8 * atan_series 14 1 (w * w) w 0 in
    (if z <? 0 then - (Math_PI / 2) else Math_PI / 2) - a
  else
    let w := halve (halve (halve z)) in
    8 * atan_series 14 1 (w * w) w 0.

Definition atan2 (y x : float) : float :=
  if is_nan x || is_nan y then nan
  else if 0 <? x then atan (y / x)
  else if x <? 0 then
    if y <? 0 then atan (y / x) - Math_PI else atan (y / x) + Math_PI
  else if 0 <? y then Math_PI / 2
  else if y <? 0 then - (Math_PI / 2)
  else 0.

Fixpoint atanh_series (n : nat) (i : float) (s2 power acc : float) : float :=
  match n with
  | O => acc
  | S n' => atanh_series n' (i + 2) s2 (power * s2) (acc + power / i)
  end.

Definition log (x : float) : float :=
  if is_nan x || (x <? 0) then nan
  else if x =? 0 then neg_infinity
  else if x =? infinity then infinity
  else
    let (m, e) := Z.frexp x in
    let s := (m - 1) / (m + 1) in
    of_Z e * LN2 + 2 * atanh_series 24 1 (s * s) s 0.

Definition is_odd (b : float) : bool :=
  match Math_floor b with
  | JInt z => (to_float (Math_floor b) =? b) && Z.odd z
  | _ => false
  end.

Definition is_integer (b : float) : bool := to_float (Math_floor b) =? b.

Definition pow (a b : float) : float :=
  if b =? 0 then 1
  else if is_nan a || is_nan b then nan
  else if b =? 2 then a * a
  else if a =? 0 then (if 0 <? b then 0 else infinity)
  else if a =? infinity then (if 0 <? b then infinity else 0)
  else if 0 <? a then exp (b * log a)
  else if is_integer b then
    (if is_odd b then - exp (b * log (- a)) else exp (b * log (- a)))
  else nan.

(** A low-discrepancy sequence in [0, 1). *)
Definition rand (n : nat) : float :=
  of_Z ((Z.of_nat (S n) * 2654435769) mod 4294967296) / 4294967296.

Definition host : Host := {|
  Math_sin := sin;
  Math_cos := cos;
  Math_exp := exp;
  Math_log := log;
  Math_pow := pow;
  Math_atan2 := atan2;
  Math_random := rand
|}.

End RefHost.

(** * Definitions on the side of the specification, and requests to run

    What the properties below are stated with: the tables and formulas
    in the words of the specification, predicates on results, and the
    concrete requests on which the engine is run. *)

Import Generator.

Section Vocabulary.

Import OdeSolver.
Local Open Scope float_scope.

(** The base result with another [signal]: [{ ...leadII, signal }]. *)
Definition entry (leadII : ECGResult) (signal : LeadSignal) : LeadResult :=
  {| time := time leadII;
     signal := signal;
     samplingRate := samplingRate leadII;
     metadata := metadata leadII |}.

(** The names of the inherited members that throw when they are called
    as plain functions: all of them but [constructor] and [toString]. *)
Definition throws (name : string) : bool :=
  inherits name
  && match @Call unit name tt with
     | Thrown _ => true
     | _ => false
     end.

(** What [generateMultiLead] stores under [lead], when the call of the
    member it finds returns. *)
Definition derived (leadII : ECGResult) (lead : string) : LeadResult :=
  entry leadII
    match Get leadTransforms lead with
    | Some (Own transform) => inl (transform (signal leadII))
    | Some (Inherited transform) =>
        match Call transform (signal leadII) with
        | Returned signal => signal
        | _ => inl (signal leadII)
        end
    | None => inl (signal leadII)
    end.

(** The fixed per-lead multipliers of the specification. *)
Definition lead_scalars : list (string * float) := [
  ("I", 0.8); ("II", 1.0); ("III", 0.6); ("aVR", -0.5); ("aVL", 0.4); ("aVF", 0.7);
  ("V1", 0.3); ("V2", 0.5); ("V3", 0.8); ("V4", 1.0); ("V5", 0.9); ("V6", 0.7)
]%string.

(** A result with another identifier recorded in its metadata. *)
Definition relabel (p : string) (r : ECGResult) : ECGResult :=
  {| time := time r;
     signal := signal r;
     samplingRate := samplingRate r;
     metadata := {| m_duration := m_duration (metadata r);
                    m_heartRate := m_heartRate (metadata r);
                    m_pathology := p;
                    m_noise := m_noise (metadata r) |} |}.

(** The error norm following the words of the specification: the
    root of the mean of the squares. *)
Definition root_mean_square (error : list float) : float :=
  Math_sqrt (fold_left (fun sum e => sum + e * e) error 0 / of_nat (length error)).

Definition quiet {A} (c : outcome A) : Prop :=
  match c with
  | Thrown _ => False
  | _ => True
  end.

Definition quietM {A} (c : M A) : Prop := forall s, quiet (c s).

(** Each time value is at least the previous one. *)
Fixpoint ordered (l : list float) : bool :=
  match l with
  | a :: ((b :: _) as rest) => (a <=? b)%float && ordered rest
  | _ => true
  end.

(** The duration of the chunk generated after [g] seconds. *)
Definition chunk_length (options : ECGGeneratorOptions) (chunkDuration : option float)
    (g : float) : float :=
  Math_min (default 1 chunkDuration) (totalDuration options - g).

(** The duration generated before chunk [k]: the sum of the durations
    of the chunks before it. *)
Fixpoint elapsed (options : ECGGeneratorOptions) (chunkDuration : option float) (k : nat)
    : float :=
  match k with
  | O => 0
  | S k' =>
      elapsed options chunkDuration k'
      + chunk_length options chunkDuration (elapsed options chunkDuration k')
  end.

(** The same sum, counted from a stream that has generated [g]. *)
Fixpoint elapsed_from (options : ECGGeneratorOptions) (chunkDuration : option float)
    (g : float) (k : nat) : float :=
  match k with
  | O => g
  | S k' =>
      elapsed_from options chunkDuration (g + chunk_length options chunkDuration g) k'
  end.

(** A chunk of the stream: a generated result with its time values moved. *)
Definition shifted (g : float) (base : ECGResult) : ECGResult :=
  {| time := map (fun t => t + g) (time base);
     signal := signal base;
     samplingRate := samplingRate base;
     metadata := metadata base |}.

(** ** Requests used to run the engine *)

Definition request (rate duration tol : option float) : ECGGeneratorOptions :=
  {| o_samplingRate := rate; o_duration := duration; o_heartRate := None;
     o_pathology := None; o_noise := None; o_customParams := None;
     o_solverTolerance := tol |}.

Definition plain_request (duration : float) : ECGGeneratorOptions :=
  {| o_samplingRate := None; o_duration := Some duration; o_heartRate := None;
     o_pathology := None; o_noise := None; o_customParams := None;
     o_solverTolerance := None |}.

Definition with_pathology (p : string) (o : ECGGeneratorOptions) : ECGGeneratorOptions :=
  {| o_samplingRate := o_samplingRate o; o_duration := o_duration o;
     o_heartRate := o_heartRate o; o_pathology := Some p; o_noise := o_noise o;
     o_customParams := o_customParams o; o_solverTolerance := o_solverTolerance o |}.

Definition at_250Hz : ECGGenerator := {| this_samplingRate := 250 |}.
Definition at_1000Hz : ECGGenerator := {| this_samplingRate := 1000 |}.

(** The ECGSYN parameters of the default request (60 bpm, no baseline). *)
Definition default_ode_params : ECGSyn.OdeParams :=
  {| ECGSyn.omega := 2 * Math_PI / (60 / 60);
     ECGSyn.waves :=
       map Some
         [ECGSyn.P_ ECGSyn.DEFAULT_ECGSYN_PARAMS; ECGSyn.Q_ ECGSyn.DEFAULT_ECGSYN_PARAMS;
          ECGSyn.R_ ECGSyn.DEFAULT_ECGSYN_PARAMS; ECGSyn.S_ ECGSyn.DEFAULT_ECGSYN_PARAMS;
          ECGSyn.T_ ECGSyn.DEFAULT_ECGSYN_PARAMS];
     ECGSyn.z0Function := None |}.

(** The first state of an integration from [(1, 0, 0)]. *)
Definition ecg_start : SolverState :=
  {| currentT := 0; currentY := [1; 0; 0]; stepSize := 0.0005;
     tResult := [0]; yResult := [[1; 0; 0]] |}.

(** [dy/dt = 0] *)
Definition zero_field : @ODEFunction unit := fun _ y _ => Returned (map (fun _ => 0) y).

(** The state of [solveODE] on [zero_field] over [0, 1] with
    [maxStepSize = 0.4], after its first two steps. *)
Definition zero_field_third : SolverState :=
  {| currentT := 0.80000000000000004; currentY := [1]; stepSize := 0.40000000000000002;
     tResult := [0; 0.40000000000000002; 0.80000000000000004];
     yResult := [[1]; [1]; [1]] |}.

(** A heart rate of 100 bpm given as a custom parameter. *)
Definition heart_rate_100 : CustomParams :=
  {| c_P := None; c_Q := None; c_R := None; c_S := None; c_T := None;
     c_heartRate := Some (Some 100%float); c_respiratoryRate := None;
     c_respiratoryAmplitude := None |}.

(** 0.02 s of bradycardia (45 bpm in both tables) with that parameter. *)
Definition slow_at_100_bpm : ECGGeneratorOptions :=
  {| o_samplingRate := None; o_duration := Some 0.02%float; o_heartRate := None;
     o_pathology := Some "bradycardia"%string; o_noise := None;
     o_customParams := Some heart_rate_100; o_solverTolerance := None |}.

(** The stream of the test suite: 70 bpm, no total duration. *)
Definition stream_request : ECGGeneratorOptions :=
  {| o_samplingRate := None; o_duration := None; o_heartRate := Some 70%float;
     o_pathology := None; o_noise := None; o_customParams := None;
     o_solverTolerance := None |}.

Definition chunks_of (run : outcome (list ECGResult * nat)) : list ECGResult :=
  match run with
  | Returned (chunks, _) => chunks
  | _ => []
  end.

Definition three_pulls : outcome (list ECGResult * nat) :=
  pulls RefHost.host 2000 at_250Hz stream_request (Some 0.1%float) 3 generateStream 0%nat.

(** Its first three chunks of 0.1 s at 250 Hz. *)
Definition three_chunks : list ECGResult := Eval vm_compute in chunks_of three_pulls.

(** The harmonic oscillator [y0' = y1, y1' = -y0]. *)
Definition oscillator : @ODEFunction unit := fun _ y _ => Returned [at_ y 1; - at_ y 0].

(** It is integrated from [(1, 0)] over [t0, tf]. *)
Definition oscillator_options (t0 tf : float) (count : option jsint) : @ODESolverOptions unit :=
  {| initialConditions := [1; 0]; timeSpan := (t0, tf); timePoints := count; params := tt;
     tolerance := None; minStepSize := None; maxStepSize := None |}.

(** [1] for an option that is given, [0] for one that is absent. *)
Definition given {A} (o : option A) : nat :=
  match o with
  | Some _ => 1
  | None => 0
  end.

(** The ST-segment window of [addSTElevation]: 35% to 44% of a beat of
    [60 / 70] seconds. *)
Definition in_ST_window (t : float) : bool :=
  let beatDuration := 60 / 70 in
  (0.35 * beatDuration <? rem t beatDuration) && (rem t beatDuration <? 0.44 * beatDuration).

(** The U-wave window of [addUWaves]: 65% to 80% of a beat at the
    given heart rate. *)
Definition in_U_window (heartRate t : float) : bool :=
  let beatDuration := 60 / heartRate in
  (0.65 * beatDuration <? rem t beatDuration) && (rem t beatDuration <? 0.8 * beatDuration).

(** A call that has not returned. *)
Definition pending {A} (c : outcome A) : Prop :=
  match c with
  | Returned _ => False
  | _ => True
  end.

(** The adaptive integration that [generate] starts for a request: the
    state in which the stepping loop of [solveODE] ends, on the problem
    that [generateECGSyn] builds from the parameters of the request. *)
Definition integration (host : Host) (fuel : nat) (this : ECGGenerator)
    (options : ECGGeneratorOptions) (s : nat) : outcome SolverState :=
  match parameters host (default 60 (o_heartRate options))
          (default "normal"%string (o_pathology options)) (o_customParams options) s with
  | Returned (params, _) =>
      stepping host fuel (ECGSyn.ecgsynODE host fuel)
        (ECGSyn.problem host (default 10 (o_duration options))
           (default (this_samplingRate this) (o_samplingRate options)) params
           (default 1e-6 (o_solverTolerance options)))
  | Thrown e => Thrown e
  | Diverged => Diverged
  end.

(** Custom parameters that set no wave to [undefined]. *)
Definition keeps_waves (customParams : option CustomParams) : Prop :=
  match customParams with
  | Some c => Forall (fun wave => wave <> Some None) [c_P c; c_Q c; c_R c; c_S c; c_T c]
  | None => True
  end.

(** The five waves are there. *)
Definition complete (params : ECGSyn.Properties) : Prop :=
  Forall is_Some
    [ECGSyn.get_P params; ECGSyn.get_Q params; ECGSyn.get_R params; ECGSyn.get_S params;
     ECGSyn.get_T params].

End Vocabulary.

Ltac known := unfold PathologyType; apply list_elem_of_In; simpl; tauto.


(** * Properties *)

(** ** Floating-point facts used below *)

Section FloatFacts.

Local Open Scope float_scope.

Lemma mul_neg_half (v : float) : - v * 0.5 = v * (-0.5).
Proof.
  apply Prim2SF_inj. rewrite !mul_spec, opp_spec.
  replace (Prim2SF (-0.5)) with (SFopp (Prim2SF 0.5)) by (vm_compute; reflexivity).
  replace (Prim2SF 0.5) with (S754_finite false 4503599627370496 (-53))
    by (vm_compute; reflexivity).
  destruct (Prim2SF v) as [s|s| |s m e]; try reflexivity;
    unfold SF64mul, SFmul, SFopp; destruct s; reflexivity.
Qed.

Lemma digits2_pos_iter_xO (n m : positive) :
  digits2_pos (Pos.iter xO m n) = (digits2_pos m + n)%positive.
Proof.
  induction n using Pos.peano_ind.
  - simpl. lia.
  - rewrite Pos.iter_succ. simpl. rewrite IHn. lia.
Qed.

(** Multiplying by [1] is exact: the product of the mantissas is
    shifted back by the 52 bits that the mantissa of [1] adds. *)
Lemma mul_one (v : float) : v * 1 = v.
Proof.
  apply Prim2SF_inj. rewrite mul_spec.
  replace (Prim2SF 1) with (S754_finite false 4503599627370496 (-52))
    by (vm_compute; reflexivity).
  pose proof (Prim2SF_valid v) as Hv.
  destruct (Prim2SF v) as [s|s| |s m e]; try reflexivity;
    try (cbn; destruct s; reflexivity).
  unfold SF64mul, SFmul. rewrite xorb_false_r.
  unfold valid_binary, bounded, canonical_mantissa in Hv.
  apply andb_prop in Hv as [Hc He]. apply Z.eqb_eq in Hc.
  unfold binary_round_aux.
  assert (Hs : shr_fexp prec emax (Z.pos (m * 4503599627370496)) (e + -52) loc_Exact
               = ({| shr_m := Z.pos m; shr_r := false; shr_s := false |}, e)).
  { unfold shr_fexp. cbn [Zdigits2 shr_record_of_loc].
    replace (m * 4503599627370496)%positive with (Pos.iter xO m 52)
      by (rewrite Pos.mul_comm; reflexivity).
    rewrite digits2_pos_iter_xO.
    replace (Z.pos (digits2_pos m + 52) + (e + -52))%Z
      with (Z.pos (digits2_pos m) + e)%Z by lia.
    rewrite Hc. replace (e - (e + -52))%Z with 52%Z by lia.
    unfold shr. f_equal; try lia. }
  rewrite Hs. cbn [shr_m shr_r shr_s loc_of_shr_record round_nearest_even].
  unfold shr_fexp. cbn [Zdigits2 shr_record_of_loc]. rewrite Hc, Z.sub_diag.
  cbn [shr shr_m]. rewrite He. reflexivity.
Qed.

(** A number that is neither zero nor [NaN]. *)
Lemma truthy_number (x : float) :
  truthy x = true ->
  match Prim2SF x with
  | S754_nan | S754_zero _ => False
  | _ => True
  end.
Proof.
  unfold truthy, is_nan, is_zero. rewrite !FloatAxioms.eqb_spec.
  change (Prim2SF zero) with (S754_zero false).
  destruct (Prim2SF x) as [[|]|[|]| |[|] m e]; cbn; intros H; try exact I; discriminate H.
Qed.

(** A factor of a product whose ceiling is an integer is zero or
    finite. *)
Lemma integer_count_has_finite_factor (d rate : float) (n : Z) :
  Math_ceil (d * rate) = JInt n ->
  match Prim2SF d with
  | S754_zero _ | S754_finite _ _ _ => True
  | _ => False
  end.
Proof.
  unfold Math_ceil, rounded. rewrite mul_spec.
  destruct (Prim2SF d) as [sd|sd| |sd md ed]; try (intros _; exact I);
    destruct (Prim2SF rate) as [sr|sr| |sr mr er]; discriminate.
Qed.

(** The first point of the uniform grid,
    [t0 + (0 * duration) / (timePoints - 1)] with [t0 = 0], is [0] when
    the duration is finite and [timePoints - 1] is neither zero nor
    [NaN]. *)
Lemma grid_origin (d x : float) :
  match Prim2SF d with
  | S754_zero _ | S754_finite _ _ _ => True
  | _ => False
  end ->
  truthy x = true ->
  0 + (of_nat 0 * (d - 0)) / x = 0.
Proof.
  intros Hd Hx. apply truthy_number in Hx.
  apply Prim2SF_inj. rewrite add_spec, div_spec, mul_spec, sub_spec.
  change (Prim2SF (of_nat 0)) with (S754_zero false).
  change (Prim2SF 0) with (S754_zero false).
  destruct (Prim2SF d) as [sd|sd| |sd md ed]; try contradiction;
    destruct (Prim2SF x) as [sx|sx| |sx mx ex]; try contradiction;
    destruct sd, sx; reflexivity.
Qed.

End FloatFacts.

(** ** Inversion of the two binds *)

Lemma obind_Returned {A B} (c : outcome A) (k : A -> outcome B) (b : B) :
  obind c k = Returned b -> exists a, c = Returned a /\ k a = Returned b.
Proof. destruct c; simpl; intros H; try discriminate. eauto. Qed.

Lemma bind_Returned {A B} (c : M A) (k : A -> M B) (s s' : nat) (b : B) :
  bind c k s = Returned (b, s') ->
  exists a s1, c s = Returned (a, s1) /\ k a s1 = Returned (b, s').
Proof.
  unfold bind. destruct (c s) as [[a s1]| |]; intros H; try discriminate. eauto.
Qed.

Lemma bind_of_Returned {A B} (c : M A) (k : A -> M B) (s s1 : nat) (a : A) :
  c s = Returned (a, s1) -> bind c k s = k a s1.
Proof. unfold bind. intros ->. reflexivity. Qed.

(** ** Multi-lead derivation *)

Section MultiLead.

Context (host : Host).

(** No lead of the table has the name of an inherited member. *)
Lemma own_lead_is_not_inherited (lead : string) (f : list float -> list float) :
  leadTransforms !! lead = Some f -> inherits lead = false.
Proof.
  intros H. apply elem_of_list_to_map_2 in H. apply list_elem_of_In in H. simpl in H.
  repeat (destruct H as [H|H]; [injection H as <- _; reflexivity|]). contradiction.
Qed.

Lemma throws_is_inherited (name : string) : throws name = true -> inherits name = true.
Proof. unfold throws. intros H. apply andb_prop in H as [H _]. exact H. Qed.

Lemma throwing_lead_is_not_own (lead : string) :
  throws lead = true -> leadTransforms !! lead = None.
Proof.
  intros H. apply throws_is_inherited in H.
  destruct (leadTransforms !! lead) as [f|] eqn:Hf; [|reflexivity].
  rewrite (own_lead_is_not_inherited lead f Hf) in H. discriminate H.
Qed.

(** One turn of the loop throws for a throwing name and stores an entry
    for every other name. *)
Lemma derive_step (leadII : ECGResult) (m : gmap string LeadResult) (lead : string) :
  derive leadII m lead =
    if throws lead then Thrown TypeError else Returned (<[ lead := derived leadII lead ]> m).
Proof.
  unfold derive, derived, throws, Get.
  destruct (leadTransforms !! lead) as [f|] eqn:Hf.
  - rewrite (own_lead_is_not_inherited lead f Hf). reflexivity.
  - destruct (inherits lead); [|reflexivity].
    unfold Call. destruct (String.eqb lead "constructor"); [reflexivity|].
    destruct (String.eqb lead "toString"); reflexivity.
Qed.

Lemma for_of_derive (leadII : ECGResult) (leads : list string) :
  forall m : gmap string LeadResult,
    for_of (derive leadII) leads m =
      if existsb throws leads then Thrown TypeError
      else Returned (foldl (fun m lead => <[ lead := derived leadII lead ]> m) m leads).
Proof.
  induction leads as [|x leads IH]; intros m; simpl; [reflexivity|].
  rewrite derive_step. destruct (throws x); simpl; [reflexivity|apply IH].
Qed.

Lemma foldl_derive_other (leadII : ECGResult) (leads : list string) :
  forall (m : gmap string LeadResult) (lead : string),
    lead ∉ leads ->
    foldl (fun m lead => <[ lead := derived leadII lead ]> m) m leads !! lead = m !! lead.
Proof.
  induction leads as [|x leads IH]; intros m lead Hn; simpl; [reflexivity|].
  apply not_elem_of_cons in Hn as [Hx Hl].
  rewrite IH by exact Hl. apply lookup_insert_ne. congruence.
Qed.

Lemma foldl_derive_lookup (leadII : ECGResult) (leads : list string) :
  forall (m : gmap string LeadResult) (lead : string),
    lead ∈ leads ->
    foldl (fun m lead => <[ lead := derived leadII lead ]> m) m leads !! lead
    = Some (derived leadII lead).
Proof.
  induction leads as [|x leads IH]; intros m lead Hin; [inversion Hin|].
  simpl. destruct (decide (lead ∈ leads)) as [Hl|Hl].
  - apply IH, Hl.
  - apply elem_of_cons in Hin as [->|Hin]; [|contradiction].
    rewrite foldl_derive_other by exact Hl.
    apply lookup_insert_eq.
Qed.

(** What [generateMultiLead] does once the base result is there. *)
Lemma generateMultiLead_outcome (fuel : nat) (this : ECGGenerator)
    (options : ECGGeneratorOptions) (leads : option (list string))
    (s s' : nat) (leadII : ECGResult) :
  generate host fuel this options s = Returned (leadII, s') ->
  generateMultiLead host fuel this options leads s =
    if existsb throws (default default_leads leads) then Thrown TypeError
    else Returned (foldl (fun m lead => <[ lead := derived leadII lead ]> m) ∅
                     (default default_leads leads), s').
Proof.
  intros Hg. unfold generateMultiLead.
  rewrite (bind_of_Returned _ _ _ _ _ Hg), for_of_derive.
  destruct (existsb throws _); reflexivity.
Qed.

Lemma generateMultiLead_lookup (fuel : nat) (this : ECGGenerator)
    (options : ECGGeneratorOptions) (leads : option (list string))
    (s s' : nat) (leadII : ECGResult) (lead : string) :
  generate host fuel this options s = Returned (leadII, s') ->
  lead ∈ default default_leads leads ->
  existsb throws (default default_leads leads) = false ->
  exists result,
    generateMultiLead host fuel this options leads s = Returned (result, s')
    /\ result !! lead = Some (derived leadII lead).
Proof.
  intros Hg Hin Hq. rewrite (generateMultiLead_outcome fuel this options leads s s' leadII Hg).
  rewrite Hq. eexists. split; [reflexivity|]. apply foldl_derive_lookup, Hin.
Qed.

Lemma generateMultiLead_throws (fuel : nat) (this : ECGGenerator)
    (options : ECGGeneratorOptions) (leads : option (list string))
    (s s' : nat) (leadII : ECGResult) (lead : string) :
  generate host fuel this options s = Returned (leadII, s') ->
  lead ∈ default default_leads leads ->
  throws lead = true ->
  generateMultiLead host fuel this options leads s = Thrown TypeError.
Proof.
  intros Hg Hin Ht. rewrite (generateMultiLead_outcome fuel this options leads s s' leadII Hg).
  assert (He : existsb throws (default default_leads leads) = true).
  { apply existsb_exists. exists lead. split; [apply list_elem_of_In, Hin|exact Ht]. }
  rewrite He. reflexivity.
Qed.

End MultiLead.

Lemma transform_scales (leadII : ECGResult) (lead : string) (k : float) :
  (lead, k) ∈ lead_scalars ->
  derived leadII lead = entry leadII (inl (map (fun v => (v * k)%float) (signal leadII))).
Proof.
  unfold lead_scalars. intros H.
  repeat (apply elem_of_cons in H as [H|H]; [injection H as -> ->|]);
    try (inversion H; fail); try reflexivity.
  - change (derived leadII "II") with (entry leadII (inl (signal leadII))).
    do 2 f_equal. induction (signal leadII) as [|v sig IH]; simpl; [reflexivity|].
    f_equal; [symmetry; apply mul_one | exact IH].
  - change (derived leadII "aVR")
      with (entry leadII (inl (map (fun v => (- v * 0.5)%float) (signal leadII)))).
    do 2 f_equal. apply map_ext. intros v. apply mul_neg_half.
Qed.

Lemma short_run :
  exists r s', generate RefHost.host 200 at_250Hz (plain_request 0.02) 0 = Returned (r, s').
Proof. vm_compute. eexists. eexists. reflexivity. Qed.

(** C8 on the code. The loop of [generateMultiLead] calls whatever
    [leadTransforms[lead]] finds, inherited members included: for the
    leads [II] alone the call returns the base result under [II], and
    for [II] requested together with [hasOwnProperty] the call throws a
    [TypeError], so that no entry is returned for the table lead
    either. *)
Theorem table_lead_is_lost_to_an_inherited_name :
  exists leadII s',
    generate RefHost.host 200 at_250Hz (plain_request 0.02) 0 = Returned (leadII, s')
    /\ (exists result,
          generateMultiLead RefHost.host 200 at_250Hz (plain_request 0.02)
            (Some ["II"]%string) 0 = Returned (result, s')
          /\ result !! "II"%string = Some (entry leadII (inl (signal leadII))))
    /\ generateMultiLead RefHost.host 200 at_250Hz (plain_request 0.02)
         (Some ["II"; "hasOwnProperty"]%string) 0 = Thrown TypeError.
Proof.
  destruct short_run as (r & s' & Hr). exists r, s'. split; [exact Hr|]. split.
  - destruct (generateMultiLead_lookup RefHost.host 200 at_250Hz (plain_request 0.02)
                (Some ["II"]%string) 0 s' r "II"%string Hr) as (result & H1 & H2).
    + apply list_elem_of_In; simpl; tauto.
    + reflexivity.
    + exists result. split; [exact H1|exact H2].
  - apply (generateMultiLead_throws RefHost.host 200 at_250Hz (plain_request 0.02)
             (Some ["II"; "hasOwnProperty"]%string) 0 s' r "hasOwnProperty"%string Hr).
    + apply list_elem_of_In; simpl; tauto.
    + reflexivity.
Qed.

(** C10 on the code. A requested lead that the table does not have is
    not always given the identity: when its name is that of a member
    inherited from [Object.prototype] that throws on a plain call
    ([hasOwnProperty], [valueOf], [__proto__], ...), the lookup
    [leadTransforms[lead]] finds that member, the fallback [(s) => s] is
    not taken, and [generateMultiLead] throws a [TypeError]. *)
Theorem inherited_lead_name_throws (host : Host) (fuel : nat) (this : ECGGenerator)
    (options : ECGGeneratorOptions) (leads : option (list string))
    (s s' : nat) (leadII : ECGResult) (lead : string) :
  generate host fuel this options s = Returned (leadII, s') ->
  lead ∈ default default_leads leads ->
  throws lead = true ->
  leadTransforms !! lead = None
  /\ generateMultiLead host fuel this options leads s = Thrown TypeError.
Proof.
  intros Hg Hin Ht. split; [apply throwing_lead_is_not_own, Ht|].
  exact (generateMultiLead_throws host fuel this options leads s s' leadII lead Hg Hin Ht).
Qed.

Lemma inherited_lead_name_throws_witness :
  exists leadII s',
    generate RefHost.host 200 at_250Hz (plain_request 0.02) 0 = Returned (leadII, s')
    /\ leadTransforms !! "hasOwnProperty"%string = None
    /\ generateMultiLead RefHost.host 200 at_250Hz (plain_request 0.02)
         (Some ["II"; "hasOwnProperty"]%string) 0 = Thrown TypeError.
Proof.
  destruct short_run as (r & s' & Hr). exists r, s'. split; [exact Hr|].
  apply (inherited_lead_name_throws RefHost.host 200 at_250Hz (plain_request 0.02)
           (Some ["II"; "hasOwnProperty"]%string) 0 s' r "hasOwnProperty"%string Hr).
  - apply list_elem_of_In; simpl; tauto.
  - reflexivity.
Defined.

(** For each lead of the fixed table that is requested, in a list of
    leads none of which names an inherited member that throws,
    [generateMultiLead] returns, under that lead, the base Lead-II
    result with its signal multiplied pointwise by the lead's scalar
    (I 0.8, II 1.0, III 0.6, aVR -0.5, aVL 0.4, aVF 0.7, V1 0.3, V2 0.5,
    V3 0.8, V4 1.0, V5 0.9, V6 0.7), and with the base result's [time],
    [samplingRate] and [metadata]. *)
Theorem multi_lead_scaled (host : Host) (fuel : nat) (this : ECGGenerator)
    (options : ECGGeneratorOptions) (leads : option (list string))
    (s s' : nat) (leadII : ECGResult) (lead : string) (k : float) :
  generate host fuel this options s = Returned (leadII, s') ->
  lead ∈ default default_leads leads ->
  (lead, k) ∈ lead_scalars ->
  existsb throws (default default_leads leads) = false ->
  exists result,
    generateMultiLead host fuel this options leads s = Returned (result, s')
    /\ result !! lead =
         Some {| time := time leadII;
                 signal := inl (map (fun v => (v * k)%float) (signal leadII));
                 samplingRate := samplingRate leadII;
                 metadata := metadata leadII |}.
Proof.
  intros Hg Hin Hk Hq.
  destruct (generateMultiLead_lookup host fuel this options leads s s' leadII lead Hg Hin Hq)
    as (result & Hr & Hl).
  exists result. split; [exact Hr|].
  rewrite (transform_scales leadII lead k Hk) in Hl. exact Hl.
Qed.

Lemma multi_lead_scaled_witness :
  exists leadII result s',
    generateMultiLead RefHost.host 200 at_250Hz (plain_request 0.02)
      (Some ["II"; "aVR"]%string) 0 = Returned (result, s')
    /\ result !! "aVR"%string =
         Some {| time := time leadII;
                 signal := inl (map (fun v => (v * -0.5)%float) (signal leadII));
                 samplingRate := samplingRate leadII;
                 metadata := metadata leadII |}.
Proof.
  destruct short_run as (r & s' & Hr).
  destruct (multi_lead_scaled RefHost.host 200 at_250Hz (plain_request 0.02)
              (Some ["II"; "aVR"]%string) 0 s' r "aVR"%string (-0.5)%float Hr)
    as (result & H1 & H2).
  - apply list_elem_of_In; simpl; tauto.
  - apply list_elem_of_In; simpl; tauto.
  - reflexivity.
  - exists r, result, s'. split; assumption.
Defined.

(** For a requested lead that the fixed table does not have, in a list
    of leads none of which names an inherited member that throws,
    [generateMultiLead] returns the base Lead-II result itself under
    that lead, signal unchanged, with one exception: for the lead
    [toString] the [signal] of the entry is the string
    ["[object Undefined]"]. *)
Theorem multi_lead_unknown (host : Host) (fuel : nat) (this : ECGGenerator)
    (options : ECGGeneratorOptions) (leads : option (list string))
    (s s' : nat) (leadII : ECGResult) (lead : string) :
  generate host fuel this options s = Returned (leadII, s') ->
  lead ∈ default default_leads leads ->
  leadTransforms !! lead = None ->
  existsb throws (default default_leads leads) = false ->
  exists result,
    generateMultiLead host fuel this options leads s = Returned (result, s')
    /\ result !! lead =
         Some {| time := time leadII;
                 signal := if String.eqb lead "toString"
                           then inr "[object Undefined]"%string
                           else inl (signal leadII);
                 samplingRate := samplingRate leadII;
                 metadata := metadata leadII |}.
Proof.
  intros Hg Hin Hnone Hq.
  destruct (generateMultiLead_lookup host fuel this options leads s s' leadII lead Hg Hin Hq)
    as (result & Hr & Hl).
  exists result. split; [exact Hr|].
  etransitivity; [exact Hl|]. unfold derived, entry, Get. rewrite Hnone.
  assert (Ht : throws lead = false).
  { destruct (throws lead) eqn:Ht; [|reflexivity].
    assert (He : existsb throws (default default_leads leads) = true)
      by (apply existsb_exists; exists lead; split; [apply list_elem_of_In, Hin|exact Ht]).
    rewrite He in Hq. discriminate Hq. }
  unfold throws, Call in Ht. unfold Call.
  destruct (inherits lead) eqn:Hi.
  - destruct (String.eqb lead "constructor") eqn:Hc.
    + apply String.eqb_eq in Hc. subst lead. reflexivity.
    + destruct (String.eqb lead "toString"); [reflexivity|discriminate Ht].
  - destruct (String.eqb lead "toString") eqn:Hs; [|reflexivity].
    apply String.eqb_eq in Hs. subst lead. discriminate Hi.
Qed.

Lemma multi_lead_unknown_witness :
  exists leadII result s',
    generate RefHost.host 200 at_250Hz (plain_request 0.02) 0 = Returned (leadII, s')
    /\ generateMultiLead RefHost.host 200 at_250Hz (plain_request 0.02)
         (Some ["II"; "V7"]%string) 0 = Returned (result, s')
    /\ result !! "V7"%string =
         Some {| time := time leadII;
                 signal := inl (signal leadII);
                 samplingRate := samplingRate leadII;
                 metadata := metadata leadII |}.
Proof.
  destruct short_run as (r & s' & Hr).
  destruct (multi_lead_unknown RefHost.host 200 at_250Hz (plain_request 0.02)
              (Some ["II"; "V7"]%string) 0 s' r "V7"%string Hr)
    as (result & H1 & H2).
  - apply list_elem_of_In; simpl; tauto.
  - reflexivity.
  - reflexivity.
  - exists r, result, s'. repeat split; assumption.
Defined.

(** ** Pathology identifiers outside the enumeration *)

Lemma unknown_not_enhanced (host : Host) (p : string) :
  p ∉ PathologyType -> Enhanced.ENHANCED_PATHOLOGY_PARAMS host !! p = None.
Proof.
  intros Hp. apply not_elem_of_list_to_map_1. simpl.
  intros Hin. apply Hp. unfold PathologyType.
  apply list_elem_of_In in Hin. apply list_elem_of_In. simpl in *. tauto.
Qed.

Lemma unknown_not_basic (p : string) :
  p ∉ PathologyType -> ECGSyn.PATHOLOGY_PARAMS !! p = None.
Proof.
  intros Hp. apply not_elem_of_list_to_map_1. simpl.
  intros Hin. apply Hp. unfold PathologyType.
  apply list_elem_of_In in Hin. apply list_elem_of_In. simpl in *. tauto.
Qed.

Lemma unknown_differs (p q : string) :
  p ∉ PathologyType -> q ∈ PathologyType -> String.eqb p q = false.
Proof.
  intros Hp Hq. apply String.eqb_neq. intros ->. contradiction.
Qed.

Lemma parameters_unknown (host : Host) (heartRate : float) (p : string)
    (customParams : option CustomParams) (s : nat) :
  p ∉ PathologyType ->
  p <> "toString"%string ->
  parameters host heartRate p customParams s =
    if throws p then Thrown TypeError
    else parameters host heartRate "normal" customParams s.
Proof.
  intros Hp Hts. unfold parameters.
  rewrite (unknown_differs p "normal" Hp) by known.
  cbn [negb String.eqb Ascii.eqb Bool.eqb].
  unfold Get. rewrite (unknown_not_enhanced host p Hp).
  pose proof (unknown_not_basic p Hp) as Hb. unfold ECGSyn.transform in *. rewrite Hb.
  unfold throws, Call. destruct (inherits p); [|reflexivity].
  destruct (String.eqb p "constructor"); [reflexivity|].
  destruct (String.eqb p "toString") eqn:Ht; [|reflexivity].
  apply String.eqb_eq in Ht. contradiction.
Qed.

(** C3 (as the code has it). For a pathology identifier outside the
    fourteen-member enumeration, [generate] does not fail unless the
    identifier names a member inherited from [Object.prototype] that
    throws on a plain call ([hasOwnProperty], [valueOf], [__proto__],
    ...): the lookup then finds that member, calls it, and the call
    throws a [TypeError].  For every other unknown identifier
    ([toString], whose member returns a string, set apart) neither
    table changes the parameters and no post-processing step is
    selected, so the call behaves as the same request with pathology
    ["normal"] does, and returns that trace with the unknown identifier
    recorded in [metadata.pathology]. *)
Theorem unknown_pathology_falls_back (host : Host) (fuel : nat) (this : ECGGenerator)
    (options : ECGGeneratorOptions) (p : string) (s : nat) :
  p ∉ PathologyType ->
  p <> "toString"%string ->
  generate host fuel this (with_pathology p options) s =
    if throws p then Thrown TypeError
    else
      match generate host fuel this (with_pathology "normal" options) s with
      | Returned (r, s') => Returned (relabel p r, s')
      | Thrown e => Thrown e
      | Diverged => Diverged
      end.
Proof.
  intros Hp Hts. unfold generate. cbn [with_pathology o_pathology o_duration o_heartRate
    o_noise o_customParams o_samplingRate o_solverTolerance from_option id].
  rewrite (unknown_differs p "stemi" Hp) by known.
  rewrite (unknown_differs p "hypokalemia" Hp) by known.
  rewrite (unknown_differs p "atrialFibrillation" Hp) by known.
  rewrite (unknown_differs p "completeHeartBlock" Hp) by known.
  cbn [String.eqb Ascii.eqb Bool.eqb].
  unfold bind. rewrite (parameters_unknown host _ p _ s Hp Hts).
  destruct (throws p); [reflexivity|].
  destruct (parameters host _ "normal" _ s) as [[params s0]| |]; [|reflexivity|reflexivity].
  unfold ret.
  destruct (lift _ s0) as [[[t ecg] s1]| |]; [|reflexivity|reflexivity].
  destruct (o_noise options) as [n|]; [|reflexivity].
  destruct (addNoise host ecg t n s1) as [[e2 s2]| |]; reflexivity.
Qed.

Lemma unknown_pathology_falls_back_witness :
  ("wpw"%string ∉ PathologyType)
  /\ generate RefHost.host 200 at_250Hz (with_pathology "wpw" (plain_request 0.02)) 0 =
       match generate RefHost.host 200 at_250Hz
               (with_pathology "normal" (plain_request 0.02)) 0 with
       | Returned (r, s') => Returned (relabel "wpw" r, s')
       | Thrown e => Thrown e
       | Diverged => Diverged
       end.
Proof.
  assert (H : "wpw"%string ∉ PathologyType).
  { intros Hin. apply list_elem_of_In in Hin. simpl in Hin.
    repeat (destruct Hin as [Hin|Hin]; [discriminate Hin|]). exact Hin. }
  split; [exact H|].
  apply (unknown_pathology_falls_back RefHost.host 200 at_250Hz (plain_request 0.02)
           "wpw"%string 0 H).
  discriminate.
Defined.

(** C3 as stated fails: the request below names a pathology outside the
    enumeration and [generate] returns a trace for it. *)
Lemma unknown_pathology_returns :
  ("wpw"%string ∉ PathologyType)
  /\ exists r s',
       generate RefHost.host 200 at_250Hz (with_pathology "wpw" (plain_request 0.02)) 0
         = Returned (r, s')
       /\ m_pathology (metadata r) = "wpw"%string
       /\ length (signal r) = 5.
Proof.
  split.
  - intros Hin. apply list_elem_of_In in Hin. simpl in Hin.
    repeat (destruct Hin as [Hin|Hin]; [discriminate Hin|]). exact Hin.
  - vm_compute. eexists. eexists. repeat split.
Qed.

(** ** The adaptive integrator *)

Section Steps.

Import OdeSolver.
Local Open Scope float_scope.

Context (host : Host) {P : Type}.

Lemma imap_index {A B} (c : nat -> B) (l : list A) :
  imap (fun j _ => c j) l = map c (seq 0 (length l)).
Proof.
  revert c. induction l as [|a l IH]; intros c; [reflexivity|].
  simpl. f_equal.
  change (imap ((fun j _ => c j) ∘ S) l) with (imap (fun j (_ : A) => c (S j)) l).
  rewrite (IH (fun j => c (S j))), <- seq_shift, map_map. reflexivity.
Qed.

Lemma fold_left_over_map {A B C} (f : A -> B -> A) (g : C -> B) (l : list C) (a : A) :
  fold_left f (map g l) a = fold_left (fun acc x => f acc (g x)) l a.
Proof. revert a. induction l as [|x l IH]; intros a; simpl; [reflexivity|apply IH]. Qed.

Lemma rk45Step_shape (func : ODEFunction) (t : float) (y : list float) (h : float)
    (prm : P) (y5 y4 error : list float) :
  rk45Step func t y h prm = Returned (y5, y4, error) ->
  length y5 = length y /\ length y4 = length y
  /\ error = map (fun j => Math_abs (at_ y5 j - at_ y4 j)) (seq 0 (length y)).
Proof.
  unfold rk45Step. intros H.
  apply obind_Returned in H as (k0 & _ & H).
  apply obind_Returned in H as (k & _ & H).
  injection H as <- <- <-.
  rewrite !length_imap. repeat split. apply imap_index.
Qed.

(** C7 (as the code has it). For every attempted step, the error norm
    is the Euclidean norm of the elementwise absolute difference
    between the 5th-order and the 4th-order estimate, divided by the
    vector length: [sqrt (sum_j |y5_j - y4_j|^2) / n], and not the
    root mean square [sqrt (sum_j |y5_j - y4_j|^2 / n)]. *)
Theorem error_norm_of_step (func : ODEFunction) (t : float) (y : list float) (h : float)
    (prm : P) (y5 y4 error : list float) :
  rk45Step func t y h prm = Returned (y5, y4, error) ->
  errorNorm error =
    Math_sqrt
      (fold_left
         (fun sum j =>
            sum + Math_abs (at_ y5 j - at_ y4 j) * Math_abs (at_ y5 j - at_ y4 j))
         (seq 0 (length y)) 0)
    / of_nat (length y).
Proof.
  intros H. apply rk45Step_shape in H as (_ & _ & ->).
  unfold errorNorm. rewrite fold_left_over_map, length_map, length_seq. reflexivity.
Qed.

(** C6 (as the code has it). An attempted step of clamped size [h] is
    accepted iff [errorNorm < tolerance] or [h <= minStepSize].  On
    acceptance time and state advance, the new point is recorded, and,
    when [errorNorm > 0], [h] becomes
    [min (maxStep, h * min (2, 0.9 * (tolerance / errorNorm)^0.2))];
    when [errorNorm] is not positive [h] is left as it is.  On
    rejection time, state and recorded points are unchanged and [h]
    becomes [max (minStepSize, h * max (0.1, 0.9 * (tolerance / errorNorm)^0.25))]. *)
Theorem attempt_accepts_or_rejects (func : ODEFunction) (prm : P)
    (tf tol minStep maxStep : float) (st : SolverState) (y5 y4 error : list float) :
  rk45Step func (currentT st) (currentY st) (clamped tf st) prm = Returned (y5, y4, error) ->
  exists st',
    attempt host func prm tf tol minStep maxStep st = Returned st'
    /\ let h := clamped tf st in
       let e := errorNorm error in
       if (e <? tol) || (h <=? minStep) then
         currentT st' = currentT st + h
         /\ currentY st' = y5
         /\ tResult st' = tResult st ++ [currentT st + h]
         /\ yResult st' = yResult st ++ [y5]
         /\ stepSize st' =
              (if 0 <? e
               then Math_min maxStep (h * Math_min 2 (0.9 * Math_pow host (tol / e) 0.2))
               else h)
       else
         currentT st' = currentT st
         /\ currentY st' = currentY st
         /\ tResult st' = tResult st
         /\ yResult st' = yResult st
         /\ stepSize st' =
              Math_max minStep (h * Math_max 0.1 (0.9 * Math_pow host (tol / e) 0.25)).
Proof.
  intros H. unfold attempt. rewrite H. cbn [obind]. unfold accepts, grown, shrunk.
  cbv zeta.
  destruct ((errorNorm error <? tol) || (clamped tf st <=? minStep)) eqn:Hacc;
    eexists; (split; [reflexivity|]); cbn; repeat split.
Qed.

End Steps.

(** ** Steps used to run the integrator *)

Section Runs.

Import OdeSolver.
Local Open Scope float_scope.

Lemma zero_field_third_reached :
  (let* st1 := attempt RefHost.host zero_field tt 1 1e-6 1e-8 0.4
                 {| currentT := 0; currentY := [1]; stepSize := 0.4;
                    tResult := [0]; yResult := [[1]] |} in
   attempt RefHost.host zero_field tt 1 1e-6 1e-8 0.4 st1)%outcome
  = Returned zero_field_third.
Proof. vm_compute. reflexivity. Qed.

Lemma ecg_first_step :
  exists y5 y4 error,
    rk45Step (ECGSyn.ecgsynODE RefHost.host 100) (currentT ecg_start) (currentY ecg_start)
      (clamped 1 ecg_start) default_ode_params = Returned (y5, y4, error).
Proof. vm_compute. eexists. eexists. eexists. reflexivity. Qed.

Lemma error_norm_of_step_witness :
  exists y5 y4 error,
    rk45Step (ECGSyn.ecgsynODE RefHost.host 100) (currentT ecg_start) (currentY ecg_start)
      (clamped 1 ecg_start) default_ode_params = Returned (y5, y4, error)
    /\ errorNorm error =
         Math_sqrt
           (fold_left
              (fun sum j =>
                 sum + Math_abs (at_ y5 j - at_ y4 j) * Math_abs (at_ y5 j - at_ y4 j))
              (seq 0 3) 0)
         / of_nat 3.
Proof.
  destruct ecg_first_step as (y5 & y4 & error & H).
  exists y5, y4, error. split; [exact H|].
  exact (error_norm_of_step _ _ _ _ _ _ _ _ H).
Defined.

(** C7 as stated fails: on the first step of the default ECG
    integration, and on a step of the harmonic oscillator, the error
    norm of the code differs from the root mean square. *)
Lemma error_norm_is_not_rms :
  (rk45Step (ECGSyn.ecgsynODE RefHost.host 100) 0 [1; 0; 0] 0.0005 default_ode_params
     = Returned ([0.9999950652018581; 0.0031415874858795635; -7.9716527862980073e-06],
                 [0.9999950652018581; 0.0031415874858798103; -7.9716527866824332e-06],
                 [0; 2.4676441445770081e-16; 3.8442590311136421e-16])
   /\ errorNorm [0; 2.4676441445770081e-16; 3.8442590311136421e-16]
      = 1.5227020983386369e-16
   /\ root_mean_square [0; 2.4676441445770081e-16; 3.8442590311136421e-16]
      = 2.6373973991142603e-16)
  /\ (rk45Step (fun _ y (_ : unit) => Returned [at_ y 1; - at_ y 0]) 0 [1; 0] 0.5 tt
        = Returned ([0.87757812499999999; -0.47942708333333339],
                    [0.87758320312499993; -0.47945201822916672],
                    [5.0781249999465317e-06; 2.4934895833328419e-05])
      /\ errorNorm [5.0781249999465317e-06; 2.4934895833328419e-05]
         = 1.2723368104928239e-05
      /\ root_mean_square [5.0781249999465317e-06; 2.4934895833328419e-05]
         = 1.7993559733054782e-05
      /\ root_mean_square [5.0781249999465317e-06; 2.4934895833328419e-05] / 2
         = 8.9967798665273911e-06).
Proof.
  vm_compute. repeat split.
Qed.

Lemma attempt_accepts_or_rejects_witness :
  exists y5 y4 error st',
    rk45Step (ECGSyn.ecgsynODE RefHost.host 100) (currentT ecg_start) (currentY ecg_start)
      (clamped 1 ecg_start) default_ode_params = Returned (y5, y4, error)
    /\ attempt RefHost.host (ECGSyn.ecgsynODE RefHost.host 100) default_ode_params
         1 1e-6 1e-8 0.0005 ecg_start = Returned st'
    /\ currentT st' = 0.0005
    /\ tResult st' = [0; 0.0005].
Proof.
  destruct ecg_first_step as (y5 & y4 & error & H).
  destruct (attempt_accepts_or_rejects RefHost.host (ECGSyn.ecgsynODE RefHost.host 100)
              default_ode_params 1 1e-6 1e-8 0.0005 ecg_start y5 y4 error H)
    as (st' & Hst & Hif).
  exists y5, y4, error, st'. split; [exact H|]. split; [exact Hst|].
  revert Hst. vm_compute. intros Hst. injection Hst as <-. split; reflexivity.
Defined.

(** C6 as stated fails: the third step of [solveODE] on the zero
    field over [0, 1] with [maxStepSize = 0.4] is clamped to
    [h = 0.2], has error norm [0] and is accepted; the code leaves the
    step size at [h], where growing it by
    [min (2, 0.9 * (tolerance / errorNorm)^0.2)] under the bound
    [maxStep] would give [0.4]. *)
Lemma zero_error_step_is_not_grown :
  rk45Step zero_field (currentT zero_field_third) (currentY zero_field_third)
    (clamped 1 zero_field_third) tt = Returned ([1], [1], [0])
  /\ clamped 1 zero_field_third = 0.19999999999999996
  /\ errorNorm [0] = 0
  /\ accepts 1e-6 1e-8 (errorNorm [0]) (clamped 1 zero_field_third) = true
  /\ attempt RefHost.host zero_field tt 1 1e-6 1e-8 0.4 zero_field_third
     = Returned {| currentT := 1; currentY := [1]; stepSize := 0.19999999999999996;
                   tResult := [0; 0.40000000000000002; 0.80000000000000004; 1];
                   yResult := [[1]; [1]; [1]; [1]] |}
  /\ Math_min 0.4
       (clamped 1 zero_field_third
        * Math_min 2 (0.9 * Math_pow RefHost.host (1e-6 / errorNorm [0]) 0.2))
     = 0.39999999999999991.
Proof.
  vm_compute. repeat split.
Qed.

End Runs.

(** ** Lengths of the arrays *)

Section Lengths.

Import OdeSolver.
Local Open Scope float_scope.

Context (host : Host).

Lemma lift_Returned {A} (c : outcome A) (s s' : nat) (a : A) :
  lift c s = Returned (a, s') -> c = Returned a /\ s' = s.
Proof. destruct c; simpl; intros H; try discriminate. injection H as -> ->. auto. Qed.

Lemma imapM_length {A B} (f : nat -> A -> M B) (l : list A) :
  forall (i s s' : nat) (l' : list B),
    imapM f i l s = Returned (l', s') -> length l' = length l.
Proof.
  induction l as [|a l IH]; intros i s s' l' H; simpl in H.
  - injection H as <- _. reflexivity.
  - apply bind_Returned in H as (b & s1 & _ & H).
    apply bind_Returned in H as (bs & s2 & Hbs & H).
    injection H as <- _. simpl. f_equal. eapply IH, Hbs.
Qed.

Lemma addNoise_length (sig time : list float) (noise : NoiseOptions)
    (s s' : nat) (noisy : list float) :
  addNoise host sig time noise s = Returned (noisy, s') -> length noisy = length sig.
Proof.
  unfold addNoise. intros H.
  apply bind_Returned in H as (n1 & s1 & Hm & H).
  assert (Hn1 : length n1 = length sig).
  { destruct (muscle noise).
    - apply imapM_length in Hm. rewrite Hm.
      destruct (powerline noise), (baseline noise); rewrite ?length_imap; reflexivity.
    - injection Hm as <- _.
      destruct (powerline noise), (baseline noise); rewrite ?length_imap; reflexivity. }
  destruct (gaussian noise).
  - apply imapM_length in H. congruence.
  - injection H as <- _. exact Hn1.
Qed.

Lemma interpolateMulti_length (tOriginal : list float) (yOriginal : list (list float))
    (tNew : list float) :
  length (interpolateMulti tOriginal yOriginal tNew) = length tNew.
Proof. unfold interpolateMulti. apply length_map. Qed.

Section Solver.
Context {P : Type}.

Lemma attempt_keeps_pairs (func : @ODEFunction P) (prm : P) (tf tol minStep maxStep : float)
    (st st' : SolverState) :
  attempt host func prm tf tol minStep maxStep st = Returned st' ->
  length (tResult st) = length (yResult st) ->
  length (tResult st') = length (yResult st').
Proof.
  unfold attempt. intros H Hl.
  apply obind_Returned in H as ([[y5 y4] error] & _ & H).
  destruct (accepts _ _ _ _); injection H as <-; simpl; [|exact Hl].
  rewrite !length_app, Hl. reflexivity.
Qed.

Lemma adaptive_keeps_pairs (func : @ODEFunction P) (prm : P) (tf tol minStep maxStep : float)
    (fuel : nat) :
  forall st st',
    adaptive host func prm tf tol minStep maxStep fuel st = Returned st' ->
    length (tResult st) = length (yResult st) ->
    length (tResult st') = length (yResult st').
Proof.
  induction fuel as [|fuel IH]; intros st st' H Hl; simpl in H;
    destruct (currentT st <? tf); try discriminate;
    try (injection H as <-; exact Hl).
  apply obind_Returned in H as (st1 & H1 & H).
  eapply IH; [exact H|]. eapply attempt_keeps_pairs; eassumption.
Qed.

Lemma stepping_pairs (fuel : nat) (func : @ODEFunction P) (options : @ODESolverOptions P)
    (final : SolverState) :
  stepping host fuel func options = Returned final ->
  length (tResult final) = length (yResult final).
Proof.
  unfold stepping. destruct (timeSpan options) as [t0 tf]. intros H.
  eapply adaptive_keeps_pairs; [exact H|reflexivity].
Qed.

Lemma attempt_extends (func : @ODEFunction P) (prm : P) (tf tol minStep maxStep : float)
    (st st' : SolverState) :
  attempt host func prm tf tol minStep maxStep st = Returned st' ->
  (exists ts, tResult st' = tResult st ++ ts)
  /\ (exists ys, yResult st' = yResult st ++ ys
                 /\ Forall (fun y => length y = length (currentY st)) ys)
  /\ length (currentY st') = length (currentY st).
Proof.
  unfold attempt. intros H.
  apply obind_Returned in H as ([[y5 y4] error] & Hstep & H).
  apply rk45Step_shape in Hstep as (H5 & _ & _).
  destruct (accepts _ _ _ _); injection H as <-; simpl.
  - split; [eexists; reflexivity|]. split; [|exact H5].
    eexists. split; [reflexivity|]. constructor; [exact H5|constructor].
  - split; [exists []; rewrite app_nil_r; reflexivity|]. split; [|reflexivity].
    exists []. rewrite app_nil_r. split; [reflexivity|constructor].
Qed.

Lemma adaptive_extends (func : @ODEFunction P) (prm : P) (tf tol minStep maxStep : float)
    (fuel : nat) :
  forall st st',
    adaptive host func prm tf tol minStep maxStep fuel st = Returned st' ->
    (exists ts, tResult st' = tResult st ++ ts)
    /\ (exists ys, yResult st' = yResult st ++ ys
                   /\ Forall (fun y => length y = length (currentY st)) ys).
Proof.
  induction fuel as [|fuel IH]; intros st st' H; simpl in H;
    destruct (currentT st <? tf); try discriminate;
    try (injection H as <-; split; exists []; rewrite app_nil_r;
         [reflexivity|split; [reflexivity|constructor]]).
  apply obind_Returned in H as (st1 & H1 & H).
  apply attempt_extends in H1 as ((ts1 & Ht1) & (ys1 & Hy1 & Hf1) & Hlen).
  apply IH in H as ((ts2 & Ht2) & (ys2 & Hy2 & Hf2)).
  split.
  - exists (ts1 ++ ts2). rewrite Ht2, Ht1, app_assoc. reflexivity.
  - exists (ys1 ++ ys2). rewrite Hy2, Hy1, app_assoc. split; [reflexivity|].
    apply Forall_app. split; [exact Hf1|]. rewrite Hlen in Hf2. exact Hf2.
Qed.

Lemma stepping_extends (fuel : nat) (func : @ODEFunction P) (options : @ODESolverOptions P)
    (final : SolverState) :
  stepping host fuel func options = Returned final ->
  (exists ts, tResult final = fst (timeSpan options) :: ts)
  /\ (exists ys, yResult final = initialConditions options :: ys
                 /\ Forall (fun y => length y = length (initialConditions options)) ys).
Proof.
  unfold stepping. destruct (timeSpan options) as [t0 tf]. intros H.
  apply adaptive_extends in H as ((ts & Ht) & (ys & Hy & Hall)). simpl in *.
  split; [exists ts; exact Ht|exists ys; split; assumption].
Qed.

(** [solveODE] returns as many states as time points. *)
Lemma solveODE_pairs (fuel : nat) (func : @ODEFunction P) (options : @ODESolverOptions P)
    (t : list float) (y : list (list float)) :
  solveODE host fuel func options = Returned (t, y) -> length t = length y.
Proof.
  unfold solveODE. destruct (timeSpan options) as [t0 tf]. intros H.
  apply obind_Returned in H as (final & Hf & H).
  apply stepping_pairs in Hf.
  destruct (timePoints options) as [tp|].
  - destruct (int_truthy tp && negb (len_eq_int (length (tResult final)) tp)).
    + apply obind_Returned in H as (n & _ & H). injection H as <- <-.
      rewrite interpolateMulti_length. reflexivity.
    + injection H as <- <-. exact Hf.
  - injection H as <- <-. exact Hf.
Qed.

(** With a positive sample count [n], [solveODE] returns [n] points. *)
Lemma solveODE_count (fuel : nat) (func : @ODEFunction P) (options : @ODESolverOptions P)
    (n : Z) (t : list float) (y : list (list float)) :
  timePoints options = Some (JInt n) ->
  (0 < n)%Z ->
  solveODE host fuel func options = Returned (t, y) ->
  Z.of_nat (length t) = n.
Proof.
  unfold solveODE. destruct (timeSpan options) as [t0 tf]. intros Htp Hn H.
  apply obind_Returned in H as (final & _ & H). rewrite Htp in H.
  destruct (len_eq_int (length (tResult final)) (JInt n)) eqn:Hlen; cbn [negb] in H.
  - rewrite andb_false_r in H. injection H as <- _.
    simpl in Hlen. apply Z.eqb_eq in Hlen. exact Hlen.
  - rewrite andb_true_r in H. simpl in H.
    destruct (n =? 0)%Z eqn:Hz; [apply Z.eqb_eq in Hz; lia|]. simpl in H.
    destruct (n <=? 2 ^ 53)%Z; [|discriminate].
    simpl in H. injection H as <- _. rewrite length_map, length_seq. lia.
Qed.

(** Once the stepping loop has ended, [solveODE] returns, and with a
    sample count [n] between [1] and [2^53] it returns [n] points. *)
Lemma solveODE_returns (fuel : nat) (func : @ODEFunction P) (options : @ODESolverOptions P)
    (n : Z) (final : SolverState) :
  stepping host fuel func options = Returned final ->
  timePoints options = Some (JInt n) ->
  (0 < n <= 2 ^ 53)%Z ->
  exists t y,
    solveODE host fuel func options = Returned (t, y) /\ Z.of_nat (length t) = n.
Proof.
  intros Hst Htp Hn. unfold solveODE. destruct (timeSpan options) as [t0 tf].
  rewrite Hst. cbn [obind]. rewrite Htp.
  assert (Ht : int_truthy (JInt n) = true) by (simpl; apply negb_true_iff, Z.eqb_neq; lia).
  rewrite Ht. cbn [andb].
  destruct (len_eq_int (length (tResult final)) (JInt n)) eqn:Hlen; cbn [negb].
  - eexists. eexists. split; [reflexivity|].
    simpl in Hlen. apply Z.eqb_eq in Hlen. exact Hlen.
  - unfold turns. assert (Hb : (n <=? 2 ^ 53)%Z = true) by (apply Z.leb_le; lia).
    rewrite Hb. cbn [obind]. eexists. eexists. split; [reflexivity|].
    rewrite length_map, length_seq. lia.
Qed.

(** The loop that builds the uniform grid has no end when the sample
    count is [+Infinity]. *)
Lemma infinite_grid_has_no_end (fuel : nat)
    (func : @ODEFunction P) (options : @ODESolverOptions P)
    (t : list float) (y : list (list float)) :
  timePoints options = Some (JInf false) ->
  solveODE host fuel func options <> Returned (t, y).
Proof.
  unfold solveODE. destruct (timeSpan options) as [t0 tf].
  intros Htp H. apply obind_Returned in H as (final & _ & H).
  rewrite Htp in H. simpl in H. discriminate H.
Qed.
End Solver.

Lemma generateECGSyn_pairs (fuel : nat) (duration samplingRate : float)
    (params : ECGSyn.Properties) (tol : float) (t ecg : list float) :
  ECGSyn.generateECGSyn host fuel duration samplingRate params tol = Returned (t, ecg) ->
  length t = length ecg.
Proof.
  unfold ECGSyn.generateECGSyn. intros H.
  apply obind_Returned in H as ([t1 y] & Hs & H). injection H as <- <-.
  rewrite length_map. eapply solveODE_pairs, Hs.
Qed.

Lemma generateECGSyn_count (fuel : nat) (duration samplingRate : float)
    (params : ECGSyn.Properties) (tol : float) (t ecg : list float) (n : Z) :
  Math_ceil (duration * samplingRate) = JInt n ->
  (0 < n)%Z ->
  ECGSyn.generateECGSyn host fuel duration samplingRate params tol = Returned (t, ecg) ->
  Z.of_nat (length t) = n.
Proof.
  unfold ECGSyn.generateECGSyn. intros Hc Hn H.
  apply obind_Returned in H as ([t1 y] & Hs & H). injection H as <- _.
  eapply solveODE_count; [|exact Hn|exact Hs]. simpl. rewrite Hc. reflexivity.
Qed.

Lemma copy_segment_pairs (bound : nat) (time sig : list float) (avgRR a b : float) :
  forall st,
    length (newTime st) = length (newSignal st) ->
    length (newTime (copy_segment bound time sig avgRR a b st))
    = length (newSignal (copy_segment bound time sig avgRR a b st)).
Proof.
  induction bound as [|bound IH]; intros st Hl; simpl; [exact Hl|].
  destruct (_ && _); [|exact Hl]. apply IH. simpl.
  destruct (_ <=? _); rewrite ?length_app, ?Hl; reflexivity.
Qed.

Lemma irregular_loop_pairs (this : ECGGenerator) (time sig : list float) (avgRR : float)
    (fuel : nat) :
  forall st st' s s',
    irregular_loop host fuel this time sig avgRR st s = Returned (st', s') ->
    length (newTime st) = length (newSignal st) ->
    length (newTime st') = length (newSignal st').
Proof.
  induction fuel as [|fuel IH]; intros st st' s s' H Hl; simpl in H;
    destruct (_ && _); try discriminate; try (injection H as <- _; exact Hl).
  apply bind_Returned in H as (r & s1 & _ & H).
  eapply IH; [exact H|]. simpl. apply copy_segment_pairs, Hl.
Qed.

Lemma makeIrregular_pairs (fuel : nat) (this : ECGGenerator) (time sig : list float)
    (rate : float) (s s' : nat) (t' sig' : list float) :
  makeIrregular host fuel this time sig rate s = Returned (t', sig', s') ->
  length t' = length sig'.
Proof.
  unfold makeIrregular. intros H.
  apply bind_Returned in H as (st & s1 & Hl & H). injection H as <- <- _.
  eapply irregular_loop_pairs; [exact Hl|reflexivity].
Qed.

(** The arrays [time] and [signal] of a result have the same length,
    for every pathology. *)
Lemma generate_pairs (fuel : nat) (this : ECGGenerator) (options : ECGGeneratorOptions)
    (s s' : nat) (r : ECGResult) :
  generate host fuel this options s = Returned (r, s') ->
  length (time r) = length (signal r).
Proof.
  unfold generate. intros H.
  apply bind_Returned in H as (params & s1 & _ & H).
  apply bind_Returned in H as ([t ecg] & s2 & Hgen & H).
  apply lift_Returned in Hgen as [Hgen _]. apply generateECGSyn_pairs in Hgen.
  apply bind_Returned in H as ([t2 ecg2] & s3 & Hpost & H).
  apply bind_Returned in H as (ecg3 & s4 & Hnoise & H).
  injection H as <- _. simpl.
  assert (H2 : length t2 = length ecg2).
  { destruct (String.eqb _ "stemi").
    { injection Hpost as <- <- _. unfold addSTElevation. rewrite length_imap. exact Hgen. }
    destruct (String.eqb _ "hypokalemia").
    { injection Hpost as <- <- _. unfold addUWaves. rewrite length_imap. exact Hgen. }
    destruct (String.eqb _ "atrialFibrillation").
    { apply bind_Returned in Hpost as (e & s5 & _ & Hpost).
      eapply makeIrregular_pairs, Hpost. }
    destruct (String.eqb _ "completeHeartBlock"); injection Hpost as <- <- _; exact Hgen. }
  destruct (o_noise options).
  - apply addNoise_length in Hnoise. congruence.
  - injection Hnoise as <- _. exact H2.
Qed.

End Lengths.

(** ** Random draws of the noise *)

Section Draws.

Local Open Scope float_scope.

Context (host : Host).

Lemma imapM_draws {A B} (f : nat -> A -> M B) (n : nat) :
  (forall i a s, exists b, f i a s = Returned (b, (s + n)%nat)) ->
  forall l i s,
    exists l', imapM f i l s = Returned (l', (s + n * length l)%nat)
               /\ length l' = length l.
Proof.
  intros Hf. induction l as [|a l IH]; intros i s; simpl.
  - exists []. split; [|reflexivity]. f_equal. f_equal. lia.
  - destruct (Hf i a s) as (b & Hb). destruct (IH (S i) (s + n)%nat) as (l' & Hl & Hlen).
    exists (b :: l'). split; [|simpl; congruence].
    rewrite (bind_of_Returned _ _ _ _ _ Hb), (bind_of_Returned _ _ _ _ _ Hl).
    simpl. f_equal. f_equal. lia.
Qed.

Lemma two_draws {B} (k : float -> float -> B) (s : nat) :
  exists b,
    bind (random host) (fun r1 => bind (random host) (fun r2 => ret (k r1 r2))) s
    = Returned (b, (s + 2)%nat).
Proof. eexists. unfold bind, random, ret. f_equal. f_equal. lia. Qed.

(** [addNoise] always returns, with two draws per sample for each of
    the muscle and Gaussian components. *)
Lemma addNoise_draws (sig time : list float) (noise : NoiseOptions)
    (s : nat) :
  exists noisy,
    addNoise host sig time noise s
    = Returned (noisy,
                (s + 2 * length sig * (given (muscle noise) + given (gaussian noise)))%nat)
    /\ length noisy = length sig.
Proof.
  unfold addNoise.
  set (n0 := match powerline noise with Some _ => _ | None => _ end).
  assert (H0 : length n0 = length sig).
  { unfold n0. destruct (powerline noise), (baseline noise); rewrite ?length_imap; reflexivity. }
  clearbody n0.
  assert (Hm : exists n1,
             match muscle noise with
             | Some m =>
                 imapM (fun i v =>
                   bind (random host) (fun r1 => bind (random host) (fun r2 =>
                     ret (v + level_amplitude m * (r1 - 0.5) *
                            Math_sin host (2 * Math_PI * (20 + r2 * 30)
                                           * OdeSolver.at_ time i))))) 0 n0
             | None => ret n0
             end s
             = Returned (n1, (s + 2 * length sig * given (muscle noise))%nat)
             /\ length n1 = length sig).
  { destruct (muscle noise) as [m|]; cbn [given].
    - edestruct (imapM_draws (fun i v =>
                   bind (random host) (fun r1 => bind (random host) (fun r2 =>
                     ret (v + level_amplitude m * (r1 - 0.5) *
                            Math_sin host (2 * Math_PI * (20 + r2 * 30)
                                           * OdeSolver.at_ time i))))) 2) as (n1 & H1 & Hl).
      + intros i a s0. apply two_draws.
      + exists n1. rewrite H1. split; [f_equal; f_equal; lia|congruence].
    - exists n0. split; [simpl; f_equal; f_equal; lia|exact H0]. }
  destruct Hm as (n1 & H1 & Hl1).
  rewrite (bind_of_Returned _ _ _ _ _ H1).
  destruct (gaussian noise) as [g|]; cbn [given].
  - edestruct (imapM_draws (fun i v =>
                 bind (random host) (fun u1 => bind (random host) (fun u2 =>
                   ret (v + level_amplitude g *
                          (Math_sqrt (-2 * Math_log host u1)
                           * Math_cos host (2 * Math_PI * u2)))))) 2) as (n2 & H2 & Hl2).
    + intros i a s0. apply two_draws.
    + exists n2. rewrite H2. split; [f_equal; f_equal; lia|congruence].
  - exists n1. split; [simpl; f_equal; f_equal; lia|exact Hl1].
Qed.

End Draws.

(** ** The number of samples *)

Section Count.

Import OdeSolver.
Local Open Scope float_scope.

Context (host : Host).

(** Once its integration has ended, [generateECGSyn] returns, with [n]
    samples for a sample count [n] between [1] and [2^53]. *)
Lemma generateECGSyn_returns (fuel : nat) (duration samplingRate : float)
    (params : ECGSyn.Properties) (tol : float) (n : Z) (final : SolverState) :
  stepping host fuel (ECGSyn.ecgsynODE host fuel)
    (ECGSyn.problem host duration samplingRate params tol) = Returned final ->
  Math_ceil (duration * samplingRate) = JInt n ->
  (0 < n <= 2 ^ 53)%Z ->
  exists t ecg,
    ECGSyn.generateECGSyn host fuel duration samplingRate params tol = Returned (t, ecg)
    /\ Z.of_nat (length t) = n /\ length t = length ecg.
Proof.
  intros Hst Hc Hn.
  destruct (solveODE_returns host fuel _ _ n final Hst) as (t & y & Hs & Hl);
    [simpl; rewrite Hc; reflexivity|exact Hn|].
  unfold ECGSyn.generateECGSyn. rewrite Hs. cbn [obind].
  eexists. eexists. split; [reflexivity|]. split; [exact Hl|].
  rewrite length_map. eapply solveODE_pairs, Hs.
Qed.

(** [generate] never returns when the sample count is [+Infinity]. *)
Lemma unending_count_never_returns (fuel : nat) (this : ECGGenerator)
    (options : ECGGeneratorOptions) (s : nat) :
  Math_ceil (default 10 (o_duration options)
             * default (this_samplingRate this) (o_samplingRate options)) = JInf false ->
  pending (generate host fuel this options s).
Proof.
  intros Hc. destruct (generate host fuel this options s) as [[r s']| |] eqn:H;
    [|exact I|exact I].
  unfold generate in H.
  apply bind_Returned in H as (params & s1 & _ & H).
  apply bind_Returned in H as ([t ecg] & s2 & Hgen & _).
  apply lift_Returned in Hgen as [Hgen _].
  unfold ECGSyn.generateECGSyn in Hgen.
  apply obind_Returned in Hgen as ([t1 y] & Hs & _).
  revert Hs. apply infinite_grid_has_no_end. simpl. rewrite Hc. reflexivity.
Qed.

End Count.

(** C1 (as the code has it). For a request whose pathology is not
    [atrialFibrillation] and for which [ceil (duration * samplingRate)]
    is an integer [n] from [1] to below [2^32] (a length that an array
    can have), [generate] returns a result as soon as its adaptive
    integration has finished, and that
    result has [signal.length = n = ceil (duration * samplingRate)]
    samples and as many time values.  (The count is a ceiling, not a
    rounding; and a positive duration at a rate of at least 250 Hz is
    not enough for a result: the product can overflow to [+Infinity],
    and the integration is not bound to finish.) *)
Theorem generate_sample_count (host : Host) (fuel : nat) (this : ECGGenerator)
    (options : ECGGeneratorOptions) (s : nat) (n : Z) (final : OdeSolver.SolverState) :
  default "normal"%string (o_pathology options) <> "atrialFibrillation"%string ->
  Math_ceil (default 10 (o_duration options)
             * default (this_samplingRate this) (o_samplingRate options))%float = JInt n ->
  (0 < n < 2 ^ 32)%Z ->
  integration host fuel this options s = Returned final ->
  exists r s',
    generate host fuel this options s = Returned (r, s')
    /\ Z.of_nat (length (signal r)) = n
    /\ length (time r) = length (signal r).
Proof.
  intros Hp Hc Hn Hint. unfold integration in Hint.
  destruct (parameters host _ _ _ s) as [[params s1]| |] eqn:Hpar; try discriminate Hint.
  destruct (generateECGSyn_returns host fuel _ _ params _ n final Hint Hc ltac:(lia))
    as (t & ecg & Hgen & Hlen & Hpair).
  assert (Hret : exists r s', generate host fuel this options s = Returned (r, s')).
  { unfold generate. rewrite (bind_of_Returned _ _ _ _ _ Hpar).
    unfold bind at 1. unfold lift. rewrite Hgen.
    apply String.eqb_neq in Hp. rewrite Hp.
    assert (Hnoise : forall sig,
              exists r s',
                bind match o_noise options with
                     | Some nz => addNoise host sig t nz
                     | None => ret sig
                     end
                  (fun ecg1 =>
                     ret {| time := t; signal := ecg1;
                            samplingRate :=
                              default (this_samplingRate this) (o_samplingRate options);
                            metadata :=
                              {| m_duration := default 10%float (o_duration options);
                                 m_heartRate := ECGSyn.get_heartRate params;
                                 m_pathology := default "normal"%string (o_pathology options);
                                 m_noise := o_noise options |} |}) s1
                = Returned (r, s')).
    { intros sig. destruct (o_noise options) as [nz|].
      - destruct (addNoise_draws host sig t nz s1) as (noisy & Hnz & _).
        rewrite (bind_of_Returned _ _ _ _ _ Hnz). eexists. eexists. reflexivity.
      - eexists. eexists. reflexivity. }
    destruct (String.eqb _ "stemi"); [apply Hnoise|].
    destruct (String.eqb _ "hypokalemia"); [apply Hnoise|].
    destruct (String.eqb _ "completeHeartBlock"); apply Hnoise. }
  destruct Hret as (r & s' & Hret). exists r, s'. split; [exact Hret|].
  pose proof (generate_pairs host fuel this options s s' r Hret) as Hpairs.
  split; [|exact Hpairs]. rewrite <- Hpairs. clear Hpairs.
  unfold generate in Hret. rewrite (bind_of_Returned _ _ _ _ _ Hpar) in Hret.
  apply bind_Returned in Hret as ([t0 ecg0] & s2 & Hgen' & H).
  apply lift_Returned in Hgen' as [Hgen' _]. rewrite Hgen in Hgen'.
  injection Hgen' as <- <-.
  apply bind_Returned in H as ([t2 ecg2] & s3 & Hpost & H).
  apply bind_Returned in H as (ecg3 & s4 & _ & H).
  injection H as <- _. simpl.
  destruct (String.eqb _ "stemi"); [injection Hpost as <- _ _; exact Hlen|].
  destruct (String.eqb _ "hypokalemia"); [injection Hpost as <- _ _; exact Hlen|].
  destruct (String.eqb _ "atrialFibrillation") eqn:Haf;
    [apply String.eqb_eq in Haf; contradiction|].
  destruct (String.eqb _ "completeHeartBlock"); injection Hpost as <- _ _; exact Hlen.
Qed.

Lemma generate_sample_count_witness :
  exists r s',
    generate RefHost.host 200 at_250Hz (plain_request 0.045) 0 = Returned (r, s')
    /\ Z.of_nat (length (signal r)) = 12%Z
    /\ length (time r) = length (signal r).
Proof.
  assert (Hrun : exists final,
             integration RefHost.host 200 at_250Hz (plain_request 0.045) 0 = Returned final)
    by (vm_compute; eexists; reflexivity).
  destruct Hrun as (final & Hrun).
  apply (generate_sample_count RefHost.host 200 at_250Hz (plain_request 0.045) 0 12 final).
  - discriminate.
  - vm_compute. reflexivity.
  - lia.
  - exact Hrun.
Defined.

(** C1 as stated fails, twice.  For 0.045 s at 250 Hz the product is
    11.25, which rounds to 11, and [generate] returns 12 samples.  And
    not every valid request gets a result: for 1e306 s at 1000 Hz the
    product overflows, the sample count is [+Infinity] and [generate]
    never returns, on any host and with any fuel. *)
Lemma sample_count_is_not_rounded :
  (Math_round (0.045 * 250)%float = JInt 11
   /\ Math_ceil (0.045 * 250)%float = JInt 12
   /\ exists r s',
        generate RefHost.host 200 at_250Hz (plain_request 0.045) 0 = Returned (r, s')
        /\ length (signal r) = 12)
  /\ ((0 <? 1e306)%float = true
      /\ Math_ceil (1e306 * 1000)%float = JInf false
      /\ forall (host : Host) (fuel s : nat),
           pending (generate host fuel at_1000Hz (plain_request 1e306) s)).
Proof.
  split.
  - vm_compute. repeat split. eexists. eexists. split; reflexivity.
  - split; [reflexivity|]. split; [vm_compute; reflexivity|].
    intros host fuel s. apply unending_count_never_returns. vm_compute. reflexivity.
Qed.

(** ** Calls that raise no error *)

Lemma quiet_obind {A B} (c : outcome A) (k : A -> outcome B) :
  quiet c -> (forall a, quiet (k a)) -> quiet (obind c k).
Proof. destruct c; simpl; auto. Qed.

Lemma quietM_bind {A B} (c : M A) (k : A -> M B) :
  quietM c -> (forall a, quietM (k a)) -> quietM (bind c k).
Proof.
  intros Hc Hk s. unfold bind. specialize (Hc s).
  destruct (c s) as [[a s1]| |]; simpl in *; auto. apply Hk.
Qed.

Lemma quietM_ret {A} (a : A) : quietM (ret a).
Proof. intros s. exact I. Qed.

Lemma quietM_lift {A} (c : outcome A) : quiet c -> quietM (lift c).
Proof. intros H s. destruct c; simpl in *; auto. Qed.

Lemma quietM_random (host : Host) : quietM (random host).
Proof. intros s. exact I. Qed.

Lemma quietM_imapM {A B} (f : nat -> A -> M B) (l : list A) :
  (forall i a, quietM (f i a)) -> forall i, quietM (imapM f i l).
Proof.
  intros Hf. induction l as [|a l IH]; intros i; simpl; [apply quietM_ret|].
  apply quietM_bind; [apply Hf|]. intros b.
  apply quietM_bind; [apply IH|]. intros bs. apply quietM_ret.
Qed.

Section Quiet.

Import OdeSolver.
Context (host : Host).

Section Solver.
Context {P : Type} (func : @ODEFunction P) (prm : P).
Hypothesis func_quiet : forall t y, quiet (func t y prm).

Lemma stages_quiet (t : float) (y : list float) (h : float) (todo : list nat) :
  forall k, quiet (stages func t y h prm todo k).
Proof.
  induction todo as [|i todo IH]; intros k; simpl; [exact I|].
  apply quiet_obind; [apply func_quiet|]. intros ki. apply IH.
Qed.

Lemma rk45Step_quiet (t : float) (y : list float) (h : float) :
  quiet (rk45Step func t y h prm).
Proof.
  unfold rk45Step. apply quiet_obind; [apply func_quiet|]. intros k0.
  apply quiet_obind; [apply stages_quiet|]. intros k. exact I.
Qed.

Lemma attempt_quiet (tf tol minStep maxStep : float) (st : SolverState) :
  quiet (attempt host func prm tf tol minStep maxStep st).
Proof.
  unfold attempt. apply quiet_obind; [apply rk45Step_quiet|].
  intros [[y5 y4] error]. destruct (accepts _ _ _ _); exact I.
Qed.

Lemma adaptive_quiet (tf tol minStep maxStep : float) (fuel : nat) :
  forall st, quiet (adaptive host func prm tf tol minStep maxStep fuel st).
Proof.
  induction fuel as [|fuel IH]; intros st; simpl;
    destruct (currentT st <? tf)%float; try exact I.
  apply quiet_obind; [apply attempt_quiet|]. apply IH.
Qed.

Lemma stepping_quiet (fuel : nat) (options : @ODESolverOptions P) :
  params options = prm -> quiet (stepping host fuel func options).
Proof.
  intros Hp. unfold stepping. destruct (timeSpan options) as [t0 tf]. rewrite Hp.
  apply adaptive_quiet.
Qed.

Lemma solveODE_quiet (fuel : nat) (options : @ODESolverOptions P) :
  params options = prm -> quiet (solveODE host fuel func options).
Proof.
  intros Hp. unfold solveODE. destruct (timeSpan options) as [t0 tf] eqn:Hts.
  apply quiet_obind; [apply stepping_quiet, Hp|]. intros final.
  destruct (timePoints options) as [tp|]; [|exact I].
  destruct (_ && _); [|exact I].
  apply quiet_obind; [|intros n; exact I].
  destruct tp as [|[|]|z]; simpl; try exact I. destruct (_ <=? _)%Z; exact I.
Qed.
End Solver.

Lemma wrap_down_quiet (fuel : nat) : forall d, quiet (ECGSyn.wrap_down fuel d).
Proof.
  induction fuel as [|fuel IH]; intros d; simpl; destruct (_ <? _)%float;
    try exact I. apply IH.
Qed.

Lemma wrap_up_quiet (fuel : nat) : forall d, quiet (ECGSyn.wrap_up fuel d).
Proof.
  induction fuel as [|fuel IH]; intros d; simpl; destruct (_ <? _)%float;
    try exact I. apply IH.
Qed.

(** The ECGSYN field throws nothing when every wave is there. *)
Lemma wave_sum_quiet (fuel : nat) (omega theta : float)
    (ws : list (option ECGSyn.WaveParameters)) :
  Forall is_Some ws ->
  forall dzdt, quiet (ECGSyn.wave_sum host fuel omega theta dzdt ws).
Proof.
  induction 1 as [|w ws [wave ->] Hws IH]; intros dzdt; simpl; [exact I|].
  apply quiet_obind; [|intros d; apply IH].
  unfold ECGSyn.wave_term.
  apply quiet_obind; [apply wrap_down_quiet|]. intros d1.
  apply quiet_obind; [apply wrap_up_quiet|]. intros d2. exact I.
Qed.

Lemma ecgsynODE_quiet (fuel : nat) (t : float) (y : list float) (p : ECGSyn.OdeParams) :
  Forall is_Some (ECGSyn.waves p) -> quiet (ECGSyn.ecgsynODE host fuel t y p).
Proof.
  intros Hw. unfold ECGSyn.ecgsynODE.
  apply quiet_obind; [apply wave_sum_quiet, Hw|intros d; exact I].
Qed.

Lemma generateECGSyn_quiet (fuel : nat) (duration samplingRate : float)
    (params : ECGSyn.Properties) (tol : float) :
  complete params ->
  quiet (ECGSyn.generateECGSyn host fuel duration samplingRate params tol).
Proof.
  intros Hc. unfold ECGSyn.generateECGSyn.
  apply quiet_obind; [|intros [t y]; exact I].
  eapply solveODE_quiet; [|reflexivity].
  intros t y. apply ecgsynODE_quiet. exact Hc.
Qed.

Lemma addNoise_quiet (sig time : list float) (noise : NoiseOptions) :
  quietM (addNoise host sig time noise).
Proof.
  unfold addNoise. apply quietM_bind.
  - destruct (muscle noise); [|apply quietM_ret].
    apply quietM_imapM. intros i a.
    apply quietM_bind; [apply quietM_random|]. intros r1.
    apply quietM_bind; [apply quietM_random|]. intros r2. apply quietM_ret.
  - intros n1. destruct (gaussian noise); [|apply quietM_ret].
    apply quietM_imapM. intros i a.
    apply quietM_bind; [apply quietM_random|]. intros r1.
    apply quietM_bind; [apply quietM_random|]. intros r2. apply quietM_ret.
Qed.

Lemma fib_wave_quiet (t : float) (freqs : list float) :
  forall acc, quietM (fib_wave host t freqs acc).
Proof.
  induction freqs as [|f freqs IH]; intros acc; simpl; [apply quietM_ret|].
  apply quietM_bind; [apply quietM_random|]. intros r. apply IH.
Qed.

Lemma addFibrillatoryWaves_quiet (sig time : list float) :
  quietM (addFibrillatoryWaves host sig time).
Proof.
  unfold addFibrillatoryWaves. apply quietM_imapM. intros i a.
  apply quietM_bind; [apply fib_wave_quiet|]. intros w. apply quietM_ret.
Qed.

Lemma irregular_loop_quiet (this : ECGGenerator) (time sig : list float) (avgRR : float)
    (fuel : nat) :
  forall st, quietM (irregular_loop host fuel this time sig avgRR st).
Proof.
  induction fuel as [|fuel IH]; intros st; simpl; destruct (_ && _);
    try apply quietM_ret; try (intros s; exact I).
  apply quietM_bind; [apply quietM_random|]. intros r. apply IH.
Qed.

Lemma makeIrregular_quiet (fuel : nat) (this : ECGGenerator) (time sig : list float)
    (rate : float) :
  quietM (makeIrregular host fuel this time sig rate).
Proof.
  unfold makeIrregular. apply quietM_bind; [apply irregular_loop_quiet|].
  intros st. apply quietM_ret.
Qed.

(** An entry of the enhanced table returns, with one draw for
    [atrialFibrillation] and none for the others. *)
Lemma enhanced_returns (p : string)
    (f : ECGSyn.ECGSynParameters -> M ECGSyn.ECGSynParameters)
    (params : ECGSyn.ECGSynParameters) (s : nat) :
  Enhanced.ENHANCED_PATHOLOGY_PARAMS host !! p = Some f ->
  exists params',
    f params s
    = Returned (params', if String.eqb p "atrialFibrillation" then S s else s).
Proof.
  intros H. apply elem_of_list_to_map_2 in H. apply list_elem_of_In in H. simpl in H.
  repeat (destruct H as [H|H]; [injection H as <- <-; eexists; reflexivity|]).
  contradiction.
Qed.

(** The parameters of a request: for a pathology whose name is not
    that of an inherited member, and custom parameters that set no
    wave to [undefined], they are found without an error, and the five
    waves are there. *)
Lemma parameters_complete (heartRate : float) (pathology : string)
    (customParams : option CustomParams) (s : nat) :
  inherits pathology = false ->
  keeps_waves customParams ->
  exists params s',
    parameters host heartRate pathology customParams s = Returned (params, s')
    /\ complete params.
Proof.
  intros Hi Hk. unfold parameters, Get. rewrite Hi.
  assert (Hc : forall p : ECGSyn.ECGSynParameters,
            complete match customParams with
                     | Some c => spread (read (inl p)) c
                     | None => read (inl p)
                     end).
  { intros p. destruct customParams as [c|]; [|repeat constructor; eexists; reflexivity].
    unfold keeps_waves in Hk. unfold complete, spread. cbn [ECGSyn.get_P ECGSyn.get_Q
      ECGSyn.get_R ECGSyn.get_S ECGSyn.get_T read ECGSyn.properties].
    repeat match goal with
           | H : Forall _ (_ :: _) |- _ => inversion H; subst; clear H
           end.
    repeat constructor;
      match goal with
      | |- is_Some (default _ ?w) =>
          destruct w as [[wave|]|]; [eexists; reflexivity|contradiction|eexists; reflexivity]
      end. }
  destruct (negb _).
  - destruct (Enhanced.ENHANCED_PATHOLOGY_PARAMS host !! pathology) as [f|] eqn:Hf.
    + destruct (enhanced_returns pathology f
                  (ECGSyn.with_heartRate heartRate ECGSyn.DEFAULT_ECGSYN_PARAMS) s Hf)
        as (p' & Hp').
      unfold bind. rewrite Hp'. eexists. eexists. split; [reflexivity|apply Hc].
    + destruct (ECGSyn.PATHOLOGY_PARAMS !! pathology);
        eexists; eexists; (split; [reflexivity|apply Hc]).
  - eexists. eexists. split; [reflexivity|apply Hc].
Qed.

(** [generate] has no [throw] of its own: when the pathology is not the
    name of an inherited member and no wave is set to [undefined],
    nothing is thrown on any of its paths. *)
Lemma generate_quiet (fuel : nat) (this : ECGGenerator) (options : ECGGeneratorOptions) :
  inherits (default "normal"%string (o_pathology options)) = false ->
  keeps_waves (o_customParams options) ->
  quietM (generate host fuel this options).
Proof.
  intros Hi Hk s. unfold generate.
  destruct (parameters_complete (default 60%float (o_heartRate options)) _
              (o_customParams options) s Hi Hk) as (params & s1 & Hp & Hc).
  rewrite (bind_of_Returned _ _ _ _ _ Hp).
  revert s1 Hp. generalize dependent params.
  intros params Hc s1 _. revert s1.
  change (quietM
    (bind (lift (ECGSyn.generateECGSyn host fuel (default 10%float (o_duration options))
                   (default (this_samplingRate this) (o_samplingRate options)) params
                   (default 1e-6%float (o_solverTolerance options))))
       (fun '(time, ecg) =>
          bind
            (if String.eqb (default "normal"%string (o_pathology options)) "stemi"
             then ret (time, addSTElevation host ecg time)
             else if String.eqb (default "normal"%string (o_pathology options)) "hypokalemia"
             then ret (time, addUWaves host ecg time (num (ECGSyn.get_heartRate params)))
             else if String.eqb (default "normal"%string (o_pathology options))
                       "atrialFibrillation"
             then bind (addFibrillatoryWaves host ecg time)
                    (fun ecg => makeIrregular host fuel this time ecg
                                  (num (ECGSyn.get_heartRate params)))
             else if String.eqb (default "normal"%string (o_pathology options))
                       "completeHeartBlock"
             then ret (time, simulateAVDissociation ecg)
             else ret (time, ecg))
            (fun '(time, ecg) =>
               bind match o_noise options with
                    | Some n => addNoise host ecg time n
                    | None => ret ecg
                    end
                 (fun ecg =>
                    ret {| time := time; signal := ecg;
                           samplingRate :=
                             default (this_samplingRate this) (o_samplingRate options);
                           metadata :=
                             {| m_duration := default 10%float (o_duration options);
                                m_heartRate := ECGSyn.get_heartRate params;
                                m_pathology := default "normal"%string (o_pathology options);
                                m_noise := o_noise options |} |}))))).
  apply quietM_bind.
  { apply quietM_lift, generateECGSyn_quiet, Hc. }
  intros [t ecg]. apply quietM_bind.
  { destruct (String.eqb _ "stemi"); [apply quietM_ret|].
    destruct (String.eqb _ "hypokalemia"); [apply quietM_ret|].
    destruct (String.eqb _ "atrialFibrillation").
    - apply quietM_bind; [apply addFibrillatoryWaves_quiet|].
      intros e. apply makeIrregular_quiet.
    - destruct (String.eqb _ "completeHeartBlock"); apply quietM_ret. }
  intros [t2 ecg2]. apply quietM_bind.
  { destruct (o_noise options); [apply addNoise_quiet|apply quietM_ret]. }
  intros ecg3. apply quietM_ret.
Qed.

End Quiet.

(** ** Validation of the request *)

(** C2 on the code. With pathology [atrialFibrillation], 0.6 s at
    250 Hz: the result has 170 time values and 170 samples, and its
    time array is not ordered (it steps back from 0.598 to 0.478 after
    index 149). *)
Theorem atrial_fibrillation_time_steps_back :
  exists r s',
    generate RefHost.host 5000 at_250Hz
      (with_pathology "atrialFibrillation" (plain_request 0.6)) 0 = Returned (r, s')
    /\ length (time r) = 170
    /\ length (signal r) = 170
    /\ ordered (time r) = false
    /\ nth 149 (time r) nan = 0.59847937494353065%float
    /\ nth 150 (time r) nan = 0.47815758454279028%float.
Proof.
  eexists. eexists. split; [vm_compute; reflexivity|]. vm_compute. repeat split.
Qed.

(** C4 on the code. The constructor rejects 100 Hz, and a generator
    built at 1000 Hz accepts the same rate as a per-call override: it
    returns a trace sampled at 100 Hz. *)
Theorem sampling_rate_override_is_not_checked :
  new_ECGGenerator (Some 100%float)
    = Thrown (Error "Sampling rate must be at least 250 Hz for ECG generation")
  /\ new_ECGGenerator (Some 1000%float) = Returned at_1000Hz
  /\ exists r s',
       generate RefHost.host 200 at_1000Hz
         (request (Some 100%float) (Some 0.05%float) None) 0 = Returned (r, s')
       /\ samplingRate r = 100%float
       /\ length (signal r) = 5.
Proof.
  split; [reflexivity|]. split; [reflexivity|].
  eexists. eexists. split; [vm_compute; reflexivity|]. vm_compute. split; reflexivity.
Qed.

(** C5 (as the code has it). For every solver tolerance, the
    non-positive ones included, [generate] raises no error on account
    of it: no path validates [solverTolerance].  It reaches [solveODE]
    unchanged, as the tolerance of the problem that is integrated, and
    the time axis of a result is the one that [solveODE] returned for
    that problem (before the resampling of [atrialFibrillation]).  A
    request throws nothing at all, whatever its tolerance, when its
    pathology is not the name of an inherited member and its custom
    parameters set no wave to [undefined] (the two ways to a
    [TypeError]): the call returns a result or is still integrating
    when its fuel is spent. *)
Theorem tolerance_is_not_validated (host : Host) (fuel : nat) (this : ECGGenerator)
    (options : ECGGeneratorOptions) (s : nat) :
  inherits (default "normal"%string (o_pathology options)) = false ->
  keeps_waves (o_customParams options) ->
  quiet (generate host fuel this options s)
  /\ forall r s',
       generate host fuel this options s = Returned (r, s') ->
       exists params s1 t y,
         parameters host (default 60%float (o_heartRate options))
           (default "normal"%string (o_pathology options)) (o_customParams options) s
         = Returned (params, s1)
         /\ OdeSolver.tolerance
              (ECGSyn.problem host (default 10%float (o_duration options))
                 (default (this_samplingRate this) (o_samplingRate options)) params
                 (default 1e-6%float (o_solverTolerance options)))
            = Some (default 1e-6%float (o_solverTolerance options))
         /\ OdeSolver.solveODE host fuel (ECGSyn.ecgsynODE host fuel)
              (ECGSyn.problem host (default 10%float (o_duration options))
                 (default (this_samplingRate this) (o_samplingRate options)) params
                 (default 1e-6%float (o_solverTolerance options)))
            = Returned (t, y)
         /\ (default "normal"%string (o_pathology options) <> "atrialFibrillation"%string ->
             time r = t).
Proof.
  intros Hi Hk. split; [apply generate_quiet; assumption|].
  intros r s' H. unfold generate in H.
  apply bind_Returned in H as (params & s1 & Hpar & H).
  apply bind_Returned in H as ([t ecg] & s2 & Hgen & H).
  apply lift_Returned in Hgen as [Hgen _].
  unfold ECGSyn.generateECGSyn in Hgen.
  apply obind_Returned in Hgen as ([t1 y] & Hs & Hgen). injection Hgen as <- _.
  exists params, s1, t1, y. split; [exact Hpar|]. split; [reflexivity|]. split; [exact Hs|].
  intros Haf. apply String.eqb_neq in Haf. rewrite Haf in H.
  apply bind_Returned in H as ([t2 ecg2] & s3 & Hpost & H).
  apply bind_Returned in H as (ecg3 & s4 & _ & H).
  injection H as <- _. simpl.
  destruct (String.eqb _ "stemi"); [injection Hpost as <- _ _; reflexivity|].
  destruct (String.eqb _ "hypokalemia"); [injection Hpost as <- _ _; reflexivity|].
  destruct (String.eqb _ "completeHeartBlock"); injection Hpost as <- _ _; reflexivity.
Qed.

Lemma tolerance_is_not_validated_witness :
  quiet (generate RefHost.host 200 at_1000Hz
           (request None (Some 1e-9%float) (Some (-1)%float)) 0)
  /\ forall r s',
       generate RefHost.host 200 at_1000Hz
         (request None (Some 1e-9%float) (Some (-1)%float)) 0 = Returned (r, s') ->
       exists params s1 t y,
         parameters RefHost.host 60%float "normal" None 0 = Returned (params, s1)
         /\ OdeSolver.tolerance
              (ECGSyn.problem RefHost.host 1e-9%float 1000%float params (-1)%float)
            = Some (-1)%float
         /\ OdeSolver.solveODE RefHost.host 200 (ECGSyn.ecgsynODE RefHost.host 200)
              (ECGSyn.problem RefHost.host 1e-9%float 1000%float params (-1)%float)
            = Returned (t, y)
         /\ ("normal"%string <> "atrialFibrillation"%string -> time r = t).
Proof.
  apply (tolerance_is_not_validated RefHost.host 200 at_1000Hz
           (request None (Some 1e-9%float) (Some (-1)%float)) 0).
  - reflexivity.
  - exact I.
Defined.

(** C5 as stated fails: with tolerance [-1] (and with [0]) a request
    of one nanosecond returns a result, its single step being accepted
    at the minimum step size; a request of 0.02 s throws nothing and is
    still integrating after a thousand attempted steps. *)
Lemma non_positive_tolerance_runs :
  (exists r s',
     generate RefHost.host 200 at_1000Hz
       (request None (Some 1e-9%float) (Some (-1)%float)) 0 = Returned (r, s')
     /\ length (signal r) = 1)
  /\ (exists r s',
        generate RefHost.host 200 at_1000Hz
          (request None (Some 1e-9%float) (Some 0%float)) 0 = Returned (r, s')
        /\ length (signal r) = 1)
  /\ generate RefHost.host 1000 at_1000Hz
       (request None (Some 0.02%float) (Some (-1)%float)) 0 = Diverged.
Proof.
  split; [|split].
  - eexists. eexists. split; [vm_compute; reflexivity|reflexivity].
  - eexists. eexists. split; [vm_compute; reflexivity|reflexivity].
  - vm_compute. reflexivity.
Qed.

(** ** Where the time axis starts *)

Section Origin.

Import OdeSolver.
Local Open Scope float_scope.

Context (host : Host).

Lemma solveODE_starts_at_zero {P : Type} (fuel : nat) (func : @ODEFunction P)
    (options : @ODESolverOptions P) (d : float) (n : Z) (t : list float)
    (y : list (list float)) :
  timeSpan options = (0, d) ->
  timePoints options = Some (JInt n) ->
  (0 <= n)%Z ->
  truthy (of_Z n - 1) = true ->
  match Prim2SF d with
  | S754_zero _ | S754_finite _ _ _ => True
  | _ => False
  end ->
  solveODE host fuel func options = Returned (t, y) ->
  head t = Some 0.
Proof.
  intros Hts Htp Hn Hx Hd H. unfold solveODE in H. rewrite Hts in H.
  apply obind_Returned in H as (final & Hf & H). rewrite Htp in H.
  destruct (int_truthy (JInt n) && negb (len_eq_int (length (tResult final)) (JInt n)))
    eqn:Hre.
  - apply obind_Returned in H as (k & Hk & H). injection H as <- _.
    apply andb_prop in Hre as [Hnz _]. simpl in Hnz. apply negb_true_iff, Z.eqb_neq in Hnz.
    unfold turns in Hk. destruct (n <=? 2 ^ 53)%Z; [|discriminate Hk].
    injection Hk as <-. destruct (Z.to_nat n) as [|k] eqn:Hk; [lia|].
    cbn [seq map head to_float]. f_equal. apply grid_origin; assumption.
  - injection H as <- _.
    apply stepping_extends in Hf as ((ts & Ht) & _). rewrite Hts in Ht.
    rewrite Ht. reflexivity.
Qed.

(** Outside [atrialFibrillation], the time axis of a result starts at
    [0] when the sample count is a non-negative integer other than
    [1]. *)
Lemma generated_time_starts_at_zero (fuel : nat) (this : ECGGenerator)
    (options : ECGGeneratorOptions) (s s' : nat) (r : ECGResult) (n : Z) :
  default "normal"%string (o_pathology options) <> "atrialFibrillation"%string ->
  Math_ceil (default 10 (o_duration options)
             * default (this_samplingRate this) (o_samplingRate options)) = JInt n ->
  (0 <= n)%Z ->
  truthy (of_Z n - 1) = true ->
  generate host fuel this options s = Returned (r, s') ->
  head (time r) = Some 0.
Proof.
  intros Haf Hc Hn Hx H. unfold generate in H.
  apply bind_Returned in H as (params & s1 & Hpar & H).
  apply bind_Returned in H as ([t ecg] & s2 & Hgen & H).
  apply lift_Returned in Hgen as [Hgen _].
  unfold ECGSyn.generateECGSyn in Hgen.
  apply obind_Returned in Hgen as ([t1 y] & Hs & Hgen). injection Hgen as <- _.
  apply (solveODE_starts_at_zero fuel _ _ (default 10 (o_duration options)) n) in Hs;
    [|reflexivity|simpl; rewrite Hc; reflexivity|exact Hn|exact Hx
     |exact (integer_count_has_finite_factor _ _ n Hc)].
  apply String.eqb_neq in Haf. rewrite Haf in H.
  apply bind_Returned in H as ([t2 ecg2] & s3 & Hpost & H).
  apply bind_Returned in H as (ecg3 & s4 & _ & H).
  injection H as <- _. simpl.
  destruct (String.eqb _ "stemi"); [injection Hpost as <- _ _; exact Hs|].
  destruct (String.eqb _ "hypokalemia"); [injection Hpost as <- _ _; exact Hs|].
  destruct (String.eqb _ "completeHeartBlock"); injection Hpost as <- _ _; exact Hs.
Qed.

End Origin.

(** ** Streaming *)

Section Streaming.

Local Open Scope float_scope.

Context (host : Host) (fuel : nat) (this : ECGGenerator) (options : ECGGeneratorOptions)
        (chunkDuration : option float).

Lemma elapsed_from_S (k : nat) :
  forall g,
    elapsed_from options chunkDuration g (S k)
    = elapsed_from options chunkDuration g k
      + chunk_length options chunkDuration (elapsed_from options chunkDuration g k).
Proof.
  induction k as [|k IH]; intros g; [reflexivity|].
  apply (IH (g + chunk_length options chunkDuration g)).
Qed.

Lemma elapsed_from_zero (k : nat) :
  elapsed_from options chunkDuration 0 k = elapsed options chunkDuration k.
Proof.
  induction k as [|k IH]; [reflexivity|]. rewrite elapsed_from_S, IH. reflexivity.
Qed.

Lemma next_Yield (g g' : Stream) (s s' : nat) (chunk : ECGResult) :
  next host fuel this options chunkDuration g s = Returned (Yield chunk g', s') ->
  generatedDuration g'
  = generatedDuration g + chunk_length options chunkDuration (generatedDuration g)
  /\ exists base,
       generate host fuel this
         (with_duration (chunk_length options chunkDuration (generatedDuration g)) options) s
         = Returned (base, s')
       /\ chunk = shifted (generatedDuration g) base.
Proof.
  unfold next. destruct (_ <? _); [|discriminate].
  intros H. apply bind_Returned in H as (base & s1 & Hb & H).
  injection H as <- <- <-. split; [reflexivity|]. exists base. split; [exact Hb|reflexivity].
Qed.

Lemma pulls_nth (k : nat) :
  forall (g : Stream) (s s' : nat) (chunks : list ECGResult) (j : nat) (chunk : ECGResult),
    pulls host fuel this options chunkDuration k g s = Returned (chunks, s') ->
    chunks !! j = Some chunk ->
    exists base sj sj',
      generate host fuel this
        (with_duration
           (chunk_length options chunkDuration
              (elapsed_from options chunkDuration (generatedDuration g) j)) options) sj
        = Returned (base, sj')
      /\ chunk = shifted (elapsed_from options chunkDuration (generatedDuration g) j) base.
Proof.
  induction k as [|k IH]; intros g s s' chunks j chunk H Hj; simpl in H.
  - injection H as <- _. discriminate Hj.
  - apply bind_Returned in H as (p & s1 & Hp & H). destruct p as [c g'|].
    + apply bind_Returned in H as (rest & s2 & Hrest & H). injection H as <- _.
      apply next_Yield in Hp as (Hg & base & Hb & Hc).
      destruct j as [|j]; simpl in Hj.
      * injection Hj as <-. exists base, s, s1. split; assumption.
      * destruct (IH g' s1 s2 rest j chunk Hrest Hj) as (b & sj & sj' & H1 & H2).
        exists b, sj, sj'. simpl. rewrite <- Hg. split; assumption.
    + injection H as <- _. discriminate Hj.
Qed.

Lemma pulls_unbounded (k : nat) :
  totalDuration options = infinity ->
  forall (g : Stream) (s s' : nat) (chunks : list ECGResult),
    (forall j, (j < k)%nat ->
       (elapsed_from options chunkDuration (generatedDuration g) j <? infinity) = true) ->
    pulls host fuel this options chunkDuration k g s = Returned (chunks, s') ->
    length chunks = k.
Proof.
  intros Htotal. induction k as [|k IH]; intros g s s' chunks Hfin H; simpl in H.
  - injection H as <- _. reflexivity.
  - apply bind_Returned in H as (p & s1 & Hp & H). destruct p as [c g'|].
    + apply bind_Returned in H as (rest & s2 & Hrest & H). injection H as <- _.
      apply next_Yield in Hp as (Hg & _). simpl. f_equal.
      apply (IH g' s1 s2 rest); [|exact Hrest].
      intros j Hj. rewrite Hg. apply (Hfin (S j)). lia.
    + exfalso. unfold next in Hp. rewrite Htotal in Hp.
      pose proof (Hfin O ltac:(lia)) as H0. simpl in H0. rewrite H0 in Hp.
      apply bind_Returned in Hp as (b & s2 & _ & Hp). discriminate Hp.
Qed.

(** Chunk [j] of a stream is a result of [generate] for the chunk
    duration, with every time value offset by the duration elapsed
    before it, i.e. the sum of the durations of chunks [0 .. j-1]; its
    signal, sampling rate and metadata are those of the generated
    result.  For an unbounded stream ([options.duration] absent or
    falsy) the generator never finishes: as long as the elapsed
    duration is finite, [k] pulls that return give [k] chunks. *)
Theorem stream_chunks_are_offset (k : nat) (s s' : nat) (chunks : list ECGResult) :
  pulls host fuel this options chunkDuration k generateStream s = Returned (chunks, s') ->
  (forall (j : nat) (chunk : ECGResult),
     chunks !! j = Some chunk ->
     exists base sj sj',
       generate host fuel this
         (with_duration
            (chunk_length options chunkDuration (elapsed options chunkDuration j)) options) sj
         = Returned (base, sj')
       /\ time chunk = map (fun t => t + elapsed options chunkDuration j) (time base)
       /\ signal chunk = signal base
       /\ samplingRate chunk = samplingRate base
       /\ metadata chunk = metadata base)
  /\ (totalDuration options = infinity ->
      (forall j, (j < k)%nat -> (elapsed options chunkDuration j <? infinity) = true) ->
      length chunks = k).
Proof.
  intros H. split.
  - intros j chunk Hj.
    destruct (pulls_nth k generateStream s s' chunks j chunk H Hj)
      as (base & sj & sj' & Hb & ->).
    simpl in Hb. rewrite elapsed_from_zero in *.
    exists base, sj, sj'. repeat split. exact Hb.
  - intros Htotal Hfin. apply (pulls_unbounded k Htotal generateStream s s' chunks); [|exact H].
    intros j Hj. simpl. rewrite elapsed_from_zero. apply Hfin, Hj.
Qed.

(** Outside [atrialFibrillation], a chunk whose sample count is a
    non-negative integer other than [1] starts at its offset: its first
    time value is [0], the first time value of the generated result,
    plus the duration elapsed before the chunk. *)
Theorem stream_chunk_starts_at_its_offset (k : nat) (s s' : nat) (chunks : list ECGResult)
    (j : nat) (chunk : ECGResult) (n : Z) :
  pulls host fuel this options chunkDuration k generateStream s = Returned (chunks, s') ->
  chunks !! j = Some chunk ->
  default "normal"%string (o_pathology options) <> "atrialFibrillation"%string ->
  Math_ceil (chunk_length options chunkDuration (elapsed options chunkDuration j)
             * default (this_samplingRate this) (o_samplingRate options)) = JInt n ->
  (0 <= n)%Z ->
  truthy (of_Z n - 1) = true ->
  head (time chunk) = Some (0 + elapsed options chunkDuration j).
Proof.
  intros H Hj Haf Hc Hn Hx.
  destruct (pulls_nth k generateStream s s' chunks j chunk H Hj)
    as (base & sj & sj' & Hb & ->).
  simpl in Hb. rewrite elapsed_from_zero in *.
  apply (generated_time_starts_at_zero host fuel this _ sj sj' base n) in Hb;
    [|exact Haf|exact Hc|exact Hn|exact Hx].
  unfold shifted. cbn [time]. destruct (time base) as [|t0 ts]; [discriminate Hb|].
  injection Hb as ->. reflexivity.
Qed.

End Streaming.

Lemma stream_chunk_starts_at_its_offset_witness :
  exists chunk,
    three_chunks !! 2%nat = Some chunk
    /\ head (time chunk) = Some (0 + elapsed stream_request (Some 0.1%float) 2)%float
    /\ (0 + elapsed stream_request (Some 0.1%float) 2)%float = 0.20000000000000001%float.
Proof.
  assert (Hrun : pulls RefHost.host 2000 at_250Hz stream_request (Some 0.1%float) 3
                   generateStream 0 = Returned (three_chunks, 0))
    by (vm_compute; reflexivity).
  eexists. split; [reflexivity|]. split; [|vm_compute; reflexivity].
  apply (stream_chunk_starts_at_its_offset RefHost.host 2000 at_250Hz stream_request
           (Some 0.1%float) 3 0 0 three_chunks 2 _ 25 Hrun).
  - reflexivity.
  - discriminate.
  - vm_compute. reflexivity.
  - lia.
  - vm_compute. reflexivity.
Defined.

Lemma stream_chunks_are_offset_witness :
  pulls RefHost.host 2000 at_250Hz stream_request (Some 0.1%float) 3 generateStream 0
    = Returned (three_chunks, 0)
  /\ length three_chunks = 3
  /\ map (fun chunk => head (time chunk)) three_chunks
     = [Some 0%float; Some 0.10000000000000001%float; Some 0.20000000000000001%float]
  /\ map (fun chunk => last (time chunk)) three_chunks
     = [Some 0.10000000000000002%float; Some 0.20000000000000001%float;
        Some 0.30000000000000004%float].
Proof.
  assert (Hrun : pulls RefHost.host 2000 at_250Hz stream_request (Some 0.1%float) 3
                   generateStream 0 = Returned (three_chunks, 0))
    by (vm_compute; reflexivity).
  split; [exact Hrun|]. split; [|split; vm_compute; reflexivity].
  apply (stream_chunks_are_offset RefHost.host 2000 at_250Hz stream_request
           (Some 0.1%float) 3 0 0 three_chunks Hrun).
  - reflexivity.
  - intros j Hj.
    destruct j as [|[|[|j]]]; [vm_compute; reflexivity ..|lia].
Defined.

(** C9 on the code. The chunks of a stream are offset by the elapsed
    duration, but their time values are those of [generate], and these
    are not always an increasing range that starts at the offset.  In
    a stream of 0.004 s chunks at 250 Hz every chunk has one sample,
    and its time value is [NaN] (the uniform grid of [solveODE] divides
    by [timePoints - 1 = 0]), so that no chunk starts near [k * c].  In
    a stream of 0.6 s chunks with pathology [atrialFibrillation] the
    time values of the first chunk step back (from 0.598 to 0.478 after
    index 149) and end at 0.555, while the second chunk starts at
    0.6. *)
Theorem stream_chunks_are_not_increasing_ranges :
  (exists chunks s',
     pulls RefHost.host 200 at_250Hz stream_request (Some 0.004%float) 3 generateStream 0
       = Returned (chunks, s')
     /\ map time chunks = [[nan]; [nan]; [nan]])
  /\ (exists first second s',
        pulls RefHost.host 5000 at_250Hz
          (with_pathology "atrialFibrillation" stream_request) (Some 0.6%float) 2
          generateStream 0
          = Returned ([first; second], s')
        /\ ordered (time first) = false
        /\ nth 149 (time first) nan = 0.59847937494353065%float
        /\ nth 150 (time first) nan = 0.47815758454279028%float
        /\ last (time first) = Some 0.55466765165688425%float
        /\ head (time second) = Some 0.59999999999999998%float).
Proof.
  split.
  - eexists. eexists. split; [vm_compute; reflexivity|]. reflexivity.
  - eexists. eexists. eexists. split; [vm_compute; reflexivity|]. vm_compute. repeat split.
Qed.

(** * Further properties of the engine *)

(** ** The integrator *)

Section SolverFacts.

Import OdeSolver.
Local Open Scope float_scope.

Context (host : Host) {P : Type}.

(** [solveODE] returns one state per time point. *)
Theorem solveODE_pairs_times_and_states (fuel : nat) (func : @ODEFunction P)
    (options : @ODESolverOptions P) (t : list float) (y : list (list float)) :
  solveODE host fuel func options = Returned (t, y) -> length t = length y.
Proof. apply solveODE_pairs. Qed.

(** With a positive sample count [timePoints = n], [solveODE] returns
    exactly [n] time points and [n] states, whether the adaptive grid
    happened to have [n] points or was resampled. *)
Theorem solveODE_returns_requested_count (fuel : nat) (func : @ODEFunction P)
    (options : @ODESolverOptions P) (n : Z) (t : list float) (y : list (list float)) :
  timePoints options = Some (JInt n) ->
  (0 < n)%Z ->
  solveODE host fuel func options = Returned (t, y) ->
  Z.of_nat (length t) = n /\ Z.of_nat (length y) = n.
Proof.
  intros Htp Hn H. pose proof (solveODE_pairs host fuel func options t y H) as Hp.
  pose proof (solveODE_count host fuel func options n t y Htp Hn H) as Hc.
  split; [exact Hc|]. rewrite <- Hp. exact Hc.
Qed.

(** Without a sample count, the trajectory that [solveODE] returns
    starts with the initial time and the initial state. *)
Theorem solveODE_starts_at_initial_point (fuel : nat) (func : @ODEFunction P)
    (options : @ODESolverOptions P) (t : list float) (y : list (list float)) :
  timePoints options = None ->
  solveODE host fuel func options = Returned (t, y) ->
  exists ts ys,
    t = fst (timeSpan options) :: ts /\ y = initialConditions options :: ys.
Proof.
  unfold solveODE. intros Htp H.
  destruct (timeSpan options) as [t0 tf] eqn:Hts.
  apply obind_Returned in H as (final & Hf & H). rewrite Htp in H.
  injection H as <- <-.
  apply stepping_extends in Hf as ((ts & Ht) & (ys & Hy & _)). rewrite Hts in Ht.
  exists ts, ys. split; assumption.
Qed.

(** When the span is empty ([t0 < tf] is false: [tf <= t0], or a [NaN]
    bound) and no sample count is given, [solveODE] returns the initial
    point alone, without evaluating the vector field and with any fuel. *)
Theorem solveODE_empty_span (fuel : nat) (func : @ODEFunction P)
    (options : @ODESolverOptions P) :
  timePoints options = None ->
  (fst (timeSpan options) <? snd (timeSpan options)) = false ->
  solveODE host fuel func options
  = Returned ([fst (timeSpan options)], [initialConditions options]).
Proof.
  unfold solveODE, stepping. destruct (timeSpan options) as [t0 tf]. simpl. intros Htp Hspan.
  rewrite Htp. destruct fuel; simpl; rewrite Hspan; reflexivity.
Qed.

(** [solveODE] throws nothing of its own: if the vector field never
    throws, neither does the solver. *)
Theorem solveODE_throws_only_with_the_field (fuel : nat) (func : @ODEFunction P)
    (options : @ODESolverOptions P) :
  (forall t y p, quiet (func t y p)) -> quiet (solveODE host fuel func options).
Proof.
  intros Hq. apply (solveODE_quiet host func (params options)); [|reflexivity].
  intros t y. apply Hq.
Qed.

(** Both estimates of a step, and its error vector, have the dimension
    of the state, whatever the vector field returns. *)
Theorem rk45Step_keeps_dimension (func : @ODEFunction P) (t : float) (y : list float)
    (h : float) (prm : P) (y5 y4 error : list float) :
  rk45Step func t y h prm = Returned (y5, y4, error) ->
  length y5 = length y /\ length y4 = length y /\ length error = length y.
Proof.
  intros H. apply rk45Step_shape in H as (H5 & H4 & ->).
  rewrite length_map, length_seq. auto.
Qed.

(** Without a sample count, every state of the returned trajectory has
    the dimension of the initial state. *)
Theorem solveODE_states_keep_dimension (fuel : nat) (func : @ODEFunction P)
    (options : @ODESolverOptions P) (t : list float) (y : list (list float)) :
  timePoints options = None ->
  solveODE host fuel func options = Returned (t, y) ->
  Forall (fun state => length state = length (initialConditions options)) y.
Proof.
  unfold solveODE. intros Htp H.
  destruct (timeSpan options) as [t0 tf] eqn:Hts.
  apply obind_Returned in H as (final & Hf & H). rewrite Htp in H.
  injection H as <- <-.
  apply stepping_extends in Hf as (_ & (ys & Hy & Hall)).
  rewrite Hy. constructor; [reflexivity|exact Hall].
Qed.

End SolverFacts.

(** ** Runs of the integrator *)

Section SolverRuns.

Import OdeSolver.
Local Open Scope float_scope.

Lemma oscillator_run :
  exists t y, solveODE RefHost.host 1000 oscillator (oscillator_options 0 0.1 None)
              = Returned (t, y).
Proof. vm_compute. eexists. eexists. reflexivity. Qed.

Lemma oscillator_sampled_run :
  exists t y, solveODE RefHost.host 1000 oscillator (oscillator_options 0 1 (Some (JInt 5)))
              = Returned (t, y).
Proof. vm_compute. eexists. eexists. reflexivity. Qed.

Lemma oscillator_quiet (t : float) (y : list float) (p : unit) : quiet (oscillator t y p).
Proof. exact I. Qed.

Lemma solveODE_pairs_times_and_states_witness :
  exists t y,
    solveODE RefHost.host 1000 oscillator (oscillator_options 0 0.1 None) = Returned (t, y)
    /\ length t = length y.
Proof.
  destruct oscillator_run as (t & y & H). exists t, y. split; [exact H|].
  exact (solveODE_pairs_times_and_states RefHost.host 1000 oscillator _ t y H).
Defined.

Lemma solveODE_returns_requested_count_witness :
  exists t y,
    solveODE RefHost.host 1000 oscillator (oscillator_options 0 1 (Some (JInt 5)))
    = Returned (t, y)
    /\ Z.of_nat (length t) = 5%Z /\ Z.of_nat (length y) = 5%Z.
Proof.
  destruct oscillator_sampled_run as (t & y & H). exists t, y. split; [exact H|].
  apply (solveODE_returns_requested_count RefHost.host 1000 oscillator
           (oscillator_options 0 1 (Some (JInt 5))) 5 t y);
    [reflexivity|lia|exact H].
Defined.

Lemma solveODE_starts_at_initial_point_witness :
  exists t y ts ys,
    solveODE RefHost.host 1000 oscillator (oscillator_options 0 0.1 None) = Returned (t, y)
    /\ t = 0 :: ts /\ y = [1; 0] :: ys.
Proof.
  destruct oscillator_run as (t & y & H).
  destruct (solveODE_starts_at_initial_point RefHost.host 1000 oscillator
              (oscillator_options 0 0.1 None) t y eq_refl H) as (ts & ys & Ht & Hy).
  exists t, y, ts, ys. repeat split; assumption.
Defined.

Lemma solveODE_empty_span_witness :
  solveODE RefHost.host 0 oscillator (oscillator_options 2 1 None) = Returned ([2], [[1; 0]])
  /\ solveODE RefHost.host 0 oscillator (oscillator_options 0 nan None)
     = Returned ([0], [[1; 0]]).
Proof.
  split.
  - apply (solveODE_empty_span RefHost.host 0 oscillator (oscillator_options 2 1 None));
      reflexivity.
  - apply (solveODE_empty_span RefHost.host 0 oscillator (oscillator_options 0 nan None));
      reflexivity.
Defined.

Lemma solveODE_throws_only_with_the_field_witness :
  quiet (solveODE RefHost.host 1000 oscillator (oscillator_options 0 1 (Some (JInt 5)))).
Proof.
  apply (solveODE_throws_only_with_the_field RefHost.host 1000 oscillator).
  exact oscillator_quiet.
Defined.

Lemma rk45Step_keeps_dimension_witness :
  exists y5 y4 error,
    rk45Step (ECGSyn.ecgsynODE RefHost.host 100) (currentT ecg_start) (currentY ecg_start)
      (clamped 1 ecg_start) default_ode_params = Returned (y5, y4, error)
    /\ length y5 = 3%nat /\ length y4 = 3%nat /\ length error = 3%nat.
Proof.
  destruct ecg_first_step as (y5 & y4 & error & H). exists y5, y4, error.
  split; [exact H|]. exact (rk45Step_keeps_dimension _ _ _ _ _ _ _ _ H).
Defined.

Lemma solveODE_states_keep_dimension_witness :
  exists t y,
    solveODE RefHost.host 1000 oscillator (oscillator_options 0 0.1 None) = Returned (t, y)
    /\ Forall (fun state => length state = 2%nat) y.
Proof.
  destruct oscillator_run as (t & y & H). exists t, y. split; [exact H|].
  exact (solveODE_states_keep_dimension RefHost.host 1000 oscillator
           (oscillator_options 0 0.1 None) t y eq_refl H).
Defined.

End SolverRuns.

(** ** Resampling *)

Section Resampling.

Import OdeSolver.
Local Open Scope float_scope.

Lemma bracket_beyond (ts : list float) (x : float) :
  forall i,
    Forall (fun xi => (xi <? x) = true) (tail ts) ->
    bracket ts x i = (i + (length ts - 1))%nat.
Proof.
  induction ts as [|a ts IH]; intros i Hall; simpl; [lia|].
  destruct ts as [|b ts]; [simpl; lia|].
  simpl in Hall. inversion Hall as [|? ? Hb Hrest]; subst.
  rewrite Hb. rewrite IH by exact Hrest. simpl. lia.
Qed.

Lemma last_index (ts : list float) :
  ts <> [] -> (Z.of_nat (length ts - 1) =? Z.of_nat (length ts) - 1)%Z = true.
Proof. intros H. destruct ts; [contradiction|]. apply Z.eqb_eq. simpl length. lia. Qed.

(** [interpolate] clamps after the last stored point: a query that lies
    beyond every stored abscissa but the first gets the last stored
    value.  With a single stored point every query, [NaN] included,
    gets that point's value. *)
Theorem interpolate_clamps_after_last (xOriginal yOriginal : list float) (x : float) :
  xOriginal <> [] ->
  Forall (fun xi => (xi <? x) = true) (tail xOriginal) ->
  interpolate xOriginal yOriginal [x] = [at_ yOriginal (length xOriginal - 1)].
Proof.
  intros Hne Hall. unfold interpolate. simpl.
  rewrite (bracket_beyond xOriginal x 0 Hall). simpl.
  rewrite (last_index xOriginal Hne). reflexivity.
Qed.

Lemma interpolate_clamps_after_last_witness :
  interpolate [0; 1; 2] [10; 20; 30] [5] = [30]
  /\ interpolate [7] [10] [nan] = [10].
Proof.
  split.
  - apply (interpolate_clamps_after_last [0; 1; 2] [10; 20; 30] 5); [discriminate|].
    repeat constructor.
  - apply (interpolate_clamps_after_last [7] [10] nan); [discriminate|]. constructor.
Defined.

(** The same for the resampling of state vectors that [solveODE] uses. *)
Theorem interpolateMulti_clamps_after_last (tOriginal : list float)
    (yOriginal : list (list float)) (t : float) :
  tOriginal <> [] ->
  Forall (fun ti => (ti <? t) = true) (tail tOriginal) ->
  interpolateMulti tOriginal yOriginal [t] = [nth (length tOriginal - 1) yOriginal []].
Proof.
  intros Hne Hall. unfold interpolateMulti. simpl.
  rewrite (bracket_beyond tOriginal t 0 Hall). simpl.
  rewrite (last_index tOriginal Hne). reflexivity.
Qed.

Lemma interpolateMulti_clamps_after_last_witness :
  interpolateMulti [0; 1; 2] [[10; 1]; [20; 2]; [30; 3]] [5] = [[30; 3]].
Proof.
  apply (interpolateMulti_clamps_after_last [0; 1; 2] [[10; 1]; [20; 2]; [30; 3]] 5);
    [discriminate|repeat constructor].
Defined.

(** Up to the second stored abscissa [interpolate] works on the first
    interval: the stored value on an exact match with the first
    abscissa, and otherwise the line through the first two points, also
    for a query before the first abscissa (there is no clamp at the
    front). *)
Theorem interpolate_first_interval (x0 x1 y0 y1 x : float) (xs ys : list float) :
  (x1 <? x) = false ->
  interpolate (x0 :: x1 :: xs) (y0 :: y1 :: ys) [x]
  = [if x0 =? x then y0 else y0 + ((x - x0) / (x1 - x0)) * (y1 - y0)].
Proof.
  intros H. unfold interpolate. simpl. rewrite H.
  replace (Z.of_nat 0 =? Z.of_nat (S (S (length xs))) - 1)%Z with false
    by (symmetry; apply Z.eqb_neq; lia).
  reflexivity.
Qed.

Lemma interpolate_first_interval_witness :
  interpolate [0; 1; 2] [10; 20; 30] [-1] = [0]
  /\ interpolate [0; 1; 2] [10; 20; 30] [0] = [10]
  /\ interpolate [0; 1; 2] [10; 20; 30] [0.5] = [15].
Proof.
  pose proof (interpolate_first_interval 0 1 10 20 (-1) [2] [30] eq_refl) as H1.
  pose proof (interpolate_first_interval 0 1 10 20 0 [2] [30] eq_refl) as H2.
  pose proof (interpolate_first_interval 0 1 10 20 0.5 [2] [30] eq_refl) as H3.
  split; [exact H1|split; [exact H2|exact H3]].
Defined.

End Resampling.

(** ** Noise *)

Section NoiseFacts.

Local Open Scope float_scope.

Context (host : Host).

(** [addNoise] always returns, with a signal of the length of its
    input, and it draws exactly two random numbers per sample for the
    muscle artifact and two per sample for the Gaussian noise; baseline
    wander and powerline interference draw none. *)
Theorem addNoise_draws_two_per_sample (sig time : list float) (noise : NoiseOptions)
    (s : nat) :
  exists noisy,
    addNoise host sig time noise s
    = Returned (noisy,
                (s + 2 * length sig * (given (muscle noise) + given (gaussian noise)))%nat)
    /\ length noisy = length sig.
Proof. apply addNoise_draws. Qed.

End NoiseFacts.

(** ** Atrial fibrillation *)

Section IrregularFacts.

Local Open Scope float_scope.

Context (host : Host).

Lemma copy_segment_bounded (bound : nat) (time sig : list float) (avgRR a b : float) :
  forall st,
    Forall (fun t => (t <=? last_time time) = true) (newTime st) ->
    Forall (fun t => (t <=? last_time time) = true)
      (newTime (copy_segment bound time sig avgRR a b st)).
Proof.
  induction bound as [|bound IH]; intros st Hall; simpl; [exact Hall|].
  destruct (_ && _); [|exact Hall]. apply IH. simpl.
  destruct (_ <=? _) eqn:Hkeep; [|exact Hall].
  apply Forall_app. split; [exact Hall|]. constructor; [exact Hkeep|constructor].
Qed.

Lemma irregular_loop_bounded (this : ECGGenerator) (time sig : list float) (avgRR : float)
    (fuel : nat) :
  forall st st' s s',
    irregular_loop host fuel this time sig avgRR st s = Returned (st', s') ->
    Forall (fun t => (t <=? last_time time) = true) (newTime st) ->
    Forall (fun t => (t <=? last_time time) = true) (newTime st').
Proof.
  induction fuel as [|fuel IH]; intros st st' s s' H Hall; simpl in H;
    destruct (_ && _); try discriminate; try (injection H as <- _; exact Hall).
  apply bind_Returned in H as (r & s1 & _ & H).
  eapply IH; [exact H|]. simpl. apply copy_segment_bounded, Hall.
Qed.

(** Every time value that [makeIrregular] returns is at most the last
    source time (the guard [adjustedTime <= time[time.length - 1]]), and
    the two arrays it returns have the same length. *)
Theorem makeIrregular_stays_within_source (fuel : nat) (this : ECGGenerator)
    (time sig : list float) (rate : float) (s s' : nat) (t' sig' : list float) :
  makeIrregular host fuel this time sig rate s = Returned (t', sig', s') ->
  Forall (fun t => (t <=? last_time time) = true) t' /\ length t' = length sig'.
Proof.
  intros H. split; [|eapply makeIrregular_pairs, H].
  unfold makeIrregular in H.
  apply bind_Returned in H as (st & s1 & Hl & H). injection H as <- _ _.
  eapply irregular_loop_bounded; [exact Hl|constructor].
Qed.

(** On a trace of at most one sample [makeIrregular] returns two empty
    arrays, draws nothing and needs no fuel: its loop is not entered. *)
Theorem makeIrregular_of_short_trace (fuel : nat) (this : ECGGenerator)
    (time sig : list float) (rate : float) (s : nat) :
  (length sig <= 1)%nat ->
  makeIrregular host fuel this time sig rate s = Returned ([], [], s).
Proof.
  intros Hlen. unfold makeIrregular, bind.
  assert (Hc : int_lt_len (JInt 0) (Z.of_nat (length sig) - 1) = false)
    by (simpl; apply Z.ltb_ge; lia).
  destruct fuel; cbn [irregular_loop currentTime sourceIndex];
    rewrite Hc, andb_false_r; reflexivity.
Qed.

Lemma fib_wave_draws (t : float) (freqs : list float) :
  forall acc s,
    exists w, fib_wave host t freqs acc s = Returned (w, (s + length freqs)%nat).
Proof.
  induction freqs as [|f freqs IH]; intros acc s; cbn [fib_wave length].
  - eexists. unfold ret. f_equal. f_equal. lia.
  - rewrite (bind_of_Returned (random host) _ s (S s) (Math_random host s) eq_refl).
    cbv beta.
    destruct (IH (acc + 0.02 * Math_sin host
                          (2 * Math_PI * f * t + Math_random host s * 2 * Math_PI)) (S s))
      as (w & Hw).
    exists w. rewrite Hw. f_equal. f_equal. lia.
Qed.

(** [addFibrillatoryWaves] always returns, keeps the length of the
    signal, and draws six random phases per sample. *)
Theorem addFibrillatoryWaves_draws_six_per_sample (sig time : list float) (s : nat) :
  exists out,
    addFibrillatoryWaves host sig time s = Returned (out, (s + 6 * length sig)%nat)
    /\ length out = length sig.
Proof.
  unfold addFibrillatoryWaves. apply imapM_draws. intros i a s0.
  destruct (fib_wave_draws (OdeSolver.at_ time i) fib_frequencies 0 s0) as (w & Hw).
  exists (a + w). rewrite (bind_of_Returned _ _ _ _ _ Hw). reflexivity.
Qed.

End IrregularFacts.

Lemma makeIrregular_of_short_trace_witness :
  makeIrregular RefHost.host 0 at_250Hz [0%float] [0.5%float] 90%float 7 = Returned ([], [], 7%nat).
Proof.
  apply (makeIrregular_of_short_trace RefHost.host 0 at_250Hz [0%float] [0.5%float] 90%float 7). simpl. lia.
Defined.

(** ** Requests and results *)

Section GenerateFacts.

Local Open Scope float_scope.

Context (host : Host).

(** [time] and [signal] of a result have the same length, for every
    request and every pathology, [atrialFibrillation] included. *)
Theorem time_and_signal_have_equal_length (fuel : nat) (this : ECGGenerator)
    (options : ECGGeneratorOptions) (s s' : nat) (r : ECGResult) :
  generate host fuel this options s = Returned (r, s') ->
  length (time r) = length (signal r).
Proof. apply generate_pairs. Qed.

(** A result echoes its request: [samplingRate] is the per-call rate,
    or the instance's when none is given; [metadata] has the requested
    duration (default 10), pathology (default ["normal"]) and noise
    options.  A heart rate given in [customParams] is the one recorded,
    whatever the pathology sets: custom parameters are applied last
    (so is a [heartRate] property whose value is [undefined]). *)
Theorem result_echoes_request (fuel : nat) (this : ECGGenerator)
    (options : ECGGeneratorOptions) (s s' : nat) (r : ECGResult) :
  generate host fuel this options s = Returned (r, s') ->
  samplingRate r = default (this_samplingRate this) (o_samplingRate options)
  /\ m_duration (metadata r) = default 10 (o_duration options)
  /\ m_pathology (metadata r) = default "normal"%string (o_pathology options)
  /\ m_noise (metadata r) = o_noise options
  /\ (forall c h,
        o_customParams options = Some c -> c_heartRate c = Some h ->
        m_heartRate (metadata r) = h).
Proof.
  unfold generate. intros H.
  apply bind_Returned in H as (params & s1 & Hpar & H).
  apply bind_Returned in H as ([t ecg] & s2 & _ & H).
  apply bind_Returned in H as ([t2 ecg2] & s3 & _ & H).
  apply bind_Returned in H as (ecg3 & s4 & _ & H).
  injection H as <- _. simpl. repeat split.
  intros c h Hc Hh. unfold parameters in Hpar. rewrite Hc in Hpar.
  apply bind_Returned in Hpar as (v & s0 & _ & Hpar). injection Hpar as <- _.
  simpl. rewrite Hh. reflexivity.
Qed.

Lemma zero_times_is_falsy (x : float) : int_truthy (Math_ceil (0 * x)) = false.
Proof.
  unfold Math_ceil, rounded. rewrite mul_spec.
  replace (Prim2SF 0) with (S754_zero false) by reflexivity.
  destruct (Prim2SF x) as [sx|sx| |sx m e]; reflexivity.
Qed.

(** A zero duration is not rejected: without pathology and noise,
    [generate] returns the single sample [0] at time [0], with any fuel
    (the integrator does not take a step). *)
Theorem zero_duration_gives_one_sample (fuel : nat) (this : ECGGenerator)
    (options : ECGGeneratorOptions) (s : nat) :
  o_duration options = Some 0 ->
  o_pathology options = None ->
  o_noise options = None ->
  exists r,
    generate host fuel this options s = Returned (r, s)
    /\ time r = [0] /\ signal r = [0].
Proof.
  intros Hd Hp Hn. unfold generate. rewrite Hd, Hp, Hn.
  cbn [from_option id negb String.eqb Ascii.eqb Bool.eqb].
  assert (Hpar : exists params,
             parameters host (default 60 (o_heartRate options)) "normal"
               (o_customParams options) s = Returned (params, s))
    by (eexists; reflexivity).
  destruct Hpar as (params & Hpar). rewrite (bind_of_Returned _ _ _ _ _ Hpar).
  set (rate := from_option id (this_samplingRate this) (o_samplingRate options)).
  assert (Hgen : ECGSyn.generateECGSyn host fuel 0 rate params
                   (from_option id 1e-6 (o_solverTolerance options))
                 = Returned ([0], [0])).
  { unfold ECGSyn.generateECGSyn, OdeSolver.solveODE, OdeSolver.stepping, ECGSyn.problem.
    cbn [OdeSolver.timeSpan OdeSolver.timePoints OdeSolver.initialConditions
         OdeSolver.maxStepSize OdeSolver.params OdeSolver.tolerance OdeSolver.minStepSize].
    rewrite (zero_times_is_falsy rate). cbn [andb].
    destruct fuel; reflexivity. }
  unfold bind, lift. rewrite Hgen. eexists. split; [reflexivity|split; reflexivity].
Qed.

(** Nor is a negative duration: when [duration > 0] is false and
    [ceil (duration * samplingRate)] is a negative integer, [generate]
    (without pathology and noise) returns empty [time] and [signal]
    arrays, with any fuel. *)
Theorem negative_duration_gives_empty_result (fuel : nat) (this : ECGGenerator)
    (options : ECGGeneratorOptions) (s : nat) (d : float) (n : Z) :
  o_duration options = Some d ->
  (0 <? d) = false ->
  Math_ceil (d * default (this_samplingRate this) (o_samplingRate options)) = JInt n ->
  (n < 0)%Z ->
  o_pathology options = None ->
  o_noise options = None ->
  exists r,
    generate host fuel this options s = Returned (r, s)
    /\ time r = [] /\ signal r = [].
Proof.
  intros Hd Hneg Hc Hn Hp Hno. unfold generate. rewrite Hd, Hp, Hno.
  cbn [from_option id negb String.eqb Ascii.eqb Bool.eqb] in *.
  assert (Hpar : exists params,
             parameters host (default 60 (o_heartRate options)) "normal"
               (o_customParams options) s = Returned (params, s))
    by (eexists; reflexivity).
  destruct Hpar as (params & Hpar). rewrite (bind_of_Returned _ _ _ _ _ Hpar).
  set (rate := from_option id (this_samplingRate this) (o_samplingRate options)) in *.
  assert (Hgen : ECGSyn.generateECGSyn host fuel d rate params
                   (from_option id 1e-6 (o_solverTolerance options))
                 = Returned ([], [])).
  { unfold ECGSyn.generateECGSyn, OdeSolver.solveODE, OdeSolver.stepping, ECGSyn.problem.
    cbn [OdeSolver.timeSpan OdeSolver.timePoints OdeSolver.initialConditions
         OdeSolver.maxStepSize OdeSolver.params OdeSolver.tolerance OdeSolver.minStepSize].
    rewrite Hc.
    assert (Hloop : forall prm tol minStep maxStep st,
              OdeSolver.currentT st = 0 ->
              OdeSolver.adaptive host (ECGSyn.ecgsynODE host fuel) prm d tol minStep maxStep
                fuel st = Returned st).
    { intros prm tol minStep maxStep st Ht. destruct fuel; simpl; rewrite Ht, Hneg; reflexivity. }
    rewrite Hloop by reflexivity. cbn [obind OdeSolver.tResult OdeSolver.yResult length].
    assert (Ht : int_truthy (JInt n) = true) by (simpl; apply negb_true_iff, Z.eqb_neq; lia).
    assert (Hl : len_eq_int 1 (JInt n) = false) by (unfold len_eq_int; apply Z.eqb_neq; lia).
    rewrite Ht, Hl. cbn [andb negb OdeSolver.turns].
    assert (Hb : (n <=? 2 ^ 53)%Z = true) by (apply Z.leb_le; lia).
    rewrite Hb. cbn [obind]. replace (Z.to_nat n) with 0%nat by lia. reflexivity. }
  unfold bind, lift. rewrite Hgen. eexists. split; [reflexivity|split; reflexivity].
Qed.

(** The object that [generateMultiLead] returns has an entry for
    exactly the requested leads. *)
Theorem multi_lead_has_the_requested_leads (fuel : nat) (this : ECGGenerator)
    (options : ECGGeneratorOptions) (leads : option (list string)) (s s' : nat)
    (result : gmap string LeadResult) :
  generateMultiLead host fuel this options leads s = Returned (result, s') ->
  forall lead, is_Some (result !! lead) <-> lead ∈ default default_leads leads.
Proof.
  unfold generateMultiLead. intros H lead.
  apply bind_Returned in H as (leadII & s1 & _ & H).
  apply lift_Returned in H as [H _]. rewrite for_of_derive in H.
  destruct (existsb throws _); [discriminate H|]. injection H as <-.
  destruct (decide (lead ∈ default default_leads leads)) as [Hin|Hout].
  - rewrite (foldl_derive_lookup leadII _ ∅ lead Hin). split; [auto|eauto].
  - rewrite (foldl_derive_other leadII _ ∅ lead Hout), lookup_empty.
    split; [intros [x Hx]; discriminate|contradiction].
Qed.

(** The quick functions build a generator first, so they throw the
    constructor's error for a sampling rate below 250 Hz, before any
    generation and with any fuel. *)
Theorem quick_functions_check_the_rate (fuel : nat) (pathology : string)
    (duration heartRate : option float) (rate : float) (s : nat) :
  (rate <? 250) = true ->
  Index.generateNormalECG host fuel duration heartRate (Some rate) s
  = Thrown (Error "Sampling rate must be at least 250 Hz for ECG generation")
  /\ Index.generatePathologicalECG host fuel pathology duration (Some rate) s
     = Thrown (Error "Sampling rate must be at least 250 Hz for ECG generation").
Proof.
  intros H. unfold Index.generateNormalECG, Index.generatePathologicalECG, bind, lift,
    new_ECGGenerator.
  cbn [from_option id]. rewrite H. split; reflexivity.
Qed.

(** For a rate that the constructor accepts, [generateNormalECG] is
    [generate] on a fresh generator of that rate, with its own defaults
    (10 s, 70 bpm, 1000 Hz), reduced to the two arrays. *)
Theorem generateNormalECG_is_generate (fuel : nat) (duration heartRate rate : option float)
    (s : nat) :
  (default 1000 rate <? 250) = false ->
  Index.generateNormalECG host fuel duration heartRate rate s
  = match generate host fuel {| this_samplingRate := default 1000 rate |}
            {| o_samplingRate := None; o_duration := Some (default 10 duration);
               o_heartRate := Some (default 70 heartRate); o_pathology := None;
               o_noise := None; o_customParams := None; o_solverTolerance := None |} s with
    | Returned (r, s') => Returned ((time r, signal r), s')
    | Thrown e => Thrown e
    | Diverged => Diverged
    end.
Proof.
  intros H. unfold Index.generateNormalECG, new_ECGGenerator.
  cbn [from_option id]. rewrite H. unfold bind at 1. cbn [lift].
  unfold bind. destruct (generate _ _ _ _ _) as [[r s']| |]; reflexivity.
Qed.

End GenerateFacts.

(** ** Post-processing *)

Section PostProcessing.

Local Open Scope float_scope.

Context (host : Host).

(** [addSTElevation] keeps the length of the signal and leaves every
    sample whose time is outside the ST window as it is; the window is
    that of a 70 bpm beat, whatever the heart rate of the request. *)
Theorem addSTElevation_outside_window (sig time : list float) (i : nat) (v : float) :
  sig !! i = Some v ->
  in_ST_window (OdeSolver.at_ time i) = false ->
  length (addSTElevation host sig time) = length sig
  /\ addSTElevation host sig time !! i = Some v.
Proof.
  intros Hv Hw. unfold addSTElevation. split; [apply length_imap|].
  rewrite list_lookup_imap, Hv. simpl. unfold in_ST_window in Hw. simpl in Hw.
  rewrite Hw. reflexivity.
Qed.

(** [addUWaves] keeps the length of the signal and leaves every sample
    whose time is outside the U-wave window of the request's heart rate
    as it is. *)
Theorem addUWaves_outside_window (sig time : list float) (heartRate : float)
    (i : nat) (v : float) :
  sig !! i = Some v ->
  in_U_window heartRate (OdeSolver.at_ time i) = false ->
  length (addUWaves host sig time heartRate) = length sig
  /\ addUWaves host sig time heartRate !! i = Some v.
Proof.
  intros Hv Hw. unfold addUWaves. split; [apply length_imap|].
  rewrite list_lookup_imap, Hv. simpl. unfold in_U_window in Hw. simpl in Hw.
  rewrite Hw. reflexivity.
Qed.

(** Every entry of the enhanced table returns; only
    [atrialFibrillation] draws a random number (one, for its heart rate),
    the other transforms are pure. *)
Theorem enhanced_transform_draws (p : string)
    (f : ECGSyn.ECGSynParameters -> M ECGSyn.ECGSynParameters)
    (params : ECGSyn.ECGSynParameters) (s : nat) :
  Enhanced.ENHANCED_PATHOLOGY_PARAMS host !! p = Some f ->
  exists params',
    f params s
    = Returned (params', if String.eqb p "atrialFibrillation" then S s else s).
Proof. apply enhanced_returns. Qed.

End PostProcessing.

(** ** Runs of the generator *)

Section GeneratorRuns.

Lemma fibrillation_run :
  exists r s',
    generate RefHost.host 5000 at_250Hz
      (with_pathology "atrialFibrillation" (plain_request 0.3)) 0 = Returned (r, s').
Proof. vm_compute. eexists. eexists. reflexivity. Qed.

Lemma time_and_signal_have_equal_length_witness :
  exists r s',
    generate RefHost.host 5000 at_250Hz
      (with_pathology "atrialFibrillation" (plain_request 0.3)) 0 = Returned (r, s')
    /\ length (time r) = length (signal r).
Proof.
  destruct fibrillation_run as (r & s' & H). exists r, s'. split; [exact H|].
  exact (time_and_signal_have_equal_length RefHost.host _ _ _ _ _ _ H).
Defined.

Lemma result_echoes_request_witness :
  exists r s',
    generate RefHost.host 200 at_250Hz slow_at_100_bpm 0 = Returned (r, s')
    /\ samplingRate r = 250%float
    /\ m_duration (metadata r) = 0.02%float
    /\ m_pathology (metadata r) = "bradycardia"%string
    /\ m_noise (metadata r) = None
    /\ m_heartRate (metadata r) = Some 100%float.
Proof.
  assert (Hrun : exists r s',
             generate RefHost.host 200 at_250Hz slow_at_100_bpm 0 = Returned (r, s'))
    by (vm_compute; eexists; eexists; reflexivity).
  destruct Hrun as (r & s' & H). exists r, s'. split; [exact H|].
  destruct (result_echoes_request RefHost.host _ _ _ _ _ _ H) as (H1 & H2 & H3 & H4 & H5).
  split; [exact H1|]. split; [exact H2|]. split; [exact H3|]. split; [exact H4|].
  exact (H5 heart_rate_100 (Some 100%float) eq_refl eq_refl).
Defined.

Lemma zero_duration_gives_one_sample_witness :
  exists r,
    generate RefHost.host 0 at_250Hz (plain_request 0) 0 = Returned (r, 0)
    /\ time r = [0%float] /\ signal r = [0%float].
Proof.
  apply (zero_duration_gives_one_sample RefHost.host 0 at_250Hz (plain_request 0) 0);
    reflexivity.
Defined.

Lemma negative_duration_gives_empty_result_witness :
  exists r,
    generate RefHost.host 0 at_250Hz (plain_request (-1)) 0 = Returned (r, 0)
    /\ time r = [] /\ signal r = [].
Proof.
  apply (negative_duration_gives_empty_result RefHost.host 0 at_250Hz (plain_request (-1)) 0
           (-1)%float (-250)%Z); reflexivity.
Defined.

Lemma multi_lead_has_the_requested_leads_witness :
  exists result s',
    generateMultiLead RefHost.host 200 at_250Hz (plain_request 0.02)
      (Some ["II"; "aVR"]%string) 0 = Returned (result, s')
    /\ (is_Some (result !! "aVR"%string) <-> "aVR"%string ∈ ["II"; "aVR"]%string)
    /\ (is_Some (result !! "V1"%string) <-> "V1"%string ∈ ["II"; "aVR"]%string).
Proof.
  destruct short_run as (r & s' & Hr).
  destruct (generateMultiLead_lookup RefHost.host 200 at_250Hz (plain_request 0.02)
              (Some ["II"; "aVR"]%string) 0 s' r "aVR"%string Hr)
    as (result & H & _); [apply list_elem_of_In; simpl; tauto|reflexivity|].
  exists result, s'. split; [exact H|].
  split; exact (multi_lead_has_the_requested_leads RefHost.host _ _ _ _ _ _ _ H _).
Defined.

Lemma quick_functions_check_the_rate_witness :
  Index.generateNormalECG RefHost.host 0 None None (Some 100%float) 0
  = Thrown (Error "Sampling rate must be at least 250 Hz for ECG generation")
  /\ Index.generatePathologicalECG RefHost.host 0 "stemi" None (Some 100%float) 0
     = Thrown (Error "Sampling rate must be at least 250 Hz for ECG generation").
Proof.
  apply (quick_functions_check_the_rate RefHost.host 0 "stemi" None None 100%float 0).
  reflexivity.
Defined.

Lemma generateNormalECG_is_generate_witness :
  Index.generateNormalECG RefHost.host 200 (Some 0.02%float) None (Some 250%float) 0
  = match generate RefHost.host 200 at_250Hz
            {| o_samplingRate := None; o_duration := Some 0.02%float;
               o_heartRate := Some 70%float; o_pathology := None;
               o_noise := None; o_customParams := None; o_solverTolerance := None |} 0 with
    | Returned (r, s') => Returned ((time r, signal r), s')
    | Thrown e => Thrown e
    | Diverged => Diverged
    end.
Proof.
  apply (generateNormalECG_is_generate RefHost.host 200 (Some 0.02%float) None
           (Some 250%float) 0).
  reflexivity.
Defined.

Lemma makeIrregular_stays_within_source_witness :
  exists t' sig' s',
    makeIrregular RefHost.host 100 at_250Hz
      [0; 0.2; 0.4; 0.6; 0.8; 1]%float [1; 2; 3; 4; 5; 6]%float 120%float 0
    = Returned (t', sig', s')
    /\ Forall (fun t => (t <=? 1)%float = true) t'
    /\ length t' = length sig'.
Proof.
  assert (Hrun : exists t' sig' s',
             makeIrregular RefHost.host 100 at_250Hz
               [0; 0.2; 0.4; 0.6; 0.8; 1]%float [1; 2; 3; 4; 5; 6]%float 120%float 0
             = Returned (t', sig', s'))
    by (vm_compute; eexists; eexists; eexists; reflexivity).
  destruct Hrun as (t' & sig' & s' & H). exists t', sig', s'. split; [exact H|].
  exact (makeIrregular_stays_within_source RefHost.host _ _ _ _ _ _ _ _ _ H).
Defined.

Lemma addSTElevation_outside_window_witness :
  length (addSTElevation RefHost.host [1; 2]%float [0; 0.1]%float) = 2
  /\ addSTElevation RefHost.host [1; 2]%float [0; 0.1]%float !! 0 = Some 1%float.
Proof.
  apply (addSTElevation_outside_window RefHost.host [1; 2]%float [0; 0.1]%float 0 1%float);
    reflexivity.
Defined.

Lemma addUWaves_outside_window_witness :
  length (addUWaves RefHost.host [1; 2]%float [0; 0.1]%float 60) = 2
  /\ addUWaves RefHost.host [1; 2]%float [0; 0.1]%float 60 !! 1 = Some 2%float.
Proof.
  apply (addUWaves_outside_window RefHost.host [1; 2]%float [0; 0.1]%float 60 1 2%float);
    reflexivity.
Defined.

Lemma enhanced_transform_draws_witness :
  exists f params',
    Enhanced.ENHANCED_PATHOLOGY_PARAMS RefHost.host !! "atrialFibrillation"%string = Some f
    /\ f ECGSyn.DEFAULT_ECGSYN_PARAMS 0 = Returned (params', 1).
Proof.
  assert (Hf : exists f,
             Enhanced.ENHANCED_PATHOLOGY_PARAMS RefHost.host !! "atrialFibrillation"%string
             = Some f) by (eexists; reflexivity).
  destruct Hf as (f & Hf).
  destruct (enhanced_transform_draws RefHost.host "atrialFibrillation" f
              ECGSyn.DEFAULT_ECGSYN_PARAMS 0 Hf) as (params' & H).
  exists f, params'. split; [exact Hf|exact H].
Defined.

End GeneratorRuns.

(** ** Durations that are not finite *)

Section Unbounded.

Local Open Scope float_scope.

Context (host : Host).

Lemma at_least_250_is_positive (rate : float) :
  (250 <=? rate) = true ->
  Prim2SF rate = S754_infinity false \/ exists m e, Prim2SF rate = S754_finite false m e.
Proof.
  rewrite leb_spec.
  replace (Prim2SF 250) with (S754_finite false 8796093022208000 (-45))
    by (vm_compute; reflexivity).
  destruct (Prim2SF rate) as [s|s| |s m e]; try discriminate.
  - destruct s; [discriminate|]. left. reflexivity.
  - destruct s; [discriminate|]. right. eauto.
Qed.

Lemma infinite_count (rate : float) :
  (250 <=? rate) = true -> Math_ceil (infinity * rate) = JInf false.
Proof.
  intros H. unfold Math_ceil, rounded. rewrite mul_spec.
  replace (Prim2SF infinity) with (S754_infinity false) by reflexivity.
  destruct (at_least_250_is_positive rate H) as [->|(m & e & ->)]; reflexivity.
Qed.

(** [solveODE] never returns for a sample count of [+Infinity]: the
    loop that builds the uniform grid has no end. *)
Theorem solveODE_with_infinite_count {P : Type} (fuel : nat)
    (func : @OdeSolver.ODEFunction P) (options : @OdeSolver.ODESolverOptions P)
    (t : list float) (y : list (list float)) :
  OdeSolver.timePoints options = Some (JInf false) ->
  OdeSolver.solveODE host fuel func options <> Returned (t, y).
Proof. apply infinite_grid_has_no_end. Qed.

(** An infinite duration is not rejected either: at a sampling rate of
    at least 250 Hz, [generate] then never returns a result, whatever
    the fuel. *)
Theorem infinite_duration_never_returns (fuel : nat) (this : ECGGenerator)
    (options : ECGGeneratorOptions) (s s' : nat) (r : ECGResult) :
  o_duration options = Some infinity ->
  (250 <=? default (this_samplingRate this) (o_samplingRate options)) = true ->
  generate host fuel this options s <> Returned (r, s').
Proof.
  intros Hd Hrate H. unfold generate in H. rewrite Hd in H.
  apply bind_Returned in H as (params & s1 & _ & H).
  apply bind_Returned in H as ([t ecg] & s2 & Hgen & _).
  apply lift_Returned in Hgen as [Hgen _].
  unfold ECGSyn.generateECGSyn in Hgen.
  apply obind_Returned in Hgen as ([t1 y] & Hs & _).
  revert Hs. apply infinite_grid_has_no_end. simpl.
  cbn [from_option id]. rewrite (infinite_count _ Hrate). reflexivity.
Qed.

End Unbounded.

Lemma solveODE_with_infinite_count_witness :
  pending (OdeSolver.solveODE RefHost.host 10 oscillator
             (oscillator_options 0 1 (Some (JInf false)))).
Proof.
  destruct (OdeSolver.solveODE RefHost.host 10 oscillator
              (oscillator_options 0 1 (Some (JInf false)))) as [[t y]| |] eqn:H;
    [|exact I|exact I].
  exact (solveODE_with_infinite_count RefHost.host 10 oscillator
           (oscillator_options 0 1 (Some (JInf false))) t y eq_refl H).
Defined.

Lemma infinite_duration_never_returns_witness :
  pending (generate RefHost.host 10 at_250Hz (plain_request infinity) 0).
Proof.
  destruct (generate RefHost.host 10 at_250Hz (plain_request infinity) 0)
    as [[r s']| |] eqn:H; [|exact I|exact I].
  exact (infinite_duration_never_returns RefHost.host 10 at_250Hz (plain_request infinity)
           0 s' r eq_refl eq_refl H).
Defined.
